(** * Snow/Stream gauge logger (Feather M0 / ULP): observation pipeline

    A shallow embedding of the median-filtered sampling, quality control,
    Bosch sensor identification, presence monitoring, observation assembly
    and SD logging routines of the firmware, with the properties checked
    against them.

    Conventions.
    - [unsigned int] and [int] are 32 bits on the SAMD21; their values are
      kept in [Z] and the conversions are written out ([to_uint], [to_int]).
    - [float] is IEEE binary32 and [double] binary64; values are
      [spec_float] and every rounding is written out.
    - The globals of the sketch are the fields of [State]; the answers of
      the hardware and of the Arduino libraries are the fields of [Env];
      everything the firmware writes (display, serial console, SD card) or
      asks a driver to do is appended to the [trace] of the state. *)

From Stdlib Require Import ZArith Lia Bool List String Ascii.
From Stdlib Require Import Floats.SpecFloat.
From Stdlib Require Import Numbers.DecimalString Numbers.DecimalPos Numbers.DecimalN.
From Stdlib Require Import Sorting.Sorted.
From stdpp Require Import base list strings.

Local Open Scope Z_scope.

(** ** Machine integers *)

Definition to_uint (x : Z) : Z := x mod 2 ^ 32.

Definition to_int (x : Z) : Z :=
  let u := to_uint x in if u <? 2 ^ 31 then u else u - 2 ^ 32.

(** [~x] on an [int], as a 32-bit pattern. *)
Definition bit_not (x : Z) : Z := to_uint (Z.lnot x).

(** ** Floating point *)

(** A [float] or [double] value is a [spec_float]: a sign, a mantissa and
    an exponent, or a zero, an infinity or NaN.  Promotion of a [float]
    to [double] does not change the value and is therefore not written;
    every operation names the format it rounds to. *)

Definition f32_of_Z (n : Z) : spec_float := binary_normalize 24 128 n 0 false.
Definition f64_of_Z (n : Z) : spec_float := binary_normalize 53 1024 n 0 false.
Definition f32_mul : spec_float -> spec_float -> spec_float := SFmul 24 128.
Definition f32_div : spec_float -> spec_float -> spec_float := SFdiv 24 128.
Definition f64_mul : spec_float -> spec_float -> spec_float := SFmul 53 1024.
Definition f64_div : spec_float -> spec_float -> spec_float := SFdiv 53 1024.

(** Conversion of a [double] to [float] (round to nearest even). *)
Definition f64_to_f32 (x : spec_float) : spec_float :=
  match x with
  | S754_finite s m e => binary_round 24 128 s m e
  | _ => x
  end.

Definition isnan (x : spec_float) : bool :=
  match x with S754_nan => true | _ => false end.

(** The value of a finite number as (signed mantissa, exponent). *)
Definition sf_num (x : spec_float) : Z * Z :=
  match x with
  | S754_finite s m e => (cond_Zopp s (Zpos m), e)
  | _ => (0, 0)
  end.

Definition num_compare (a b : Z * Z) : comparison :=
  let e := Z.min (snd a) (snd b) in
  (fst a * 2 ^ (snd a - e) ?= fst b * 2 ^ (snd b - e)).

(** Comparison of two values, [None] when either is NaN.  The operands of
    a C comparison are first brought to a common type, which is exact, so
    the comparison is the one of the values, whatever their formats. *)
Definition fcompare (x y : spec_float) : option comparison :=
  match x, y with
  | S754_nan, _ | _, S754_nan => None
  | S754_infinity s1, S754_infinity s2 =>
      Some (match s1, s2 with
            | true, false => Lt
            | false, true => Gt
            | _, _ => Eq
            end)
  | S754_infinity s, _ => Some (if s then Lt else Gt)
  | _, S754_infinity s => Some (if s then Gt else Lt)
  | _, _ => Some (num_compare (sf_num x) (sf_num y))
  end.

(** [x < y], [x > y], [x <= y], [x != y] of C. *)
Definition flt (x y : spec_float) : bool :=
  match fcompare x y with Some Lt => true | _ => false end.
Definition fgt (x y : spec_float) : bool := flt y x.
Definition fle (x y : spec_float) : bool :=
  match fcompare x y with Some Lt | Some Eq => true | _ => false end.
Definition fne (x y : spec_float) : bool :=
  match fcompare x y with Some Eq => false | _ => true end.

(** [(int) x]: truncation toward zero.  Undefined in C for NaN, the
    infinities and values outside [int]; 0 and the unbounded integer here.
    The values converted below are finite and small. *)
Definition f2i (x : spec_float) : Z :=
  match x with
  | S754_finite s m e => cond_Zopp s (Z.shiftl (Zpos m) e)
  | _ => 0
  end.

(** ** printf conversions *)

Definition digits (n : Z) : string := NilZero.string_of_uint (N.to_uint (Z.to_N n)).

Fixpoint repeat_char (c : ascii) (n : nat) : string :=
  match n with O => EmptyString | S k => String c (repeat_char c k) end.

Definition pad_left (c : ascii) (w : nat) (s : string) : string :=
  repeat_char c (w - String.length s) +:+ s.

(** [%d] *)
Definition fmt_d (n : Z) : string :=
  if n <? 0 then "-" +:+ digits (- n) else digits n.

(** [%0wd]: the sign comes first, zeros fill up to the width [w]. *)
Definition fmt_0d (w : nat) (n : Z) : string :=
  if n <? 0 then "-" +:+ pad_left "0" (w - 1) (digits (- n))
  else pad_left "0" w (digits n).

(** [%wd]: spaces fill up to the width [w]. *)
Definition fmt_wd (w : nat) (n : Z) : string := pad_left " " w (fmt_d n).

(** [%u] given an [int]: the same 32 bits read as unsigned. *)
Definition fmt_u (n : Z) : string := digits (to_uint n).

Definition hex_digit (n : Z) : string :=
  String.substring (Z.to_nat n) 1 "0123456789ABCDEF".

(** [%02X] of a byte. *)
Definition fmt_02X (n : Z) : string := hex_digit (n / 16) +:+ hex_digit (n mod 16).

(** [x % y] of C on [int]: the remainder has the sign of [x]. *)
Definition c_rem (x y : Z) : Z := Z.rem x y.


(** ** Sorting support (SF): myswap, mysort *)

(** An array is a list; a read outside it is undefined in C and yields 0
    here, a write outside it is dropped.  Neither happens below: every
    index is checked against the length in the lemmas. *)
Definition aget (a : list Z) (k : nat) : Z := default 0 (a !! k).

(** [myswap(&a[p], &a[q])]: t=*p; *p=*q; *q=t. *)
Definition myswap (a : list Z) (p q : nat) : list Z :=
  let t := aget a p in
  let a1 := <[p := aget a q]> a in
  <[q := t]> a1.

(** Inner loop of [mysort]: [cnt] iterations from index [j],
    [if (a[j] > a[j+1]) myswap(&a[j], &a[j+1])]. *)
Fixpoint mysort_inner (a : list Z) (j : nat) (cnt : nat) : list Z :=
  match cnt with
  | O => a
  | S c =>
      let a' := if aget a j >? aget a (j + 1) then myswap a j (j + 1) else a in
      mysort_inner a' (S j) c
  end.

(** Outer loop of [mysort]: [cnt] passes from pass number [i]; pass [i]
    runs the inner loop for [j = 0 .. n-i-2]. *)
Fixpoint mysort_outer (a : list Z) (n i : nat) (cnt : nat) : list Z :=
  match cnt with
  | O => a
  | S c => mysort_outer (mysort_inner a 0 (n - i - 1)) n (S i) c
  end.

(** [mysort(a, n)], for [n >= 1] (the only call passes [SG_BUCKETS]):
    [for (i = 0; i < n-1; i++) for (j = 0; j < n-i-1; j++) ...]. *)
Definition mysort (a : list Z) (n : nat) : list Z :=
  mysort_outer a n 0 (n - 1).

(** ** Status bits and constants *)

Definition SSB_PWRON : Z := 0x1.
Definition SSB_SD : Z := 0x2.
Definition SSB_RTC : Z := 0x4.
Definition SSB_OLED : Z := 0x8.
Definition SSB_N2S : Z := 0x10.
Definition SSB_FROM_N2S : Z := 0x20.
Definition SSB_AS5600 : Z := 0x40.
Definition SSB_BMX_1 : Z := 0x80.
Definition SSB_BMX_2 : Z := 0x100.
Definition SSB_HTU21DF : Z := 0x200.
Definition SSB_SI1145 : Z := 0x400.
Definition SSB_MCP_1 : Z := 0x800.
Definition SSB_DS_1 : Z := 0x1000.

Definition BMX_ADDRESS_1 : Z := 0x77.
Definition BMX_ADDRESS_2 : Z := 0x76.
Definition BMP280_CHIP_ID : Z := 0x58.
Definition BME280_BMP390_CHIP_ID : Z := 0x60.
Definition BMP388_CHIP_ID : Z := 0x50.
Definition BMX_TYPE_UNKNOWN : Z := 0.
Definition BMX_TYPE_BMP280 : Z := 1.
Definition BMX_TYPE_BME280 : Z := 2.
Definition BMX_TYPE_BMP388 : Z := 3.
Definition BMX_TYPE_BMP390 : Z := 4.

Definition SG_BUCKETS : nat := 60.
Definition SD_obsdir : string := "/OBS".

(** Quality control envelopes; the literals are [double]s. *)
Definition QC_MIN_T : spec_float := SFopp (f64_of_Z 40).
Definition QC_MAX_T : spec_float := f64_of_Z 60.
Definition QC_ERR_T : spec_float := SFopp (f64_div (f64_of_Z 9999) (f64_of_Z 10)).
Definition QC_MIN_P : spec_float := f64_of_Z 300.
Definition QC_MAX_P : spec_float := f64_of_Z 1100.
Definition QC_ERR_P : spec_float := SFopp (f64_div (f64_of_Z 9999) (f64_of_Z 10)).
Definition QC_MIN_RH : spec_float := S754_zero false.
Definition QC_MAX_RH : spec_float := f64_of_Z 100.
Definition QC_ERR_RH : spec_float := SFopp (f64_div (f64_of_Z 9999) (f64_of_Z 10)).

(** ** Devices, events, environment and state *)

(** The driver objects of the sketch. *)
Inductive driver : Set := bmp1 | bmp2 | bme1 | bme2 | bm31 | bm32 | mcp1.

(** The chip family a driver object talks to. *)
Inductive family : Set := Adafruit_BMP280 | Adafruit_BME280 | Adafruit_BMP3XX | Adafruit_MCP9808.

Definition family_of (d : driver) : family :=
  match d with
  | bmp1 | bmp2 => Adafruit_BMP280
  | bme1 | bme2 => Adafruit_BME280
  | bm31 | bm32 => Adafruit_BMP3XX
  | mcp1 => Adafruit_MCP9808
  end.

Inductive event : Type :=
  | OLED_line (str : string)               (* a line scrolled onto the display *)
  | Serial_println (str : string)          (* a line on the serial console *)
  | Driver_begin (d : driver) (address : Z) (* begin / begin_I2C of a driver *)
  | SD_open (path : string)                (* SD.open(path, FILE_WRITE) *)
  | SD_println (path line : string)        (* fp.println(line); fp.close() *)
  | Display_command (on : bool)            (* SSD1306 display on / off *)
  | LowPower_sleep (ms : Z).

Record DateTime := mkDateTime {
  year : Z; month : Z; day : Z; hour : Z; minute : Z; second : Z;
  unixtime : Z
}.

(** What the hardware and the libraries answer during one call. *)
Record Env := mkEnv {
  analogRead_SGAUGE : nat -> Z;       (* the i-th sample of the gauge pin *)
  analogRead_VBAT : Z;
  readPressure : driver -> spec_float;     (* Pa *)
  readTemperature : driver -> spec_float;
  readHumidity : driver -> spec_float;
  readTempC : driver -> spec_float;
  ds_scratchpad : Z -> list Z;        (* the 9 bytes read after [delay(ms)] *)
  crc8 : list Z -> Z;                 (* OneWire::crc8 *)
  rtc_now : DateTime;                 (* rtc.now() in rtc_timestamp *)
  rtc_now_sleep : DateTime;           (* rtc.now() in seconds_to_next_obs *)
  SD_open_ok : string -> bool;
  Wire_endTransmission : Z -> option Z -> Z;
    (* status of the transmission to an address, after writing a register
       number or nothing *)
  Wire_read : Z -> Z -> option Z;
    (* the byte requested from (address, register); [None] when
       requestFrom returns 0 *)
  begin_ok : driver -> Z -> bool
}.

(** The globals of the sketch. *)
Record State := mkState {
  SystemStatusBits : Z;  (* status and fault bits, an [unsigned int] *)
  JustPoweredOn : bool;
  msgbuf : string;
  DisplayEnabled : bool;
  SerialConsoleEnabled : bool;
  SD_exists : bool;
  RTC_valid : bool;
  now : DateTime;  (* last value read from the RTC *)
  timestamp : string;
  cf_ds_type : Z;  (* distance sensor type of CONFIG.TXT *)
  sg_buckets : list Z;
  ds_found : bool;
  ds_reading : spec_float;
  ds_valid : bool;
  BMX_1_chip_id : Z;
  BMX_2_chip_id : Z;
  BMX_1_exists : bool;
  BMX_2_exists : bool;
  BMX_1_type : Z;
  BMX_2_type : Z;
  MCP_1_exists : bool;
  trace : list event  (* what the firmware has done to the outside, oldest first *)
}.

(** Assignment to one global. *)
Definition set_SystemStatusBits (v : Z) (s : State) : State :=
  mkState v (JustPoweredOn s) (msgbuf s) (DisplayEnabled s)
    (SerialConsoleEnabled s) (SD_exists s) (RTC_valid s) (now s) (timestamp s)
    (cf_ds_type s) (sg_buckets s) (ds_found s) (ds_reading s) (ds_valid s)
    (BMX_1_chip_id s) (BMX_2_chip_id s) (BMX_1_exists s) (BMX_2_exists s)
    (BMX_1_type s) (BMX_2_type s) (MCP_1_exists s) (trace s).
Definition set_JustPoweredOn (v : bool) (s : State) : State :=
  mkState (SystemStatusBits s) v (msgbuf s) (DisplayEnabled s)
    (SerialConsoleEnabled s) (SD_exists s) (RTC_valid s) (now s) (timestamp s)
    (cf_ds_type s) (sg_buckets s) (ds_found s) (ds_reading s) (ds_valid s)
    (BMX_1_chip_id s) (BMX_2_chip_id s) (BMX_1_exists s) (BMX_2_exists s)
    (BMX_1_type s) (BMX_2_type s) (MCP_1_exists s) (trace s).
Definition set_msgbuf (v : string) (s : State) : State :=
  mkState (SystemStatusBits s) (JustPoweredOn s) v (DisplayEnabled s)
    (SerialConsoleEnabled s) (SD_exists s) (RTC_valid s) (now s) (timestamp s)
    (cf_ds_type s) (sg_buckets s) (ds_found s) (ds_reading s) (ds_valid s)
    (BMX_1_chip_id s) (BMX_2_chip_id s) (BMX_1_exists s) (BMX_2_exists s)
    (BMX_1_type s) (BMX_2_type s) (MCP_1_exists s) (trace s).
Definition set_now (v : DateTime) (s : State) : State :=
  mkState (SystemStatusBits s) (JustPoweredOn s) (msgbuf s) (DisplayEnabled s)
    (SerialConsoleEnabled s) (SD_exists s) (RTC_valid s) v (timestamp s)
    (cf_ds_type s) (sg_buckets s) (ds_found s) (ds_reading s) (ds_valid s)
    (BMX_1_chip_id s) (BMX_2_chip_id s) (BMX_1_exists s) (BMX_2_exists s)
    (BMX_1_type s) (BMX_2_type s) (MCP_1_exists s) (trace s).
Definition set_timestamp (v : string) (s : State) : State :=
  mkState (SystemStatusBits s) (JustPoweredOn s) (msgbuf s) (DisplayEnabled s)
    (SerialConsoleEnabled s) (SD_exists s) (RTC_valid s) (now s) v (cf_ds_type
    s) (sg_buckets s) (ds_found s) (ds_reading s) (ds_valid s) (BMX_1_chip_id
    s) (BMX_2_chip_id s) (BMX_1_exists s) (BMX_2_exists s) (BMX_1_type s)
    (BMX_2_type s) (MCP_1_exists s) (trace s).
Definition set_sg_buckets (v : list Z) (s : State) : State :=
  mkState (SystemStatusBits s) (JustPoweredOn s) (msgbuf s) (DisplayEnabled s)
    (SerialConsoleEnabled s) (SD_exists s) (RTC_valid s) (now s) (timestamp s)
    (cf_ds_type s) v (ds_found s) (ds_reading s) (ds_valid s) (BMX_1_chip_id
    s) (BMX_2_chip_id s) (BMX_1_exists s) (BMX_2_exists s) (BMX_1_type s)
    (BMX_2_type s) (MCP_1_exists s) (trace s).
Definition set_ds_found (v : bool) (s : State) : State :=
  mkState (SystemStatusBits s) (JustPoweredOn s) (msgbuf s) (DisplayEnabled s)
    (SerialConsoleEnabled s) (SD_exists s) (RTC_valid s) (now s) (timestamp s)
    (cf_ds_type s) (sg_buckets s) v (ds_reading s) (ds_valid s) (BMX_1_chip_id
    s) (BMX_2_chip_id s) (BMX_1_exists s) (BMX_2_exists s) (BMX_1_type s)
    (BMX_2_type s) (MCP_1_exists s) (trace s).
Definition set_ds_reading (v : spec_float) (s : State) : State :=
  mkState (SystemStatusBits s) (JustPoweredOn s) (msgbuf s) (DisplayEnabled s)
    (SerialConsoleEnabled s) (SD_exists s) (RTC_valid s) (now s) (timestamp s)
    (cf_ds_type s) (sg_buckets s) (ds_found s) v (ds_valid s) (BMX_1_chip_id
    s) (BMX_2_chip_id s) (BMX_1_exists s) (BMX_2_exists s) (BMX_1_type s)
    (BMX_2_type s) (MCP_1_exists s) (trace s).
Definition set_ds_valid (v : bool) (s : State) : State :=
  mkState (SystemStatusBits s) (JustPoweredOn s) (msgbuf s) (DisplayEnabled s)
    (SerialConsoleEnabled s) (SD_exists s) (RTC_valid s) (now s) (timestamp s)
    (cf_ds_type s) (sg_buckets s) (ds_found s) (ds_reading s) v (BMX_1_chip_id
    s) (BMX_2_chip_id s) (BMX_1_exists s) (BMX_2_exists s) (BMX_1_type s)
    (BMX_2_type s) (MCP_1_exists s) (trace s).
Definition set_BMX_1_chip_id (v : Z) (s : State) : State :=
  mkState (SystemStatusBits s) (JustPoweredOn s) (msgbuf s) (DisplayEnabled s)
    (SerialConsoleEnabled s) (SD_exists s) (RTC_valid s) (now s) (timestamp s)
    (cf_ds_type s) (sg_buckets s) (ds_found s) (ds_reading s) (ds_valid s) v
    (BMX_2_chip_id s) (BMX_1_exists s) (BMX_2_exists s) (BMX_1_type s)
    (BMX_2_type s) (MCP_1_exists s) (trace s).
Definition set_BMX_2_chip_id (v : Z) (s : State) : State :=
  mkState (SystemStatusBits s) (JustPoweredOn s) (msgbuf s) (DisplayEnabled s)
    (SerialConsoleEnabled s) (SD_exists s) (RTC_valid s) (now s) (timestamp s)
    (cf_ds_type s) (sg_buckets s) (ds_found s) (ds_reading s) (ds_valid s)
    (BMX_1_chip_id s) v (BMX_1_exists s) (BMX_2_exists s) (BMX_1_type s)
    (BMX_2_type s) (MCP_1_exists s) (trace s).
Definition set_BMX_1_exists (v : bool) (s : State) : State :=
  mkState (SystemStatusBits s) (JustPoweredOn s) (msgbuf s) (DisplayEnabled s)
    (SerialConsoleEnabled s) (SD_exists s) (RTC_valid s) (now s) (timestamp s)
    (cf_ds_type s) (sg_buckets s) (ds_found s) (ds_reading s) (ds_valid s)
    (BMX_1_chip_id s) (BMX_2_chip_id s) v (BMX_2_exists s) (BMX_1_type s)
    (BMX_2_type s) (MCP_1_exists s) (trace s).
Definition set_BMX_2_exists (v : bool) (s : State) : State :=
  mkState (SystemStatusBits s) (JustPoweredOn s) (msgbuf s) (DisplayEnabled s)
    (SerialConsoleEnabled s) (SD_exists s) (RTC_valid s) (now s) (timestamp s)
    (cf_ds_type s) (sg_buckets s) (ds_found s) (ds_reading s) (ds_valid s)
    (BMX_1_chip_id s) (BMX_2_chip_id s) (BMX_1_exists s) v (BMX_1_type s)
    (BMX_2_type s) (MCP_1_exists s) (trace s).
Definition set_BMX_1_type (v : Z) (s : State) : State :=
  mkState (SystemStatusBits s) (JustPoweredOn s) (msgbuf s) (DisplayEnabled s)
    (SerialConsoleEnabled s) (SD_exists s) (RTC_valid s) (now s) (timestamp s)
    (cf_ds_type s) (sg_buckets s) (ds_found s) (ds_reading s) (ds_valid s)
    (BMX_1_chip_id s) (BMX_2_chip_id s) (BMX_1_exists s) (BMX_2_exists s) v
    (BMX_2_type s) (MCP_1_exists s) (trace s).
Definition set_BMX_2_type (v : Z) (s : State) : State :=
  mkState (SystemStatusBits s) (JustPoweredOn s) (msgbuf s) (DisplayEnabled s)
    (SerialConsoleEnabled s) (SD_exists s) (RTC_valid s) (now s) (timestamp s)
    (cf_ds_type s) (sg_buckets s) (ds_found s) (ds_reading s) (ds_valid s)
    (BMX_1_chip_id s) (BMX_2_chip_id s) (BMX_1_exists s) (BMX_2_exists s)
    (BMX_1_type s) v (MCP_1_exists s) (trace s).
Definition set_MCP_1_exists (v : bool) (s : State) : State :=
  mkState (SystemStatusBits s) (JustPoweredOn s) (msgbuf s) (DisplayEnabled s)
    (SerialConsoleEnabled s) (SD_exists s) (RTC_valid s) (now s) (timestamp s)
    (cf_ds_type s) (sg_buckets s) (ds_found s) (ds_reading s) (ds_valid s)
    (BMX_1_chip_id s) (BMX_2_chip_id s) (BMX_1_exists s) (BMX_2_exists s)
    (BMX_1_type s) (BMX_2_type s) v (trace s).
Definition set_trace (v : list event) (s : State) : State :=
  mkState (SystemStatusBits s) (JustPoweredOn s) (msgbuf s) (DisplayEnabled s)
    (SerialConsoleEnabled s) (SD_exists s) (RTC_valid s) (now s) (timestamp s)
    (cf_ds_type s) (sg_buckets s) (ds_found s) (ds_reading s) (ds_valid s)
    (BMX_1_chip_id s) (BMX_2_chip_id s) (BMX_1_exists s) (BMX_2_exists s)
    (BMX_1_type s) (BMX_2_type s) (MCP_1_exists s) v.

(** ** State passing *)

Definition M (A : Type) : Type := State -> A * State.

Definition ret {A : Type} (a : A) : M A := fun s => (a, s).

Definition bind {A B : Type} (c : M A) (k : A -> M B) : M B :=
  fun s => let (a, s') := c s in k a s'.

Notation "x <- c1 ;; c2" := (bind c1 (fun x => c2))
  (at level 100, c1 at next level, right associativity).
Notation "c1 ;; c2" := (bind c1 (fun _ => c2))
  (at level 100, right associativity).

Definition gets {A : Type} (f : State -> A) : M A := fun s => (f s, s).
Definition modify (f : State -> State) : M unit := fun s => (tt, f s).
Definition emit (e : event) : M unit :=
  modify (fun s => set_trace (trace s ++ [e]) s).

(** The state after running [c], and its result. *)
Definition exec {A : Type} (c : M A) (s : State) : State := snd (c s).
Definition eval {A : Type} (c : M A) (s : State) : A := fst (c s).

(** [SystemStatusBits |= m] and [SystemStatusBits &= ~m]. *)
Definition turn_on_bit (m : Z) : M unit :=
  modify (fun s => set_SystemStatusBits (Z.lor (SystemStatusBits s) m) s).
Definition turn_off_bit (m : Z) : M unit :=
  modify (fun s => set_SystemStatusBits (Z.land (SystemStatusBits s) (bit_not m)) s).

(** [sprintf (msgbuf, ...)] and [sprintf (msgbuf+strlen(msgbuf), ...)]. *)
Definition sprintf_msgbuf (str : string) : M unit := modify (set_msgbuf str).
Definition sprintf_msgbuf_end (str : string) : M unit :=
  modify (fun s => set_msgbuf (msgbuf s +:+ str) s).

(** ** Output (OP) *)

Definition OLED_write (str : string) : M unit :=
  en <- gets DisplayEnabled ;;
  if en then emit (OLED_line str) else ret tt.

Definition Serial_write (str : string) : M unit :=
  en <- gets SerialConsoleEnabled ;;
  if en then emit (Serial_println str) else ret tt.

Definition Output (str : string) : M unit :=
  OLED_write str ;; Serial_write str.

Definition OLED_sleepDisplay : M unit :=
  en <- gets DisplayEnabled ;;
  if en then emit (Display_command false) else ret tt.

Definition OLED_wakeDisplay : M unit :=
  en <- gets DisplayEnabled ;;
  if en then emit (Display_command true) else ret tt.

(** ** Time (TM) *)

(** ["%d-%02d-%02dT%02d:%02d:%02d"] *)
Definition iso8601 (n : DateTime) : string :=
  fmt_d (year n) +:+ "-" +:+ fmt_0d 2 (month n) +:+ "-" +:+ fmt_0d 2 (day n)
  +:+ "T" +:+ fmt_0d 2 (hour n) +:+ ":" +:+ fmt_0d 2 (minute n)
  +:+ ":" +:+ fmt_0d 2 (second n).

Definition rtc_timestamp (env : Env) : M unit :=
  modify (set_now (rtc_now env)) ;;
  n <- gets now ;;
  modify (set_timestamp (iso8601 n)).

Definition seconds_to_next_obs (env : Env) : M Z :=
  modify (set_now (rtc_now_sleep env)) ;;
  n <- gets now ;;
  ret (900 - c_rem (unixtime n) 900).

(** ** Battery *)

Definition vbat_get (env : Env) : spec_float :=
  let v := f32_of_Z (analogRead_VBAT env) in
  let v := f32_mul v (f32_of_Z 2) in
  let v := f64_to_f32 (f64_mul v (f64_div (f64_of_Z 33) (f64_of_Z 10))) in
  let v := f32_div v (f32_of_Z 1024) in
  v.

(** ** Quality control *)

(** [(isnan(v) || (v < min) || (v > max)) ? err : v], assigned to a
    [float]: the sentinel is rounded to [float], a [float] [v] comes back
    unchanged. *)
Definition qc_gate (min max err : spec_float) (v : spec_float) : spec_float :=
  if isnan v || flt v min || fgt v max then f64_to_f32 err else v.

Inductive kind : Set := Temperature | Pressure | Humidity.

Definition QC_MIN (k : kind) : spec_float :=
  match k with Temperature => QC_MIN_T | Pressure => QC_MIN_P | Humidity => QC_MIN_RH end.
Definition QC_MAX (k : kind) : spec_float :=
  match k with Temperature => QC_MAX_T | Pressure => QC_MAX_P | Humidity => QC_MAX_RH end.
Definition QC_ERR (k : kind) : spec_float :=
  match k with Temperature => QC_ERR_T | Pressure => QC_ERR_P | Humidity => QC_ERR_RH end.

Definition gate (k : kind) (v : spec_float) : spec_float :=
  qc_gate (QC_MIN k) (QC_MAX k) (QC_ERR k) v.

(** The sentinel as it is held in a [float] variable. *)
Definition sentinel (k : kind) : spec_float := f64_to_f32 (QC_ERR k).

(** ** Stream / snow gauge (SG) *)

(** [for (i=0; i<SG_BUCKETS; i++) sg_buckets[i] = (int) analogRead(SGAUGE_PIN);]
    from iteration [i], [cnt] iterations. *)
Fixpoint sg_sample (env : Env) (i cnt : nat) : M unit :=
  match cnt with
  | O => ret tt
  | S c =>
      modify (fun s =>
        set_sg_buckets
          (<[i := to_uint (to_int (analogRead_SGAUGE env i))]> (sg_buckets s)) s) ;;
      sg_sample env (S i) c
  end.

(** [mysort(sg_buckets, SG_BUCKETS); i = (SG_BUCKETS+1) / 2 - 1;] *)
Definition sg_sort_pick (env : Env) : M Z :=
  sg_sample env 0 SG_BUCKETS ;;
  modify (fun s => set_sg_buckets (mysort (sg_buckets s) SG_BUCKETS) s) ;;
  b <- gets sg_buckets ;;
  let i := ((SG_BUCKETS + 1) / 2 - 1)%nat in
  ret (aget b i).

(** The sketch exists in two versions.  SSGFALMO-230827 is the single
    file sketch; its [s_gauge_median] returns the median reading. *)
Module V230827.
Definition s_gauge_median (env : Env) : M Z := sg_sort_pick env.
End V230827.

(** SSGFALMO-240719 is the sketch split into SG.h, OBS.h, SD.h, ...; its
    [s_gauge_median] scales the median by the configured sensor type:
    [if (cf_ds_type) return (sg_buckets[i]*5); else return (sg_buckets[i]*10);] *)
Module V240719.
Definition s_gauge_median (env : Env) : M Z :=
  m <- sg_sort_pick env ;;
  t <- gets cf_ds_type ;;
  if negb (t =? 0) then ret (to_uint (m * 5)) else ret (to_uint (m * 10)).
End V240719.

(** The sample stored by iteration [i], the window of [SG_BUCKETS] samples
    as it is stored, and the array after [cnt] iterations from [i]. *)
Definition sample (env : Env) (i : nat) : Z :=
  to_uint (to_int (analogRead_SGAUGE env i)).

Definition window (env : Env) : list Z := sample env <$> seq 0 SG_BUCKETS.

Definition fill (env : Env) (b : list Z) (i cnt : nat) : list Z :=
  foldl (fun b k => <[k := sample env k]> b) b (seq i cnt).

(** ** Bosch sensors *)

Definition driver_begin (env : Env) (d : driver) (address : Z) : M bool :=
  emit (Driver_begin d address) ;;
  ret (begin_ok env d address).

(** One of the two probes of [get_Bosch_ChipID]: write the register
    number, request one byte and match it against the known identities.
    [Some id] is the early [return (chip_id)]. *)
Definition probe_chip_id (env : Env) (address reg : Z) : M (option Z) :=
  sprintf_msgbuf ("  I2C:" +:+ fmt_02X address +:+ " Reg:" +:+ fmt_02X reg) ;;
  b <- gets msgbuf ;; Output b ;;
  let error := Wire_endTransmission env address (Some reg) mod 256 in
  if negb (error =? 0) then
    sprintf_msgbuf ("  ERR_ET:" +:+ fmt_d error) ;;
    b <- gets msgbuf ;; Output b ;;
    ret None
  else
    match Wire_read env address reg with
    | Some byte_read =>
        let chip_id := byte_read mod 256 in
        if chip_id =? BMP280_CHIP_ID then
          sprintf_msgbuf ("  CHIPID:" +:+ fmt_02X chip_id +:+ " BMP280") ;;
          b <- gets msgbuf ;; Output b ;;
          ret (Some chip_id)
        else if chip_id =? BMP388_CHIP_ID then
          sprintf_msgbuf ("  CHIPID:" +:+ fmt_02X chip_id +:+ " BMP388") ;;
          b <- gets msgbuf ;; Output b ;;
          ret (Some chip_id)
        else if chip_id =? BME280_BMP390_CHIP_ID then
          sprintf_msgbuf ("  CHIPID:" +:+ fmt_02X chip_id +:+ " BME/390") ;;
          b <- gets msgbuf ;; Output b ;;
          ret (Some chip_id)
        else
          sprintf_msgbuf ("  CHIPID:" +:+ fmt_02X chip_id +:+ " InValid") ;;
          b <- gets msgbuf ;; Output b ;;
          ret None
    | None =>
        sprintf_msgbuf "  ERR_RF:0" ;;
        b <- gets msgbuf ;; Output b ;;
        ret None
    end.

Definition get_Bosch_ChipID (env : Env) (address : Z) : M Z :=
  Output "get_Bosch_ChipID()" ;;
  r0 <- probe_chip_id env address 0x00 ;;
  match r0 with
  | Some chip_id => ret chip_id
  | None =>
      rD <- probe_chip_id env address 0xD0 ;;
      match rD with
      | Some chip_id => ret chip_id
      | None => ret 0
      end
  end.

(** The [switch (BMX_1_chip_id)] of [bmx_initialize]; the result is the
    message left in [msgp]. *)
Definition bmx_1_switch (env : Env) (chip_id : Z) : M string :=
  if chip_id =? BMP280_CHIP_ID then
    ok <- driver_begin env bmp1 BMX_ADDRESS_1 ;;
    if negb ok then
      modify (set_BMX_1_exists false) ;; turn_on_bit SSB_BMX_1 ;; ret "BMP1 ERR"
    else
      modify (set_BMX_1_exists true) ;; modify (set_BMX_1_type BMX_TYPE_BMP280) ;;
      ret "BMP1 OK"
  else if chip_id =? BME280_BMP390_CHIP_ID then
    ok <- driver_begin env bme1 BMX_ADDRESS_1 ;;
    if negb ok then
      ok3 <- driver_begin env bm31 BMX_ADDRESS_1 ;;   (* perhaps it is a BMP390 *)
      if negb ok3 then
        modify (set_BMX_1_exists false) ;; turn_on_bit SSB_BMX_1 ;; ret "BMX1 ERR"
      else
        modify (set_BMX_1_exists true) ;; modify (set_BMX_1_type BMX_TYPE_BMP390) ;;
        ret "BMP390_1 OK"
    else
      modify (set_BMX_1_exists true) ;; modify (set_BMX_1_type BMX_TYPE_BME280) ;;
      ret "BME280_1 OK"
  else if chip_id =? BMP388_CHIP_ID then
    ok <- driver_begin env bm31 BMX_ADDRESS_1 ;;
    if negb ok then
      modify (set_BMX_1_exists false) ;; turn_on_bit SSB_BMX_1 ;; ret "BM31 ERR"
    else
      modify (set_BMX_1_exists true) ;; modify (set_BMX_1_type BMX_TYPE_BMP388) ;;
      ret "BM31 OK"
  else ret "BMX_1 NF".

(** The [switch (BMX_2_chip_id)]; it begins [bmp1] and [bm31] at the
    second address, as the sketch does. *)
Definition bmx_2_switch (env : Env) (chip_id : Z) : M string :=
  if chip_id =? BMP280_CHIP_ID then
    ok <- driver_begin env bmp1 BMX_ADDRESS_2 ;;
    if negb ok then
      modify (set_BMX_2_exists false) ;; turn_on_bit SSB_BMX_2 ;; ret "BMP2 ERR"
    else
      modify (set_BMX_2_exists true) ;; modify (set_BMX_2_type BMX_TYPE_BMP280) ;;
      ret "BMP2 OK"
  else if chip_id =? BME280_BMP390_CHIP_ID then
    ok <- driver_begin env bme2 BMX_ADDRESS_2 ;;
    if negb ok then
      ok3 <- driver_begin env bm31 BMX_ADDRESS_2 ;;   (* perhaps it is a BMP390 *)
      if negb ok3 then
        modify (set_BMX_2_exists false) ;; turn_on_bit SSB_BMX_2 ;; ret "BMX2 ERR"
      else
        modify (set_BMX_2_exists true) ;; modify (set_BMX_2_type BMX_TYPE_BMP390) ;;
        ret "BMP390_2 OK"
    else
      modify (set_BMX_2_exists true) ;; modify (set_BMX_2_type BMX_TYPE_BME280) ;;
      ret "BME280_2 OK"
  else if chip_id =? BMP388_CHIP_ID then
    ok <- driver_begin env bm31 BMX_ADDRESS_2 ;;
    if negb ok then
      modify (set_BMX_2_exists false) ;; turn_on_bit SSB_BMX_2 ;; ret "BM31 ERR"
    else
      modify (set_BMX_2_exists true) ;; modify (set_BMX_2_type BMX_TYPE_BMP388) ;;
      ret "BM31 OK"
  else ret "BMX_2 NF".

Definition bmx_initialize (env : Env) : M unit :=
  Output "BMX:INIT" ;;
  id1 <- get_Bosch_ChipID env BMX_ADDRESS_1 ;;
  modify (set_BMX_1_chip_id id1) ;;
  msgp <- bmx_1_switch env id1 ;;
  Output msgp ;;
  id2 <- get_Bosch_ChipID env BMX_ADDRESS_2 ;;
  modify (set_BMX_2_chip_id id2) ;;
  msgp <- bmx_2_switch env id2 ;;
  Output msgp.

(** [I2C_Device_Exist]: an address-only transmission was acknowledged. *)
Definition I2C_Device_Exist (env : Env) (address : Z) : M bool :=
  let error := Wire_endTransmission env address None mod 256 in
  if error =? 0 then ret true else ret false.

(** The first half of [I2C_Check_Sensors]: BMX_1. *)
Definition check_BMX_1 (env : Env) : M unit :=
  present <- I2C_Device_Exist env BMX_ADDRESS_1 ;;
  if present then
    (* sensor online but our state had it offline *)
    ex <- gets BMX_1_exists ;;
    if negb ex then
      id <- gets BMX_1_chip_id ;;
      if id =? BME280_BMP390_CHIP_ID then
        ok <- driver_begin env bmp1 BMX_ADDRESS_1 ;;
        if ok then
          modify (set_BMX_1_exists true) ;; Output "BMP1 ONLINE" ;;
          turn_off_bit SSB_BMX_1
        else ret tt
      else if id =? BME280_BMP390_CHIP_ID then
        ok <- driver_begin env bme1 BMX_ADDRESS_1 ;;
        if ok then
          modify (set_BMX_1_exists true) ;; Output "BME1 ONLINE" ;;
          turn_off_bit SSB_BMX_1
        else ret tt
      else
        ok <- driver_begin env bm31 BMX_ADDRESS_1 ;;
        if ok then
          modify (set_BMX_1_exists true) ;; Output "BM31 ONLINE" ;;
          turn_off_bit SSB_BMX_1
        else ret tt
    else ret tt
  else
    (* sensor offline but our state has it online *)
    ex <- gets BMX_1_exists ;;
    if ex then
      modify (set_BMX_1_exists false) ;; Output "BMX1 OFFLINE" ;;
      turn_on_bit SSB_BMX_1
    else ret tt.

(** The second half of [I2C_Check_Sensors]: BMX_2. *)
Definition check_BMX_2 (env : Env) : M unit :=
  present <- I2C_Device_Exist env BMX_ADDRESS_2 ;;
  if present then
    ex <- gets BMX_2_exists ;;
    if negb ex then
      id <- gets BMX_2_chip_id ;;
      if id =? BME280_BMP390_CHIP_ID then
        ok <- driver_begin env bmp2 BMX_ADDRESS_2 ;;
        if ok then
          modify (set_BMX_2_exists true) ;; Output "BMP2 ONLINE" ;;
          turn_off_bit SSB_BMX_2
        else ret tt
      else if id =? BME280_BMP390_CHIP_ID then
        ok <- driver_begin env bme2 BMX_ADDRESS_2 ;;
        if ok then
          modify (set_BMX_2_exists true) ;; Output "BME2 ONLINE" ;;
          turn_off_bit SSB_BMX_2
        else ret tt
      else
        ok <- driver_begin env bm32 BMX_ADDRESS_2 ;;
        if ok then
          modify (set_BMX_2_exists true) ;; Output "BM32 ONLINE" ;;
          turn_off_bit SSB_BMX_2
        else ret tt
    else ret tt
  else
    ex <- gets BMX_2_exists ;;
    if ex then
      modify (set_BMX_2_exists false) ;; Output "BMX2 OFFLINE" ;;
      turn_on_bit SSB_BMX_2
    else ret tt.

Definition I2C_Check_Sensors (env : Env) : M unit :=
  check_BMX_1 env ;; check_BMX_2 env.

(** ** Dallas one-wire sensor (DS) *)

(** The nine scratchpad bytes read after [delay(delayms)], the outcome of
    the CRC check on them and the temperature they encode. *)
Definition ds_data (env : Env) (delayms : Z) : list Z :=
  (fun b => b mod 256) <$> ds_scratchpad env delayms.

Definition ds_crc_ok (env : Env) (delayms : Z) : bool :=
  let data := ds_data env delayms in
  crc8 env (take 8 data) mod 256 =? aget data 8.

Definition ds_temperature (env : Env) (delayms : Z) : spec_float :=
  let data := ds_data env delayms in
  let raw := to_uint (Z.lor (Z.shiftl (aget data 1) 8) (aget data 0)) in
  let cfg := Z.land (aget data 4) 0x60 in
  let raw :=
    if cfg =? 0x00 then to_uint (Z.shiftl raw 3)
    else if cfg =? 0x20 then to_uint (Z.shiftl raw 2)
    else if cfg =? 0x40 then to_uint (Z.shiftl raw 1)
    else raw in
  f64_to_f32 (f64_div (f64_of_Z raw) (f64_of_Z 16)).

Definition getDSTempByAddr (env : Env) (delayms : Z) : M bool :=
  (if negb (ds_crc_ok env delayms) then
     (* CRC error on the data read: no temperature *)
     modify (set_ds_reading (S754_zero false)) ;;
     modify (set_ds_valid false)
   else
     let t := ds_temperature env delayms in
     modify (set_ds_reading (qc_gate QC_MIN_T QC_MAX_T QC_ERR_T t)) ;;
     r <- gets ds_reading ;;
     if fne r QC_ERR_T then
       modify (set_ds_valid true)
     else
       modify (set_ds_valid false) ;;
       modify (set_ds_reading (f64_to_f32 QC_ERR_P))) ;;
  gets ds_valid.

Definition getDSTemp (env : Env) : M unit :=
  status <- getDSTempByAddr env 250 ;;
  if negb status then
    _ <- getDSTempByAddr env 750 ;; ret tt
  else ret tt.

(** ** SD card *)

(** ["%s/%4d%02d%02d.log", SD_obsdir, now.year(), now.month(), now.day()] *)
Definition logfile_name (n : DateTime) : string :=
  SD_obsdir +:+ "/" +:+ fmt_wd 4 (year n) +:+ fmt_0d 2 (month n)
  +:+ fmt_0d 2 (day n) +:+ ".log".

Definition SD_LogObservation (env : Env) (observations : string) : M unit :=
  sd <- gets SD_exists ;;
  if negb sd then ret tt else
  rv <- gets RTC_valid ;;
  if negb rv then ret tt else
  n <- gets now ;;
  let SD_logfile := logfile_name n in
  Output SD_logfile ;;
  emit (SD_open SD_logfile) ;;
  if SD_open_ok env SD_logfile then
    emit (SD_println SD_logfile observations) ;;
    turn_off_bit SSB_SD ;;
    Output "OBS Logged to SD"
  else
    turn_on_bit SSB_SD ;;
    Output "OBS Open Log Err".

(** ** Observations (OBS) *)

Definition f_zero : spec_float := S754_zero false.

(** The double quote character and a JSON key [\"k\":]. *)
Definition dq : string := String (ascii_of_nat 34) EmptyString.
Definition key (k : string) : string := dq +:+ k +:+ dq +:+ ":".

(** [%d.%02d] and [%d.%04d] of [(int)v, (int)(v*100)%100], and the
    [%u.%04d] used for pressure. *)
Definition frac100 (v : spec_float) : Z := c_rem (f2i (f32_mul v (f32_of_Z 100))) 100.
Definition fmt_d_02d (v : spec_float) : string :=
  fmt_d (f2i v) +:+ "." +:+ fmt_0d 2 (frac100 v).
Definition fmt_d_04d (v : spec_float) : string :=
  fmt_d (f2i v) +:+ "." +:+ fmt_0d 4 (frac100 v).
Definition fmt_u_04d (v : spec_float) : string :=
  fmt_u (f2i v) +:+ "." +:+ fmt_0d 4 (frac100 v).

(** The readings [p], [t], [h] of one Bosch slot before quality control;
    [bmp], [bme], [bm3] are the slot's three driver objects. *)
Definition read_bosch (env : Env) (bmp bme bm3 : driver) (chip_id type : Z)
  : spec_float * spec_float * spec_float :=
  let hPa (d : driver) := f32_div (readPressure env d) (f32_of_Z 100) in
  if chip_id =? BMP280_CHIP_ID then
    (hPa bmp, readTemperature env bmp, f_zero)
  else if chip_id =? BME280_BMP390_CHIP_ID then
    let '(p, t, h) :=
      if type =? BMX_TYPE_BME280
      then (hPa bme, readTemperature env bme, readHumidity env bme)
      else (f_zero, f_zero, f_zero) in
    if type =? BMX_TYPE_BMP390
    then (hPa bm3, readTemperature env bm3, h)
    else (p, t, h)
  else (* BMP388 *)
    (hPa bm3, readTemperature env bm3, f_zero).

Definition qc_bosch (r : spec_float * spec_float * spec_float)
  : spec_float * spec_float * spec_float :=
  let '(p, t, h) := r in
  (gate Pressure p, gate Temperature t, gate Humidity h).

Definition OBS_Do (s_gauge_median : Env -> M Z) (env : Env) (log_obs : bool) : M unit :=
  rv <- gets RTC_valid ;;
  if negb rv then
    Output "OBS_Do: Time NV"
  else
    Output "OBS_Do()" ;;
    m <- s_gauge_median env ;;
    let SG_Median := to_int m in
    bmx1 <-
      (ex <- gets BMX_1_exists ;;
       if ex then
         id <- gets BMX_1_chip_id ;; ty <- gets BMX_1_type ;;
         ret (qc_bosch (read_bosch env bmp1 bme1 bm31 id ty))
       else ret (f_zero, f_zero, f_zero)) ;;
    bmx2 <-
      (ex <- gets BMX_2_exists ;;
       if ex then
         id <- gets BMX_2_chip_id ;; ty <- gets BMX_2_type ;;
         ret (qc_bosch (read_bosch env bmp2 bme2 bm32 id ty))
       else ret (f_zero, f_zero, f_zero)) ;;
    mcp1_temp <-
      (ex <- gets MCP_1_exists ;;
       if ex then ret (gate Temperature (readTempC env mcp1)) else ret f_zero) ;;
    let batt := vbat_get env in
    rtc_timestamp env ;;
    (if log_obs then ts <- gets timestamp ;; Output ts else ret tt) ;;
    ts <- gets timestamp ;;
    sprintf_msgbuf
      ("{" +:+ key "at" +:+ dq +:+ ts +:+ dq +:+ "," +:+ key "sg" +:+ fmt_d SG_Median +:+ ",") ;;
    (ex <- gets BMX_1_exists ;;
     if ex then
       let '(bmx1_pressure, bmx1_temp, bmx1_humid) := bmx1 in
       sprintf_msgbuf_end
         (key "bp1" +:+ fmt_u_04d bmx1_pressure +:+ "," +:+
          key "bt1" +:+ fmt_d_02d bmx1_temp +:+ "," +:+
          key "bh1" +:+ fmt_d_02d bmx1_humid +:+ ",")
     else ret tt) ;;
    (ex <- gets BMX_2_exists ;;
     if ex then
       let '(bmx2_pressure, bmx2_temp, bmx2_humid) := bmx2 in
       sprintf_msgbuf_end
         (key "bp2" +:+ fmt_u_04d bmx2_pressure +:+ "," +:+
          key "bt2" +:+ fmt_d_02d bmx2_temp +:+ "," +:+
          key "bh2" +:+ fmt_d_02d bmx2_humid +:+ ",")
     else ret tt) ;;
    (ex <- gets MCP_1_exists ;;
     if ex then sprintf_msgbuf_end (key "mt1" +:+ fmt_d_04d mcp1_temp +:+ ",")
     else ret tt) ;;
    (found <- gets ds_found ;;
     if found then
       getDSTemp env ;;
       r <- gets ds_reading ;;
       sprintf_msgbuf_end (key "dt1" +:+ fmt_d_04d r +:+ ",")
     else ret tt) ;;
    bits <- gets SystemStatusBits ;;
    sprintf_msgbuf_end
      (key "bv" +:+ fmt_d_02d batt +:+ "," +:+ key "hth" +:+ fmt_d (to_int bits) +:+ "}") ;;
    (if log_obs then b <- gets msgbuf ;; SD_LogObservation env b else ret tt) ;;
    b <- gets msgbuf ;;
    Serial_write b.

(** ** Main loop *)

Definition JPO_ClearBits : M unit :=
  jpo <- gets JustPoweredOn ;;
  if jpo then
    modify (set_JustPoweredOn false) ;;
    turn_off_bit SSB_PWRON ;;
    turn_off_bit SSB_OLED ;;
    turn_off_bit SSB_BMX_1 ;;
    turn_off_bit SSB_BMX_2 ;;
    turn_off_bit SSB_MCP_1 ;;
    turn_off_bit SSB_DS_1
  else ret tt.

(** The normal-operation branch of [loop()], taken when the clock is
    valid and calibration mode is off or has run out. *)
Definition loop_normal_operation (s_gauge_median : Env -> M Z) (env : Env) : M unit :=
  I2C_Check_Sensors env ;;
  OBS_Do s_gauge_median env true ;;
  JPO_ClearBits ;;
  Output "Going to Sleep" ;;
  OLED_sleepDisplay ;;
  secs <- seconds_to_next_obs env ;;
  emit (LowPower_sleep (to_int (secs * 1000))) ;;
  OLED_wakeDisplay ;;
  Output "Wakeup".

(** ** A concrete environment *)

(** The CRC-8 of the OneWire library (polynomial X^8 + X^5 + X^4 + 1),
    bit by bit; it instantiates [crc8] in the examples. *)
Fixpoint crc8_bits (n : nat) (crc inbyte : Z) : Z :=
  match n with
  | O => crc
  | S k =>
      let mix := Z.land (Z.lxor crc inbyte) 1 in
      let crc := Z.shiftr crc 1 in
      let crc := if mix =? 0 then crc else Z.lxor crc 0x8C in
      crc8_bits k crc (Z.shiftr inbyte 1)
  end.

Definition OneWire_crc8 (data : list Z) : Z :=
  fold_left (fun crc b => crc8_bits 8 crc b) data 0.

(** ** Summaries of the routines

    Closed forms of what the routines above compute; the run lemmas of
    the second part connect them to the routines. *)

Definition add_events (evs : list event) (s : State) : State :=
  set_trace (trace s ++ evs) s.

(** What [Output (str)] and [Serial_write (str)] emit in state [s]. *)
Definition serial_events (s : State) (str : string) : list event :=
  if SerialConsoleEnabled s then [Serial_println str] else [].

Definition out_events (s : State) (str : string) : list event :=
  (if DisplayEnabled s then [OLED_line str] else []) ++ serial_events s str.

(** The identity byte [get_Bosch_ChipID] returns. *)
Definition probe_result (env : Env) (address reg : Z) : option Z :=
  if negb (Wire_endTransmission env address (Some reg) mod 256 =? 0) then None
  else
    match Wire_read env address reg with
    | Some byte_read =>
        let chip_id := byte_read mod 256 in
        if (chip_id =? BMP280_CHIP_ID) || (chip_id =? BMP388_CHIP_ID)
           || (chip_id =? BME280_BMP390_CHIP_ID)
        then Some chip_id else None
    | None => None
    end.

Definition chip_id_of (env : Env) (address : Z) : Z :=
  match probe_result env address 0x00 with
  | Some chip_id => chip_id
  | None =>
      match probe_result env address 0xD0 with
      | Some chip_id => chip_id
      | None => 0
      end
  end.

(** Lines on the display or the console. *)
Definition is_output (e : event) : bool :=
  match e with OLED_line _ | Serial_println _ => true | _ => false end.

(** The drivers begun at [address], in order, among the events [evs]. *)
Fixpoint begins_at (address : Z) (evs : list event) : list driver :=
  match evs with
  | [] => []
  | Driver_begin d a :: evs' =>
      if a =? address then d :: begins_at address evs' else begins_at address evs'
  | _ :: evs' => begins_at address evs'
  end.

(** All drivers begun among [evs], whatever the address. *)
Fixpoint begun (evs : list event) : list driver :=
  match evs with
  | [] => []
  | Driver_begin d _ :: evs' => d :: begun evs'
  | _ :: evs' => begun evs'
  end.

(** A slot answers on the bus: [I2C_Device_Exist (address)]. *)
Definition on_bus (env : Env) (address : Z) : bool :=
  Wire_endTransmission env address None mod 256 =? 0.

(** The lines written to the display or the console among [evs]. *)
Fixpoint outputs (evs : list event) : list string :=
  match evs with
  | [] => []
  | OLED_line str :: evs' => str :: outputs evs'
  | Serial_println str :: evs' => str :: outputs evs'
  | _ :: evs' => outputs evs'
  end.

(** The lines written to files and the files opened among [evs]. *)
Fixpoint sd_lines (evs : list event) : list string :=
  match evs with
  | [] => []
  | SD_println _ line :: evs' => line :: sd_lines evs'
  | _ :: evs' => sd_lines evs'
  end.

Fixpoint sd_opens (evs : list event) : list string :=
  match evs with
  | [] => []
  | SD_open path :: evs' => path :: sd_opens evs'
  | _ :: evs' => sd_opens evs'
  end.

(** [ds_reading] and [ds_valid] after [getDSTempByAddr (delayms)] and
    after [getDSTemp ()]; [ds_last] is the delay of the read that decided. *)
Definition ds_result (env : Env) (delayms : Z) : spec_float * bool :=
  if negb (ds_crc_ok env delayms) then (S754_zero false, false)
  else
    let r := qc_gate QC_MIN_T QC_MAX_T QC_ERR_T (ds_temperature env delayms) in
    if fne r QC_ERR_T then (r, true) else (f64_to_f32 QC_ERR_P, false).

Definition ds_last (env : Env) : Z :=
  if snd (ds_result env 250) then 250 else 750.

Definition ds_final (env : Env) : spec_float * bool := ds_result env (ds_last env).

(** The median picked from the array after sampling and sorting, and the
    value [s_gauge_median] of SSGFALMO-240719 makes of it. *)
Definition picked_median (env : Env) (s : State) : Z :=
  aget (mysort (fill env (sg_buckets s) 0 SG_BUCKETS) SG_BUCKETS) 29.

Definition scaled_median (env : Env) (s : State) : Z :=
  if negb (cf_ds_type s =? 0) then to_uint (picked_median env s * 5)
  else to_uint (picked_median env s * 10).

(** An observation: the values handed to the [sprintf] calls of [OBS_Do],
    a slot that is absent contributing nothing. *)
Record Observation := mkObservation {
  obs_at : string;
  obs_sg : Z;
  obs_bmx1 : option (spec_float * spec_float * spec_float);
  obs_bmx2 : option (spec_float * spec_float * spec_float);
  obs_mt1 : option spec_float;
  obs_dt1 : option spec_float;
  obs_bv : spec_float;
  obs_hth : Z
}.

(** The record [OBS_Do] builds in [msgbuf] from these values. *)
Definition serialize (o : Observation) : string :=
  let b :=
    "{" +:+ key "at" +:+ dq +:+ obs_at o +:+ dq +:+ "," +:+
    key "sg" +:+ fmt_d (obs_sg o) +:+ "," in
  let b :=
    match obs_bmx1 o with
    | Some (p, t, h) =>
        b +:+ (key "bp1" +:+ fmt_u_04d p +:+ "," +:+
               key "bt1" +:+ fmt_d_02d t +:+ "," +:+
               key "bh1" +:+ fmt_d_02d h +:+ ",")
    | None => b
    end in
  let b :=
    match obs_bmx2 o with
    | Some (p, t, h) =>
        b +:+ (key "bp2" +:+ fmt_u_04d p +:+ "," +:+
               key "bt2" +:+ fmt_d_02d t +:+ "," +:+
               key "bh2" +:+ fmt_d_02d h +:+ ",")
    | None => b
    end in
  let b :=
    match obs_mt1 o with
    | Some t => b +:+ (key "mt1" +:+ fmt_d_04d t +:+ ",")
    | None => b
    end in
  let b :=
    match obs_dt1 o with
    | Some t => b +:+ (key "dt1" +:+ fmt_d_04d t +:+ ",")
    | None => b
    end in
  b +:+ (key "bv" +:+ fmt_d_02d (obs_bv o) +:+ "," +:+
         key "hth" +:+ fmt_d (obs_hth o) +:+ "}").

(** The observation [OBS_Do] assembles in state [s] when [s_gauge_median]
    returns [sg]. *)
Definition observation (env : Env) (sg : Z) (s : State) : Observation :=
  {| obs_at := iso8601 (rtc_now env);
     obs_sg := to_int sg;
     obs_bmx1 :=
       if BMX_1_exists s
       then Some (qc_bosch (read_bosch env bmp1 bme1 bm31 (BMX_1_chip_id s) (BMX_1_type s)))
       else None;
     obs_bmx2 :=
       if BMX_2_exists s
       then Some (qc_bosch (read_bosch env bmp2 bme2 bm32 (BMX_2_chip_id s) (BMX_2_type s)))
       else None;
     obs_mt1 :=
       if MCP_1_exists s then Some (gate Temperature (readTempC env mcp1)) else None;
     obs_dt1 := if ds_found s then Some (fst (ds_final env)) else None;
     obs_bv := vbat_get env;
     obs_hth := to_int (SystemStatusBits s) |}.

(** What [SD_LogObservation (obs)] emits and leaves in
    [SystemStatusBits] when the clock is valid and the last RTC reading
    is [n]. *)
Definition log_events (env : Env) (s : State) (n : DateTime) (obs : string) : list event :=
  if SD_exists s then
    out_events s (logfile_name n) ++ [SD_open (logfile_name n)] ++
    (if SD_open_ok env (logfile_name n)
     then SD_println (logfile_name n) obs :: out_events s "OBS Logged to SD"
     else out_events s "OBS Open Log Err")
  else [].

Definition log_bits (env : Env) (s : State) (n : DateTime) : Z :=
  if SD_exists s then
    if SD_open_ok env (logfile_name n)
    then Z.land (SystemStatusBits s) (bit_not SSB_SD)
    else Z.lor (SystemStatusBits s) SSB_SD
  else SystemStatusBits s.

(** What one call of [OBS_Do] with a valid clock emits, [record] being
    the record it has assembled. *)
Definition obs_events (env : Env) (s : State) (log_obs : bool) (record : string)
  : list event :=
  out_events s "OBS_Do()" ++
  (if log_obs then out_events s (iso8601 (rtc_now env)) else []) ++
  (if log_obs then log_events env s (rtc_now env) record else []) ++
  serial_events s record.

(** A value that is the sentinel of its kind or lies in the envelope. *)
Definition in_envelope (k : kind) (v : spec_float) : bool :=
  negb (isnan v) && fle (QC_MIN k) v && fle v (QC_MAX k).

Definition gated (k : kind) (v : spec_float) : Prop :=
  v = sentinel k \/ in_envelope k v = true.

(** The outcome of identifying one slot from its identity byte [id]:
    [begun] are the drivers begun at the slot's address, in order, [ex]
    and [ty] the slot's exists flag and type afterwards, [bits] the status
    bits afterwards and [fault] the index of the slot's fault bit.
    [d280], [dbme] and [d3xx] are the driver objects the sketch uses for
    the slot. *)
Definition identified (env : Env) (address : Z) (d280 dbme d3xx : driver)
    (id : Z) (begun : list driver) (ex : bool) (ty : Z) (bits : Z) (fault : Z) : Prop :=
  (id = BMP280_CHIP_ID ->
     begun = [d280] /\
     (begin_ok env d280 address = true -> ex = true /\ ty = BMX_TYPE_BMP280))
  /\
  (id = BME280_BMP390_CHIP_ID ->
     begun = (if begin_ok env dbme address then [dbme] else [dbme; d3xx]) /\
     (begin_ok env dbme address = true -> ex = true /\ ty = BMX_TYPE_BME280) /\
     (begin_ok env dbme address = false -> begin_ok env d3xx address = true ->
      ex = true /\ ty = BMX_TYPE_BMP390) /\
     (begin_ok env dbme address = false -> begin_ok env d3xx address = false ->
      ex = false /\ Z.testbit bits fault = true)).




(** ** Scenarios *)

(** A station with a BME280 in the first slot reading 1013.25 hPa, 22.5 C
    and 45 %, every gauge sample 512, the battery at raw 575 (3.70 V), a
    Dallas probe that answers with all bits high (its CRC does not
    match), an SD card that opens its files and a bus on which every
    address answers. *)
Definition scenario_env : Env :=
  {| analogRead_SGAUGE := fun _ => 512;
     analogRead_VBAT := 575;
     readPressure := fun _ => f32_of_Z 101325;
     readTemperature := fun _ => f32_div (f32_of_Z 45) (f32_of_Z 2);
     readHumidity := fun _ => f32_of_Z 45;
     readTempC := fun _ => f_zero;
     ds_scratchpad := fun _ => [255; 255; 255; 255; 255; 255; 255; 255; 255];
     crc8 := OneWire_crc8;
     rtc_now := mkDateTime 2024 7 19 12 0 0 1721390400;
     rtc_now_sleep := mkDateTime 2024 7 19 12 0 20 1721390420;
     SD_open_ok := fun _ => true;
     Wire_endTransmission := fun _ _ => 0;
     Wire_read := fun _ _ => Some 0x60;
     begin_ok := fun _ _ => true |}.

(** The same station with an SD card whose files do not open. *)
Definition scenario_env_sd_fails : Env :=
  {| analogRead_SGAUGE := analogRead_SGAUGE scenario_env;
     analogRead_VBAT := analogRead_VBAT scenario_env;
     readPressure := readPressure scenario_env;
     readTemperature := readTemperature scenario_env;
     readHumidity := readHumidity scenario_env;
     readTempC := readTempC scenario_env;
     ds_scratchpad := ds_scratchpad scenario_env;
     crc8 := crc8 scenario_env;
     rtc_now := rtc_now scenario_env;
     rtc_now_sleep := rtc_now_sleep scenario_env;
     SD_open_ok := fun _ => false;
     Wire_endTransmission := Wire_endTransmission scenario_env;
     Wire_read := Wire_read scenario_env;
     begin_ok := begin_ok scenario_env |}.

(** Its state at the start of a cycle: first slot present as a BME280,
    nothing else on the I2C bus, with the status bits [bits], the SD card
    found or not ([sd]), the clock valid or not ([rtc]) and the Dallas
    probe found or not ([ds]). *)
Definition scenario_with (bits : Z) (sd rtc ds : bool) : State :=
  {| SystemStatusBits := bits;
     JustPoweredOn := true;
     msgbuf := "";
     DisplayEnabled := true;
     SerialConsoleEnabled := true;
     SD_exists := sd;
     RTC_valid := rtc;
     now := mkDateTime 0 0 0 0 0 0 0;
     timestamp := "";
     cf_ds_type := 0;
     sg_buckets := repeat 0 60;
     ds_found := ds;
     ds_reading := f_zero;
     ds_valid := false;
     BMX_1_chip_id := BME280_BMP390_CHIP_ID;
     BMX_2_chip_id := 0;
     BMX_1_exists := true;
     BMX_2_exists := false;
     BMX_1_type := BMX_TYPE_BME280;
     BMX_2_type := BMX_TYPE_UNKNOWN;
     MCP_1_exists := false;
     trace := [] |}.

(** Status bits 0, SD card and clock fine, no Dallas probe. *)
Definition scenario_state : State := scenario_with 0 true true false.

(** Just after power on with no SD card found: the power-on and SD bits
    are set. *)
Definition scenario_state_no_sd : State :=
  scenario_with (Z.lor SSB_PWRON SSB_SD) false true false.

(** The clock has not been set. *)
Definition scenario_state_no_clock : State := scenario_with 0 true false false.

(** The Dallas probe was found at startup. *)
Definition scenario_state_dallas : State := scenario_with 0 true true true.


(** The text of the scenario's record with the gauge value [sg] and the
    pressure fraction [frac] left open, and the record the specification
    gives for the scenario. *)
Definition scenario_text (ts sg frac : string) : string :=
  "{" +:+ key "at" +:+ dq +:+ ts +:+ dq +:+ "," +:+
  key "sg" +:+ sg +:+ "," +:+
  key "bp1" +:+ "1013." +:+ frac +:+ "," +:+
  key "bt1" +:+ "22.50," +:+
  key "bh1" +:+ "45.00," +:+
  key "bv" +:+ "3.70," +:+
  key "hth" +:+ "0}".

Definition specified_record (ts : string) : string := scenario_text ts "512" "2500".


(** The scenario's record with a Dallas field. *)
Definition scenario_text_dallas (ts sg frac dt : string) : string :=
  "{" +:+ key "at" +:+ dq +:+ ts +:+ dq +:+ "," +:+
  key "sg" +:+ sg +:+ "," +:+
  key "bp1" +:+ "1013." +:+ frac +:+ "," +:+
  key "bt1" +:+ "22.50," +:+
  key "bh1" +:+ "45.00," +:+
  key "dt1" +:+ dt +:+ "," +:+
  key "bv" +:+ "3.70," +:+
  key "hth" +:+ "0}".

(** ** Signs of floating-point values *)

(** A value that is NaN or carries the sign [s]. *)
Definition has_sign (s : bool) (x : spec_float) : Prop :=
  match x with
  | S754_nan => True
  | S754_zero s' | S754_infinity s' | S754_finite s' _ _ => s' = s
  end.


(** ** Assignment to the remaining globals *)

Definition set_DisplayEnabled (v : bool) (s : State) : State :=
  mkState (SystemStatusBits s) (JustPoweredOn s) (msgbuf s) v
    (SerialConsoleEnabled s) (SD_exists s) (RTC_valid s) (now s) (timestamp s)
    (cf_ds_type s) (sg_buckets s) (ds_found s) (ds_reading s) (ds_valid s)
    (BMX_1_chip_id s) (BMX_2_chip_id s) (BMX_1_exists s) (BMX_2_exists s)
    (BMX_1_type s) (BMX_2_type s) (MCP_1_exists s) (trace s).
Definition set_SerialConsoleEnabled (v : bool) (s : State) : State :=
  mkState (SystemStatusBits s) (JustPoweredOn s) (msgbuf s) (DisplayEnabled s)
    v (SD_exists s) (RTC_valid s) (now s) (timestamp s) (cf_ds_type s)
    (sg_buckets s) (ds_found s) (ds_reading s) (ds_valid s) (BMX_1_chip_id s)
    (BMX_2_chip_id s) (BMX_1_exists s) (BMX_2_exists s) (BMX_1_type s)
    (BMX_2_type s) (MCP_1_exists s) (trace s).
Definition set_SD_exists (v : bool) (s : State) : State :=
  mkState (SystemStatusBits s) (JustPoweredOn s) (msgbuf s) (DisplayEnabled s)
    (SerialConsoleEnabled s) v (RTC_valid s) (now s) (timestamp s)
    (cf_ds_type s) (sg_buckets s) (ds_found s) (ds_reading s) (ds_valid s)
    (BMX_1_chip_id s) (BMX_2_chip_id s) (BMX_1_exists s) (BMX_2_exists s)
    (BMX_1_type s) (BMX_2_type s) (MCP_1_exists s) (trace s).
Definition set_RTC_valid (v : bool) (s : State) : State :=
  mkState (SystemStatusBits s) (JustPoweredOn s) (msgbuf s) (DisplayEnabled s)
    (SerialConsoleEnabled s) (SD_exists s) v (now s) (timestamp s)
    (cf_ds_type s) (sg_buckets s) (ds_found s) (ds_reading s) (ds_valid s)
    (BMX_1_chip_id s) (BMX_2_chip_id s) (BMX_1_exists s) (BMX_2_exists s)
    (BMX_1_type s) (BMX_2_type s) (MCP_1_exists s) (trace s).
Definition set_cf_ds_type (v : Z) (s : State) : State :=
  mkState (SystemStatusBits s) (JustPoweredOn s) (msgbuf s) (DisplayEnabled s)
    (SerialConsoleEnabled s) (SD_exists s) (RTC_valid s) (now s) (timestamp s)
    v (sg_buckets s) (ds_found s) (ds_reading s) (ds_valid s)
    (BMX_1_chip_id s) (BMX_2_chip_id s) (BMX_1_exists s) (BMX_2_exists s)
    (BMX_1_type s) (BMX_2_type s) (MCP_1_exists s) (trace s).


(** ** Configuration file (SD): CONFIG.TXT *)

Definition CF_NAME : string := "CONFIG.TXT".
Definition KEY_MAX_LENGTH : nat := 30.
Definition VALUE_MAX_LENGTH : nat := 30.

(** The bytes of a string constant, without the terminating NUL. *)
Definition bytes_of_string (str : string) : list Z :=
  (fun a => Z.of_nat (nat_of_ascii a)) <$> list_ascii_of_string str.

(** [c >= '0' && c <= '9'] *)
Definition is_digit (c : Z) : bool := (48 <=? c) && (c <=? 57).

(** The loop of [HELPER_ascii2Int] over the characters still to read,
    [i] being the index of the first of them; the result is the pair of
    its locals [sign] and [number].  [int] arithmetic wraps around. *)
Fixpoint ascii2Int_loop (ascii : list Z) (i : nat) (sign number : Z) : Z * Z :=
  match ascii with
  | [] => (sign, number)
  | c :: rest =>
      if (i =? 0)%nat && (c =? 45) then ascii2Int_loop rest (S i) (-1) number
      else if is_digit c
      then ascii2Int_loop rest (S i) sign (to_int (number * 10 + (c - 48)))
      else ascii2Int_loop rest (S i) sign number
  end.

(** [HELPER_ascii2Int (ascii, length)] reads [ascii[0 .. length-1]]. *)
Definition HELPER_ascii2Int (ascii : list Z) (length : nat) : Z :=
  let '(sign, number) := ascii2Int_loop (take length ascii) 0 1 0 in
  to_int (number * sign).

(** One turn of the loop of [SD_findKey] on the [chunk] that
    [configFile.readBytesUntil ('\n', SD_buffer, LINE_MAX_LENGTH)] has
    stored: [Some value] is the [memcpy] followed by [break].  [before] is
    the byte in front of [SD_buffer], which the test for a trailing CR
    reads when the call stored nothing. *)
Definition line_value (key : list Z) (before : Z) (chunk : list Z) : option (list Z) :=
  let n := Z.of_nat (length chunk) in
  let last := if n =? 0 then before else aget chunk (Z.to_nat (n - 1)) in
  let buffer_length := if last =? 13 then n - 1 else n in   (* trim the \r *)
  let key_length := Z.of_nat (length key) in
  if buffer_length >? key_length + 1 then
    if bool_decide (take (length key) chunk = key) then       (* memcmp == 0 *)
      if aget chunk (length key) =? 61 then                   (* '=' *)
        let value_length := buffer_length - key_length - 1 in
        Some (take (Z.to_nat value_length) (drop (length key + 1) chunk))
      else None
    else None
  else None.

(** The loop [while (configFile.available())] over the chunks the
    successive reads store: the value copied and its length, length 0 when
    the loop ends without a match. *)
Fixpoint SD_findKey_loop (key : list Z) (before : Z) (chunks : list (list Z))
  : Z * list Z :=
  match chunks with
  | [] => (0, [])
  | chunk :: rest =>
      match line_value key before chunk with
      | Some value => (Z.of_nat (length value), value)
      | None => SD_findKey_loop key before rest
      end
  end.

(** [SD_findKey (key, value)]; [file] is what [SD.open (CF_NAME)] and the
    reads give: [None] when the file does not open, the chunks read
    otherwise.  The error goes to [Serial] directly. *)
Definition SD_findKey (file : option (list (list Z))) (before : Z) (key : string)
  : M (Z * list Z) :=
  match file with
  | None =>
      emit (Serial_println ("SD Card: error on opening file " +:+ CF_NAME)) ;;
      ret (0, [])
  | Some chunks => ret (SD_findKey_loop (bytes_of_string key) before chunks)
  end.

Definition SD_available (file : option (list (list Z))) (before : Z) (key : string)
  : M bool :=
  r <- SD_findKey file before key ;;
  ret (fst r >? 0).

Definition SD_findInt (file : option (list (list Z))) (before : Z) (key : string)
  : M Z :=
  r <- SD_findKey file before key ;;
  ret (HELPER_ascii2Int (snd r) (Z.to_nat (fst r))).

Definition SD_ReadConfigFile (file : option (list (list Z))) (before : Z) : M unit :=
  v <- SD_findInt file before "ds_type" ;;
  modify (set_cf_ds_type v) ;;
  sprintf_msgbuf ("CF:ds_type=[" +:+ fmt_d v +:+ "]") ;;
  b <- gets msgbuf ;; Output b.

(** The part of [setup ()] that reads the configuration:
    [if (SD_exists && SD.exists (CF_NAME)) SD_ReadConfigFile (); else ...]. *)
Definition setup_config (cf_exists : bool) (file : option (list (list Z)))
    (before : Z) : M unit :=
  sd <- gets SD_exists ;;
  if sd && cf_exists then SD_ReadConfigFile file before
  else
    sprintf_msgbuf ("CF:NO " +:+ CF_NAME) ;;
    b <- gets msgbuf ;; Output b.

(** A chunk that fits [char SD_buffer[KEY_MAX_LENGTH + VALUE_MAX_LENGTH + 1]]:
    [readBytesUntil] is given LINE_MAX_LENGTH, two more than the buffer
    holds, and a longer chunk is written past its end. *)
Definition fits_SD_buffer (chunk : list Z) : Prop :=
  (length chunk <= KEY_MAX_LENGTH + VALUE_MAX_LENGTH + 1)%nat.

(** A chunk begins with [key=]. *)
Definition starts_with_key (key chunk : list Z) : Prop :=
  take (length key + 1) chunk = key ++ [61].

(** The number a string of digits denotes, most significant first. *)
Definition decimal_value (ds : list Z) : Z :=
  fold_left (fun n c => n * 10 + (c - 48)) ds 0.

(** The number the loop of [HELPER_ascii2Int] accumulates from the digits
    among [cs], and the sign it takes from the first character. *)
Definition digits_value (cs : list Z) : Z :=
  fold_left (fun n c => to_int (n * 10 + (c - 48))) (List.filter is_digit cs) 0.

Definition sign_of (cs : list Z) : Z :=
  match cs with
  | c :: _ => if c =? 45 then -1 else 1
  | [] => 1
  end.

(** The value of a decimal numeral read after the number [acc]. *)
Fixpoint uint_value (d : Decimal.uint) (acc : Z) : Z :=
  match d with
  | Decimal.Nil => acc
  | Decimal.D0 l => uint_value l (acc * 10 + 0)
  | Decimal.D1 l => uint_value l (acc * 10 + 1)
  | Decimal.D2 l => uint_value l (acc * 10 + 2)
  | Decimal.D3 l => uint_value l (acc * 10 + 3)
  | Decimal.D4 l => uint_value l (acc * 10 + 4)
  | Decimal.D5 l => uint_value l (acc * 10 + 5)
  | Decimal.D6 l => uint_value l (acc * 10 + 6)
  | Decimal.D7 l => uint_value l (acc * 10 + 7)
  | Decimal.D8 l => uint_value l (acc * 10 + 8)
  | Decimal.D9 l => uint_value l (acc * 10 + 9)
  end.

(** ** Initialization: SD card, clock, MCP9808, Dallas probe *)

Definition MCP_ADDRESS_1 : Z := 0x18.
Definition RTC_I2C_ADDRESS : Z := 0x68.

(** [SD_initialize ()]; [sd_begin], [obsdir_exists] and [mkdir_ok] are
    the answers of [SD.begin], [SD.exists (SD_obsdir)] and
    [SD.mkdir (SD_obsdir)]. *)
Definition SD_initialize (sd_begin obsdir_exists mkdir_ok : bool) : M unit :=
  if negb sd_begin then
    Output "SD:NF" ;;
    turn_on_bit SSB_SD
  else
    modify (set_SD_exists true) ;;
    if negb obsdir_exists then
      if mkdir_ok then
        Output "SD:MKDIR OBS OK" ;;
        Output "SD:Online" ;;
        modify (set_SD_exists true)
      else
        Output "SD:MKDIR OBS ERR" ;;
        Output "SD:Offline" ;;
        turn_on_bit SSB_SD
    else
      Output "SD:Online" ;;
      Output "SD:OBS DIR Exists" ;;
      modify (set_SD_exists true).

(** [mcp9808_initialize ()] *)
Definition mcp9808_initialize (env : Env) : M unit :=
  Output "MCP9808:INIT" ;;
  ok <- driver_begin env mcp1 MCP_ADDRESS_1 ;;
  msgp <-
    (if negb ok then
       modify (set_MCP_1_exists false) ;; turn_on_bit SSB_MCP_1 ;; ret "MCP1 NF"
     else
       modify (set_MCP_1_exists true) ;; ret "MCP1 OK") ;;
  Output msgp.

(** [rtc_initialize ()] of SSGFALMO-230827; [rtc_begin] is the answer of
    [rtc.begin ()] and [now2] the second reading of the clock, taken once
    the year of the first is accepted. *)
Definition rtc_initialize (env : Env) (rtc_begin : bool) (now2 : DateTime) : M unit :=
  if negb rtc_begin then
    Output "ERR:RTC NOT FOUND" ;;
    turn_on_bit SSB_RTC
  else
    present <- I2C_Device_Exist env RTC_I2C_ADDRESS ;;
    if negb present then
      Output "ERR:RTC-I2C NOTFOUND" ;;
      turn_on_bit SSB_RTC
    else
      rtc_timestamp env ;;
      ts <- gets timestamp ;;
      sprintf_msgbuf (ts +:+ "*") ;;
      b <- gets msgbuf ;; Output b ;;
      n <- gets now ;;
      if (year n >=? 2022) && (year n <=? 2031) then
        modify (set_now now2) ;;
        modify (set_RTC_valid true)
      else
        Output "NEED TIME->RTC".

(** [Scan1WireBus ()]; [search] is what [ds.search (ds_addr)] finds:
    the eight address bytes, or nothing. *)
Definition Scan1WireBus (env : Env) (search : option (list Z)) : M bool :=
  match search with
  | None =>
      sprintf_msgbuf "DS NF" ;;
      b <- gets msgbuf ;; Output b ;;
      ret false
  | Some ds_addr =>
      if negb (crc8 env (take 7 ds_addr) mod 256 =? aget ds_addr 7) then
        sprintf_msgbuf "DS CRC" ;;
        b <- gets msgbuf ;; Output b ;;
        ret false
      else if negb (aget ds_addr 0 =? 0x28) then
        sprintf_msgbuf ("DS UKN " +:+ fmt_d (aget ds_addr 0)) ;;
        b <- gets msgbuf ;; Output b ;;
        ret false
      else
        modify (set_ds_found true) ;;
        sprintf_msgbuf
          ("DS " +:+ fmt_02X (aget ds_addr 0) +:+ ":" +:+ fmt_02X (aget ds_addr 1)
           +:+ ":" +:+ fmt_02X (aget ds_addr 2) +:+ ":" +:+ fmt_02X (aget ds_addr 3)
           +:+ ":" +:+ fmt_02X (aget ds_addr 4) +:+ ":" +:+ fmt_02X (aget ds_addr 5)
           +:+ ":" +:+ fmt_02X (aget ds_addr 7) +:+ ":" +:+ fmt_02X (aget ds_addr 7)) ;;
        b <- gets msgbuf ;; Output b ;;
        ret true
  end.

(** [dallas_sensor_init ()]; [search1] and [search2] are the outcomes of
    the first search and of the retry. *)
Definition dallas_sensor_init (env : Env) (search1 search2 : option (list Z)) : M unit :=
  found <- Scan1WireBus env search1 ;;
  modify (set_ds_found found) ;;
  (f <- gets ds_found ;;
   if negb f then
     found <- Scan1WireBus env search2 ;;
     modify (set_ds_found found) ;;
     f <- gets ds_found ;;
     if negb f then turn_on_bit SSB_DS_1 else ret tt
   else ret tt) ;;
  f <- gets ds_found ;;
  if f then
    getDSTemp env ;;
    v <- gets ds_valid ;;
    r <- gets ds_reading ;;
    (if v then sprintf_msgbuf ("DS " +:+ fmt_d_02d r +:+ " OK")
     else sprintf_msgbuf ("DS " +:+ fmt_d_02d r +:+ " BAD")) ;;
    b <- gets msgbuf ;; Output b
  else ret tt.

(** A search result [Scan1WireBus] accepts: the CRC of the first seven
    bytes is the eighth and the family code is 0x28 (DS18B20). *)
Definition ds_accepts (env : Env) (search : option (list Z)) : bool :=
  match search with
  | None => false
  | Some ds_addr =>
      (crc8 env (take 7 ds_addr) mod 256 =? aget ds_addr 7) && (aget ds_addr 0 =? 0x28)
  end.

(** ** Presence monitoring: the driver that brings a slot back *)

(** The driver object [I2C_Check_Sensors] begins for a slot that is
    recorded absent and answers on the bus, by the cached identity byte;
    [d280] and [d3xx] are the slot's BMP280 and BMP3XX objects. *)
Definition recovery_driver (d280 d3xx : driver) (chip_id : Z) : driver :=
  if chip_id =? BME280_BMP390_CHIP_ID then d280 else d3xx.

(** The name under which it is announced. *)
Definition recovery_name (n280 n3xx : string) (chip_id : Z) : string :=
  if chip_id =? BME280_BMP390_CHIP_ID then n280 else n3xx.

(** The state after one slot's half of [I2C_Check_Sensors]: [present] is
    the answer of the bus, [ex] the slot's exists flag, [set_ex] its
    setter, [fault] the slot's fault bit, [d] the driver begun on
    recovery at [address] and [name] its name. *)
Definition checked (env : Env) (present ex : bool) (set_ex : bool -> State -> State)
    (fault address : Z) (d : driver) (name offline : string) (s : State) : State :=
  if present then
    if ex then s
    else if begin_ok env d address then
      set_SystemStatusBits (Z.land (SystemStatusBits s) (bit_not fault))
        (set_ex true
           (add_events (Driver_begin d address :: out_events s (name +:+ " ONLINE")) s))
    else add_events [Driver_begin d address] s
  else
    if ex then
      set_SystemStatusBits (Z.lor (SystemStatusBits s) fault)
        (set_ex false (add_events (out_events s offline) s))
    else s.

(** ** What one observation leaves in the globals *)

(** The state after [OBS_Do (log_obs)] of SSGFALMO-240719 run in state
    [s] with a valid clock. *)
Definition observed (env : Env) (log_obs : bool) (s : State) : State :=
  let record := serialize (observation env (scaled_median env s) s) in
  let s1 := set_sg_buckets (mysort (fill env (sg_buckets s) 0 SG_BUCKETS) SG_BUCKETS) s in
  let s2 := if ds_found s
            then set_ds_valid (snd (ds_final env)) (set_ds_reading (fst (ds_final env)) s1)
            else s1 in
  let s3 := set_msgbuf record
              (set_timestamp (iso8601 (rtc_now env)) (set_now (rtc_now env) s2)) in
  set_SystemStatusBits
    (if log_obs then log_bits env s (rtc_now env) else SystemStatusBits s)
    (add_events (obs_events env s log_obs record) s3).

(** The sleeps among the events, in milliseconds. *)
Fixpoint sleeps (evs : list event) : list Z :=
  match evs with
  | [] => []
  | LowPower_sleep ms :: evs' => ms :: sleeps evs'
  | _ :: evs' => sleeps evs'
  end.

(** ** Proof steps *)

(** Unfolds the plumbing and the accesses to the globals, nothing else. *)
Ltac st_cbn :=
  cbv beta iota zeta delta [bind gets modify ret emit exec eval fst snd negb
       turn_on_bit turn_off_bit sprintf_msgbuf sprintf_msgbuf_end
       add_events driver_begin
       SystemStatusBits JustPoweredOn msgbuf DisplayEnabled SerialConsoleEnabled
       SD_exists RTC_valid now timestamp cf_ds_type sg_buckets ds_found
       ds_reading ds_valid BMX_1_chip_id BMX_2_chip_id BMX_1_exists
       BMX_2_exists BMX_1_type BMX_2_type MCP_1_exists trace
       set_SystemStatusBits set_JustPoweredOn set_msgbuf set_now set_timestamp
       set_sg_buckets set_ds_found set_ds_reading set_ds_valid
       set_BMX_1_chip_id set_BMX_2_chip_id set_BMX_1_exists set_BMX_2_exists
       set_BMX_1_type set_BMX_2_type set_MCP_1_exists set_trace].

Ltac st_cbn_in H :=
  cbv beta iota zeta delta [bind gets modify ret emit exec eval fst snd negb
       turn_on_bit turn_off_bit sprintf_msgbuf sprintf_msgbuf_end
       add_events driver_begin
       SystemStatusBits JustPoweredOn msgbuf DisplayEnabled SerialConsoleEnabled
       SD_exists RTC_valid now timestamp cf_ds_type sg_buckets ds_found
       ds_reading ds_valid BMX_1_chip_id BMX_2_chip_id BMX_1_exists
       BMX_2_exists BMX_1_type BMX_2_type MCP_1_exists trace
       set_SystemStatusBits set_JustPoweredOn set_msgbuf set_now set_timestamp
       set_sg_buckets set_ds_found set_ds_reading set_ds_valid
       set_BMX_1_chip_id set_BMX_2_chip_id set_BMX_1_exists set_BMX_2_exists
       set_BMX_1_type set_BMX_2_type set_MCP_1_exists set_trace] in H.

(** Two states that differ in the bracketing of their traces. *)
Ltac st_eq := st_cbn; rewrite <- ?app_assoc, ?app_nil_r; reflexivity.


(** * Properties *)

(** ** mysort sorts *)

Section MysortFacts.
Local Open Scope nat_scope.

Lemma aget_middle (pre : list Z) (x : Z) (r : list Z) :
  aget (pre ++ x :: r) (length pre) = x.
Proof. unfold aget. by rewrite list_lookup_middle. Qed.

Lemma aget_middle_next (pre : list Z) (x y : Z) (r : list Z) :
  aget (pre ++ x :: y :: r) (length pre + 1) = y.
Proof.
  unfold aget. rewrite lookup_app_r by lia.
  replace (length pre + 1 - length pre) with 1 by lia. done.
Qed.

Lemma myswap_adjacent (pre : list Z) (x y : Z) (r : list Z) :
  myswap (pre ++ x :: y :: r) (length pre) (length pre + 1)
  = pre ++ y :: x :: r.
Proof.
  unfold myswap. rewrite aget_middle, aget_middle_next.
  rewrite !insert_app_r_alt by lia.
  replace (length pre - length pre) with 0 by lia.
  replace (length pre + 1 - length pre) with 1 by lia. done.
Qed.

(** One comparison of the inner loop moves the larger element right. *)
Lemma mysort_inner_step (pre : list Z) (x y : Z) (r : list Z) (c : nat) :
  mysort_inner (pre ++ x :: y :: r) (length pre) (S c)
  = mysort_inner ((pre ++ [Z.min x y]) ++ Z.max x y :: r) (S (length pre)) c.
Proof.
  simpl. rewrite aget_middle, aget_middle_next, myswap_adjacent.
  rewrite <- app_assoc. simpl.
  destruct (Z.gtb_spec x y).
  - by rewrite Z.min_r, Z.max_l by lia.
  - by rewrite Z.min_l, Z.max_r by lia.
Qed.

(** A pass of [c] comparisons started with the running maximum [x] at
    position [length pre] carries the maximum of the visited elements to
    position [length pre + c] and permutes the visited elements. *)
Lemma mysort_inner_carry (c : nat) : forall (pre : list Z) (x : Z) (r : list Z),
  c <= length r ->
  Forall (fun z => (z <= x)%Z) pre ->
  exists (pre' : list Z) (x' : Z),
    mysort_inner (pre ++ x :: r) (length pre) c = pre' ++ x' :: drop c r
    /\ length pre' = length pre + c
    /\ pre' ++ [x'] ≡ₚ pre ++ x :: take c r
    /\ Forall (fun z => (z <= x')%Z) pre'.
Proof.
  induction c as [|c IH]; intros pre x r Hc Hmax.
  - exists pre, x. simpl. rewrite drop_0, take_0.
    repeat split; [lia | | done].
    by rewrite Permutation_app_comm.
  - destruct r as [|y r]; [simpl in Hc; lia|].
    rewrite mysort_inner_step.
    assert (Hlen : S (length pre) = length (pre ++ [Z.min x y])).
    { rewrite length_app. simpl. lia. }
    rewrite Hlen.
    destruct (IH (pre ++ [Z.min x y]) (Z.max x y) r) as (pre' & x' & E & L & P & M).
    + simpl in Hc. lia.
    + apply Forall_app. split.
      * eapply Forall_impl; [exact Hmax|]. simpl. intros. lia.
      * constructor; [lia | constructor].
    + exists pre', x'. repeat split.
      * exact E.
      * rewrite L, <- Hlen. lia.
      * rewrite P. simpl. rewrite <- app_assoc. simpl.
        apply Permutation_app_head.
        destruct (Z.le_gt_cases x y).
        -- rewrite Z.min_l, Z.max_r by lia. done.
        -- rewrite Z.min_r, Z.max_l by lia. apply perm_swap.
      * exact M.
Qed.

(** The outer loop keeps a sorted tail [t] that dominates the still
    unsorted front [u]; each pass moves the maximum of [u] onto [t]. *)
Lemma mysort_outer_sorts (cnt : nat) : forall (u t : list Z) (n i : nat),
  length u = S cnt ->
  n - i - 1 = cnt ->
  StronglySorted Z.le t ->
  Forall (fun z => Forall (fun w => (z <= w)%Z) t) u ->
  StronglySorted Z.le (mysort_outer (u ++ t) n i cnt)
  /\ mysort_outer (u ++ t) n i cnt ≡ₚ u ++ t.
Proof.
  induction cnt as [|c IH]; intros u t n i Hu Hn Hs Hdom.
  - destruct u as [|x [|? ?]]; simpl in Hu; try lia.
    simpl. split; [|done].
    constructor; [exact Hs|]. by inversion Hdom.
  - destruct u as [|x r]; simpl in Hu; [lia|].
    change (mysort_outer ((x :: r) ++ t) n i (S c))
      with (mysort_outer
              (mysort_inner ([] ++ x :: (r ++ t)) (length (@nil Z)) (n - i - 1))
              n (S i) c).
    rewrite Hn.
    destruct (mysort_inner_carry (S c) [] x (r ++ t)) as (pre' & x' & E & L & P & M).
    { rewrite length_app. lia. }
    { constructor. }
    rewrite E. clear E. simpl in L.
    change ([] ++ x :: take (S c) (r ++ t)) with (x :: take (S c) (r ++ t)) in P.
    change ((x :: r) ++ t) with (x :: r ++ t).
    assert (Hr : length r = S c) by lia.
    rewrite drop_app_length' in * by done.
    rewrite take_app_length' in P by done.
    assert (Hin : forall z, z ∈ pre' ++ [x'] -> Forall (fun w => (z <= w)%Z) t).
    { intros z Hz. rewrite P in Hz.
      rewrite Forall_forall in Hdom. by apply Hdom. }
    destruct (IH pre' (x' :: t) n (S i)) as [S1 P1].
    + lia.
    + lia.
    + constructor; [exact Hs|]. apply Hin.
      apply elem_of_app. right. by apply list_elem_of_singleton.
    + rewrite Forall_forall. intros z Hz. constructor.
      * rewrite Forall_forall in M. by apply M.
      * apply Hin. apply elem_of_app. by left.
    + split; [exact S1|].
      rewrite P1.
      change (pre' ++ x' :: t) with (pre' ++ [x'] ++ t).
      rewrite app_assoc, P. done.
Qed.

Lemma mysort_sorted (a : list Z) :
  StronglySorted Z.le (mysort a (length a)) /\ mysort a (length a) ≡ₚ a.
Proof.
  unfold mysort. destruct a as [|x a].
  - simpl. split; [constructor | done].
  - pose proof (mysort_outer_sorts (length a) (x :: a) [] (length (x :: a)) 0) as H.
    rewrite app_nil_r in H.
    replace (length (x :: a) - 1) with (length a) by (simpl; lia).
    apply H.
    + done.
    + simpl. lia.
    + constructor.
    + rewrite Forall_forall. intros. constructor.
Qed.

Lemma StronglySorted_lookup_le (l : list Z) :
  StronglySorted Z.le l ->
  forall (i j : nat) (x y : Z),
    l !! i = Some x -> l !! j = Some y -> i < j -> (x <= y)%Z.
Proof.
  induction 1 as [|a l Hs IH Ha]; intros i j x y Hi Hj Hij.
  - by rewrite lookup_nil in Hi.
  - destruct j as [|j]; [lia|]. simpl in Hj.
    destruct i as [|i]; simpl in Hi.
    + injection Hi as <-. rewrite Forall_forall in Ha.
      apply Ha. by eapply list_elem_of_lookup_2.
    + eapply IH; eauto. lia.
Qed.
End MysortFacts.

(** ** State bookkeeping *)

Lemma set_sg_buckets_twice (b b' : list Z) (s : State) :
  set_sg_buckets b (set_sg_buckets b' s) = set_sg_buckets b s.
Proof. reflexivity. Qed.

Lemma sg_buckets_set (b : list Z) (s : State) : sg_buckets (set_sg_buckets b s) = b.
Proof. reflexivity. Qed.

(** ** The sampling window *)

Section Window.
Variable env : Env.
Local Open Scope nat_scope.

Lemma sg_sample_exec (cnt : nat) : forall (i : nat) (s : State),
  sg_sample env i cnt s = (tt, set_sg_buckets (fill env (sg_buckets s) i cnt) s).
Proof.
  induction cnt as [|c IH]; intros i s.
  - by destruct s.
  - simpl. unfold bind, modify. rewrite IH. reflexivity.
Qed.

Lemma fill_lookup (cnt : nat) : forall (i : nat) (b : list Z) (k : nat),
  fill env b i cnt !! k
  = if decide (i <= k < i + cnt /\ k < length b) then Some (sample env k) else b !! k.
Proof.
  unfold fill. induction cnt as [|c IH]; intros i b k.
  - simpl. case_decide; [lia | done].
  - simpl. rewrite IH, length_insert, list_lookup_insert.
    repeat case_decide; try done; try lia.
    by destruct H0 as [-> _].
Qed.

Lemma fill_window (b : list Z) :
  length b = SG_BUCKETS -> fill env b 0 SG_BUCKETS = window env.
Proof.
  intros Hb. apply list_eq. intros k.
  rewrite fill_lookup. unfold window.
  rewrite list_lookup_fmap.
  destruct (decide (k < SG_BUCKETS)) as [Hk|Hk].
  - rewrite lookup_seq_lt by done. simpl.
    case_decide; [done | lia].
  - rewrite lookup_seq_ge by lia. simpl.
    case_decide; [lia|]. apply lookup_ge_None. lia.
Qed.

Lemma window_length : length (window env) = SG_BUCKETS.
Proof. unfold window. by rewrite length_fmap, length_seq. Qed.

(** Sampling, sorting and picking touch nothing but [sg_buckets]. *)
Lemma sg_sort_pick_run (s : State) :
  length (sg_buckets s) = SG_BUCKETS ->
  sg_sort_pick env s
  = (aget (mysort (window env) SG_BUCKETS) 29,
     set_sg_buckets (mysort (window env) SG_BUCKETS) s).
Proof.
  intros Hb. unfold sg_sort_pick, bind. rewrite sg_sample_exec.
  unfold modify, gets, ret.
  rewrite sg_buckets_set, set_sg_buckets_twice, fill_window by done.
  reflexivity.
Qed.
End Window.

(** C1. For every window of 60 samples, [s_gauge_median] leaves the window
    sorted in ascending order by [mysort] in [sg_buckets] and returns the
    element at index (60+1)/2 - 1 = 29 of the sorted window; that element
    is one of the samples, and it is the lower of the two middle elements
    (no average is taken). *)
Theorem s_gauge_median_lower_median (env : Env) (s : State) :
  length (sg_buckets s) = SG_BUCKETS ->
  let sorted := sg_buckets (exec (V230827.s_gauge_median env) s) in
  let median := eval (V230827.s_gauge_median env) s in
  ((SG_BUCKETS + 1) / 2 - 1 = 29)%nat
  /\ sorted = mysort (window env) SG_BUCKETS
  /\ StronglySorted Z.le sorted
  /\ sorted ≡ₚ window env
  /\ sorted !! 29%nat = Some median
  /\ median ∈ window env
  /\ median <= aget sorted 30.
Proof.
  intros Hb sorted median.
  unfold sorted, median, exec, eval, V230827.s_gauge_median.
  rewrite sg_sort_pick_run by done. simpl fst. simpl snd.
  rewrite sg_buckets_set.
  pose proof (mysort_sorted (window env)) as [Hs Hp].
  rewrite window_length in Hs, Hp.
  assert (Hl : length (mysort (window env) SG_BUCKETS) = 60%nat).
  { rewrite Hp. apply window_length. }
  assert (H29 : mysort (window env) SG_BUCKETS !! 29%nat
                = Some (aget (mysort (window env) SG_BUCKETS) 29)).
  { unfold aget. destruct (lookup_lt_is_Some_2 (mysort (window env) SG_BUCKETS) 29) as [x Hx];
      [lia|]. by rewrite Hx. }
  split; [reflexivity|]. split; [reflexivity|]. split; [exact Hs|].
  split; [exact Hp|]. split; [exact H29|].
  generalize dependent (aget (mysort (window env) SG_BUCKETS) 29).
  intros m H29. split.
  - rewrite <- Hp. eapply list_elem_of_lookup_2. exact H29.
  - destruct (lookup_lt_is_Some_2 (mysort (window env) SG_BUCKETS) 30) as [y Hy]; [lia|].
    unfold aget. rewrite Hy. cbn [default from_option].
    eapply StronglySorted_lookup_le; [exact Hs | exact H29 | exact Hy | lia].
Qed.

(** ** Running the state-passing code *)

Lemma bind_run {A B : Type} (c : M A) (k : A -> M B) (s s1 : State) (a : A) :
  c s = (a, s1) -> bind c k s = k a s1.
Proof. unfold bind. by intros ->. Qed.

Lemma Serial_write_run (str : string) (s : State) :
  Serial_write str s = (tt, add_events (serial_events s str) s).
Proof.
  unfold Serial_write, serial_events. destruct s as [? ? ? ? sce]. st_cbn.
  destruct sce; st_cbn; [reflexivity|]. by rewrite app_nil_r.
Qed.

Lemma Output_run (str : string) (s : State) :
  Output str s = (tt, add_events (out_events s str) s).
Proof.
  unfold Output, OLED_write, out_events.
  destruct s as [? ? ? de sce]. st_cbn.
  destruct de; st_cbn; rewrite Serial_write_run; unfold serial_events;
    st_cbn; destruct sce; st_eq.
Qed.

Lemma OLED_sleepDisplay_run (s : State) :
  OLED_sleepDisplay s
  = (tt, add_events (if DisplayEnabled s then [Display_command false] else []) s).
Proof.
  unfold OLED_sleepDisplay. destruct s as [? ? ? de]. st_cbn.
  destruct de; st_cbn; [reflexivity|]. by rewrite app_nil_r.
Qed.

Lemma OLED_wakeDisplay_run (s : State) :
  OLED_wakeDisplay s
  = (tt, add_events (if DisplayEnabled s then [Display_command true] else []) s).
Proof.
  unfold OLED_wakeDisplay. destruct s as [? ? ? de]. st_cbn.
  destruct de; st_cbn; [reflexivity|]. by rewrite app_nil_r.
Qed.

(** ** Events *)

Lemma out_events_output (s : State) (str : string) :
  forallb is_output (out_events s str) = true.
Proof.
  unfold out_events, serial_events.
  by destruct (DisplayEnabled s), (SerialConsoleEnabled s).
Qed.

Lemma begins_at_app (a : Z) (e1 e2 : list event) :
  begins_at a (e1 ++ e2) = begins_at a e1 ++ begins_at a e2.
Proof.
  induction e1 as [|e e1 IH]; [done|].
  destruct e; simpl; rewrite ?IH; try done.
  by destruct (_ =? _).
Qed.

Lemma begins_at_output (a : Z) (evs : list event) :
  forallb is_output evs = true -> begins_at a evs = [].
Proof.
  induction evs as [|e evs IH]; [done|].
  destruct e; simpl; try done; apply IH.
Qed.

Lemma outputs_app (e1 e2 : list event) :
  outputs (e1 ++ e2) = outputs e1 ++ outputs e2.
Proof.
  induction e1 as [|e e1 IH]; [done|].
  destruct e; simpl; rewrite ?IH; done.
Qed.

Lemma sd_lines_app (e1 e2 : list event) :
  sd_lines (e1 ++ e2) = sd_lines e1 ++ sd_lines e2.
Proof.
  induction e1 as [|e e1 IH]; [done|].
  destruct e; simpl; rewrite ?IH; done.
Qed.

Lemma sd_opens_app (e1 e2 : list event) :
  sd_opens (e1 ++ e2) = sd_opens e1 ++ sd_opens e2.
Proof.
  induction e1 as [|e e1 IH]; [done|].
  destruct e; simpl; rewrite ?IH; done.
Qed.

Lemma sd_lines_output (evs : list event) :
  forallb is_output evs = true -> sd_lines evs = [].
Proof.
  induction evs as [|e evs IH]; [done|].
  destruct e; simpl; try done; apply IH.
Qed.

Lemma sd_opens_output (evs : list event) :
  forallb is_output evs = true -> sd_opens evs = [].
Proof.
  induction evs as [|e evs IH]; [done|].
  destruct e; simpl; try done; apply IH.
Qed.

(** ** Bosch sensor identification *)

Ltac st_run := repeat (st_cbn; rewrite ?Output_run, ?Serial_write_run).

Lemma probe_chip_id_run (env : Env) (address reg : Z) (s : State) :
  exists (buf : string) (evs : list event),
    probe_chip_id env address reg s
    = (probe_result env address reg, set_msgbuf buf (add_events evs s))
    /\ forallb is_output evs = true.
Proof.
  unfold probe_chip_id, probe_result. destruct s. st_run.
  destruct (_ mod 256 =? 0); st_run.
  - destruct (Wire_read env address reg) as [b|]; st_run.
    + destruct (b mod 256 =? BMP280_CHIP_ID); st_run;
        [|destruct (b mod 256 =? BMP388_CHIP_ID); st_run;
          [|destruct (b mod 256 =? BME280_BMP390_CHIP_ID); st_run]];
        cbn [orb];
        (eexists _, _; split;
         [rewrite <- ?app_assoc; reflexivity
         | rewrite !forallb_app, !out_events_output; reflexivity]).
    + eexists _, _; split;
        [rewrite <- ?app_assoc; reflexivity
        | rewrite !forallb_app, !out_events_output; reflexivity].
  - eexists _, _; split;
      [rewrite <- ?app_assoc; reflexivity
      | rewrite !forallb_app, !out_events_output; reflexivity].
Qed.

Lemma get_Bosch_ChipID_run (env : Env) (address : Z) (s : State) :
  exists (buf : string) (evs : list event),
    get_Bosch_ChipID env address s
    = (chip_id_of env address, set_msgbuf buf (add_events evs s))
    /\ forallb is_output evs = true.
Proof.
  unfold get_Bosch_ChipID, chip_id_of. destruct s. st_run.
  match goal with
  | |- context [probe_chip_id ?e ?a ?r ?st] =>
      destruct (probe_chip_id_run e a r st) as (b0 & e0 & E0 & O0)
  end.
  rewrite E0. st_run.
  destruct (probe_result env address 0) as [id|]; st_run.
  - eexists _, _; split; [rewrite <- ?app_assoc; reflexivity|].
    by rewrite forallb_app, out_events_output, O0.
  - match goal with
    | |- context [probe_chip_id ?e ?a ?r ?st] =>
        destruct (probe_chip_id_run e a r st) as (bD & eD & ED & OD)
    end.
    rewrite ED. st_run.
    destruct (probe_result env address 208) as [id|]; st_run;
      (eexists _, _; split; [rewrite <- ?app_assoc; reflexivity|];
       by rewrite !forallb_app, out_events_output, O0, OD).
Qed.

Lemma testbit_lor_BMX_1 (x : Z) : Z.testbit (Z.lor x SSB_BMX_1) 7 = true.
Proof. rewrite Z.lor_spec. apply orb_true_r. Qed.

Lemma testbit_lor_BMX_2 (x : Z) : Z.testbit (Z.lor x SSB_BMX_2) 8 = true.
Proof. rewrite Z.lor_spec. apply orb_true_r. Qed.

Lemma testbit_lor_BMX_2_frame (x : Z) : Z.testbit (Z.lor x SSB_BMX_2) 7 = Z.testbit x 7.
Proof. rewrite Z.lor_spec. apply orb_false_r. Qed.

Ltac split_ands := repeat match goal with |- _ /\ _ => split end.

(** Closes one branch of a [switch]: the identity byte is known by the
    tests in the context. *)
Ltac switch_facts :=
  split_ands; try reflexivity;
  try apply testbit_lor_BMX_2_frame;
  unfold identified, BMP280_CHIP_ID, BME280_BMP390_CHIP_ID, BMP388_CHIP_ID in *;
  repeat match goal with
         | H : (_ =? _) = true |- _ => apply Z.eqb_eq in H
         | H : (_ =? _) = false |- _ => apply Z.eqb_neq in H
         end;
  split; intros Hid; try lia;
  split_ands; intros; try congruence;
  repeat match goal with
         | H : begin_ok _ _ _ = _ |- context [begin_ok _ _ _] => rewrite H
         end;
  split_ands; try reflexivity;
  try apply testbit_lor_BMX_1; try apply testbit_lor_BMX_2.

Ltac switch_branch :=
  eexists _, _, _, _, _; split; [reflexivity | switch_facts].

Lemma bmx_1_switch_run (env : Env) (id : Z) (s : State) :
  exists (msg : string) (evs : list event) (ex : bool) (ty bits : Z),
    bmx_1_switch env id s
    = (msg, set_BMX_1_type ty (set_BMX_1_exists ex
              (set_SystemStatusBits bits (add_events evs s))))
    /\ begins_at BMX_ADDRESS_2 evs = []
    /\ identified env BMX_ADDRESS_1 bmp1 bme1 bm31 id
         (begins_at BMX_ADDRESS_1 evs) ex ty bits 7.
Proof.
  unfold bmx_1_switch. destruct s.
  destruct (id =? BMP280_CHIP_ID) eqn:H58;
    [|destruct (id =? BME280_BMP390_CHIP_ID) eqn:H60;
      [|destruct (id =? BMP388_CHIP_ID) eqn:H50]]; st_run.
  - destruct (begin_ok env bmp1 BMX_ADDRESS_1) eqn:Hb; st_run; switch_branch.
  - destruct (begin_ok env bme1 BMX_ADDRESS_1) eqn:Hb; st_run;
      [|destruct (begin_ok env bm31 BMX_ADDRESS_1) eqn:Hb3; st_run];
      rewrite <- ?app_assoc; switch_branch.
  - destruct (begin_ok env bm31 BMX_ADDRESS_1) eqn:Hb; st_run; switch_branch.
  - exists "BMX_1 NF"%string, [], BMX_1_exists0, BMX_1_type0, SystemStatusBits0.
    split; [st_cbn; by rewrite app_nil_r | switch_facts].
Qed.

Lemma bmx_2_switch_run (env : Env) (id : Z) (s : State) :
  exists (msg : string) (evs : list event) (ex : bool) (ty bits : Z),
    bmx_2_switch env id s
    = (msg, set_BMX_2_type ty (set_BMX_2_exists ex
              (set_SystemStatusBits bits (add_events evs s))))
    /\ begins_at BMX_ADDRESS_1 evs = []
    /\ Z.testbit bits 7 = Z.testbit (SystemStatusBits s) 7
    /\ identified env BMX_ADDRESS_2 bmp1 bme2 bm31 id
         (begins_at BMX_ADDRESS_2 evs) ex ty bits 8.
Proof.
  unfold bmx_2_switch. destruct s.
  destruct (id =? BMP280_CHIP_ID) eqn:H58;
    [|destruct (id =? BME280_BMP390_CHIP_ID) eqn:H60;
      [|destruct (id =? BMP388_CHIP_ID) eqn:H50]]; st_run.
  - destruct (begin_ok env bmp1 BMX_ADDRESS_2) eqn:Hb; st_run; switch_branch.
  - destruct (begin_ok env bme2 BMX_ADDRESS_2) eqn:Hb; st_run;
      [|destruct (begin_ok env bm31 BMX_ADDRESS_2) eqn:Hb3; st_run];
      rewrite <- ?app_assoc; switch_branch.
  - destruct (begin_ok env bm31 BMX_ADDRESS_2) eqn:Hb; st_run; switch_branch.
  - exists "BMX_2 NF"%string, [], BMX_2_exists0, BMX_2_type0, SystemStatusBits0.
    split; [st_cbn; by rewrite app_nil_r | switch_facts].
Qed.

Lemma identified_frame (env : Env) (address : Z) (d280 dbme d3xx : driver)
    (id : Z) (begun begun' : list driver) (ex : bool) (ty bits bits' fault : Z) :
  begun' = begun ->
  Z.testbit bits' fault = Z.testbit bits fault ->
  identified env address d280 dbme d3xx id begun ex ty bits fault ->
  identified env address d280 dbme d3xx id begun' ex ty bits' fault.
Proof. intros -> Hb. unfold identified. rewrite Hb. tauto. Qed.

(** C3. [bmx_initialize] stores the identity byte of each slot.  For the
    byte 0x58 it begins a BMP280 driver at the slot's address and, when that
    succeeds, records the slot as present with type BMP280.  For the byte
    0x60 it begins the BME280 driver first and a BMP3XX driver only when
    the BME280 handshake fails, recording BME280 or BMP390 accordingly;
    when both handshakes fail the slot's exists flag is false and the
    slot's fault bit (bit 7 for slot 1, bit 8 for slot 2) is set in
    SystemStatusBits. *)
Theorem bmx_initialize_identifies (env : Env) (s : State) :
  let s' := exec (bmx_initialize env) s in
  exists evs : list event,
    trace s' = trace s ++ evs
    /\ BMX_1_chip_id s' = chip_id_of env BMX_ADDRESS_1
    /\ BMX_2_chip_id s' = chip_id_of env BMX_ADDRESS_2
    /\ identified env BMX_ADDRESS_1 bmp1 bme1 bm31 (BMX_1_chip_id s')
         (begins_at BMX_ADDRESS_1 evs)
         (BMX_1_exists s') (BMX_1_type s') (SystemStatusBits s') 7
    /\ identified env BMX_ADDRESS_2 bmp1 bme2 bm31 (BMX_2_chip_id s')
         (begins_at BMX_ADDRESS_2 evs)
         (BMX_2_exists s') (BMX_2_type s') (SystemStatusBits s') 8
    /\ family_of bmp1 = Adafruit_BMP280
    /\ family_of bme1 = Adafruit_BME280 /\ family_of bme2 = Adafruit_BME280
    /\ family_of bm31 = Adafruit_BMP3XX
    /\ SSB_BMX_1 = 2 ^ 7 /\ SSB_BMX_2 = 2 ^ 8.
Proof.
  unfold bmx_initialize. destruct s. st_run.
  match goal with
  | |- context [get_Bosch_ChipID ?e ?a ?st] =>
      destruct (get_Bosch_ChipID_run e a st) as (b1 & e1 & E1 & O1)
  end.
  rewrite E1. st_run.
  match goal with
  | |- context [bmx_1_switch ?e ?i ?st] =>
      destruct (bmx_1_switch_run e i st)
        as (m1 & v1 & ex1 & ty1 & bits1 & R1 & F1 & I1)
  end.
  rewrite R1. st_run.
  match goal with
  | |- context [get_Bosch_ChipID ?e ?a ?st] =>
      destruct (get_Bosch_ChipID_run e a st) as (b2 & e2 & E2 & O2)
  end.
  rewrite E2. st_run.
  match goal with
  | |- context [bmx_2_switch ?e ?i ?st] =>
      destruct (bmx_2_switch_run e i st)
        as (m2 & v2 & ex2 & ty2 & bits2 & R2 & F2 & B2 & I2)
  end.
  rewrite R2. st_run. st_cbn_in B2.
  eexists. split; [rewrite <- ?app_assoc; reflexivity|].
  split; [reflexivity|]. split; [reflexivity|].
  split.
  { eapply identified_frame; [|exact B2|exact I1].
    rewrite !begins_at_app, F2.
    rewrite !(begins_at_output _ _ (out_events_output _ _)).
    rewrite (begins_at_output _ _ O1), (begins_at_output _ _ O2).
    by rewrite app_nil_r. }
  split.
  { eapply identified_frame; [|reflexivity|exact I2].
    rewrite !begins_at_app, F1.
    rewrite !(begins_at_output _ _ (out_events_output _ _)).
    rewrite (begins_at_output _ _ O1), (begins_at_output _ _ O2).
    by rewrite app_nil_r. }
  repeat split.
Qed.

(** ** Presence monitoring *)

Lemma begun_app (e1 e2 : list event) : begun (e1 ++ e2) = begun e1 ++ begun e2.
Proof.
  induction e1 as [|e e1 IH]; [done|].
  destruct e; simpl; rewrite ?IH; done.
Qed.

Lemma begun_output (evs : list event) :
  forallb is_output evs = true -> begun evs = [].
Proof.
  induction evs as [|e evs IH]; [done|].
  destruct e; simpl; try done; apply IH.
Qed.

(** Picks the next undecided test of [I2C_Check_Sensors]. *)
Ltac split_cond :=
  match goal with
  | |- context [if (?x mod 256 =? 0) then _ else _] =>
      destruct (x mod 256 =? 0) eqn:?
  | |- context [if (?x =? BME280_BMP390_CHIP_ID) then _ else _] =>
      destruct (x =? BME280_BMP390_CHIP_ID) eqn:?
  | |- context [if begin_ok ?e ?d ?a then _ else _] =>
      destruct (begin_ok e d a) eqn:?
  | |- context [if ?b then _ else _] => is_var b; destruct b
  end.

Ltac check_run := st_run; repeat (split_cond; st_run).

Ltac eqb_to_eq :=
  repeat match goal with
         | H : (_ =? _) = true |- _ => apply Z.eqb_eq in H
         | H : (_ =? _) = false |- _ => apply Z.eqb_neq in H
         end.

(** Rewrites the events of a concrete run into their projections. *)
Ltac events_simpl :=
  rewrite ?sd_lines_app, ?sd_opens_app, ?begun_app, ?begins_at_app, ?outputs_app,
    ?(sd_lines_output _ (out_events_output _ _)),
    ?(sd_opens_output _ (out_events_output _ _)),
    ?(begun_output _ (out_events_output _ _)),
    ?(begins_at_output _ _ (out_events_output _ _)).

(** One call on one slot.  Only the slot's exists flag, the status bits
    and the trace change; no BME280 driver is begun; a slot whose cached
    identity byte is 0x60, that is recorded absent and answers on the bus,
    comes back exactly when its BMP280 driver begins; and a second call
    that finds the bus and the drivers as the first did changes nothing
    and writes nothing. *)
Lemma check_BMX_1_run (env env2 : Env) (s : State) :
  on_bus env2 BMX_ADDRESS_1 = on_bus env BMX_ADDRESS_1 ->
  (forall d, begin_ok env2 d BMX_ADDRESS_1 = begin_ok env d BMX_ADDRESS_1) ->
  exists (evs : list event) (ex : bool) (bits : Z),
    check_BMX_1 env s
    = (tt, set_SystemStatusBits bits (set_BMX_1_exists ex (add_events evs s)))
    /\ sd_lines evs = [] /\ sd_opens evs = []
    /\ begins_at BMX_ADDRESS_2 evs = []
    /\ Forall (fun d => family_of d <> Adafruit_BME280) (begun evs)
    /\ (BMX_1_chip_id s = BME280_BMP390_CHIP_ID -> BMX_1_exists s = false ->
        on_bus env BMX_ADDRESS_1 = true ->
        begins_at BMX_ADDRESS_1 evs = [bmp1]
        /\ ex = begin_ok env bmp1 BMX_ADDRESS_1)
    /\ (forall s1 : State,
          BMX_1_exists s1 = ex -> BMX_1_chip_id s1 = BMX_1_chip_id s ->
          exists evs' : list event,
            check_BMX_1 env2 s1 = (tt, add_events evs' s1) /\ outputs evs' = []).
Proof.
  intros Hbus Hbegin.
  unfold on_bus in *. unfold check_BMX_1 at 1. unfold I2C_Device_Exist.
  destruct s. check_run.
  all: first
    [ eexists [], _, _; split; [st_cbn; rewrite app_nil_r; reflexivity|]
    | eexists _, _, _; split; [st_cbn; rewrite <- ?app_assoc; reflexivity|] ].
  all: events_simpl.
  all: split; [reflexivity|]. all: split; [reflexivity|].
  all: split; [reflexivity|].
  all: split; [cbn [begun app]; repeat constructor; discriminate|].
  all: st_cbn.
  all: split;
    [unfold BME280_BMP390_CHIP_ID in *; eqb_to_eq;
     intros; try congruence; try lia; split; try reflexivity; congruence|].
  all: intros s1 H1 H2; destruct s1; st_cbn_in H1; st_cbn_in H2; subst.
  all: unfold check_BMX_1, I2C_Device_Exist.
  all: repeat first
    [ progress st_run
    | progress rewrite ?Hbus, ?Hbegin
    | match goal with
           | H : (?c =? ?d) = _ |- context [?c =? ?d] => rewrite H
           | H : ?c = ?d |- context [?c =? ?d] => rewrite (proj2 (Z.eqb_eq c d) H)
           | H : ?c <> ?d |- context [?c =? ?d] => rewrite (proj2 (Z.eqb_neq c d) H)
           | H : begin_ok _ _ _ = _ |- context [begin_ok _ _ _] => rewrite H
           end ].
  all: first
    [ exists []; split; [st_cbn; rewrite app_nil_r; reflexivity | reflexivity]
    | eexists; split; [reflexivity | reflexivity] ].
Qed.

(** The same for the second slot. *)
Lemma check_BMX_2_run (env env2 : Env) (s : State) :
  on_bus env2 BMX_ADDRESS_2 = on_bus env BMX_ADDRESS_2 ->
  (forall d, begin_ok env2 d BMX_ADDRESS_2 = begin_ok env d BMX_ADDRESS_2) ->
  exists (evs : list event) (ex : bool) (bits : Z),
    check_BMX_2 env s
    = (tt, set_SystemStatusBits bits (set_BMX_2_exists ex (add_events evs s)))
    /\ sd_lines evs = [] /\ sd_opens evs = []
    /\ begins_at BMX_ADDRESS_1 evs = []
    /\ Forall (fun d => family_of d <> Adafruit_BME280) (begun evs)
    /\ (BMX_2_chip_id s = BME280_BMP390_CHIP_ID -> BMX_2_exists s = false ->
        on_bus env BMX_ADDRESS_2 = true ->
        begins_at BMX_ADDRESS_2 evs = [bmp2]
        /\ ex = begin_ok env bmp2 BMX_ADDRESS_2)
    /\ (forall s1 : State,
          BMX_2_exists s1 = ex -> BMX_2_chip_id s1 = BMX_2_chip_id s ->
          exists evs' : list event,
            check_BMX_2 env2 s1 = (tt, add_events evs' s1) /\ outputs evs' = []).
Proof.
  intros Hbus Hbegin.
  unfold on_bus in *. unfold check_BMX_2 at 1. unfold I2C_Device_Exist.
  destruct s. check_run.
  all: first
    [ eexists [], _, _; split; [st_cbn; rewrite app_nil_r; reflexivity|]
    | eexists _, _, _; split; [st_cbn; rewrite <- ?app_assoc; reflexivity|] ].
  all: events_simpl.
  all: split; [reflexivity|]. all: split; [reflexivity|].
  all: split; [reflexivity|].
  all: split; [cbn [begun app]; repeat constructor; discriminate|].
  all: st_cbn.
  all: split;
    [unfold BME280_BMP390_CHIP_ID in *; eqb_to_eq;
     intros; try congruence; try lia; split; try reflexivity; congruence|].
  all: intros s1 H1 H2; destruct s1; st_cbn_in H1; st_cbn_in H2; subst.
  all: unfold check_BMX_2, I2C_Device_Exist.
  all: repeat first
    [ progress st_run
    | progress rewrite ?Hbus, ?Hbegin
    | match goal with
           | H : (?c =? ?d) = _ |- context [?c =? ?d] => rewrite H
           | H : ?c = ?d |- context [?c =? ?d] => rewrite (proj2 (Z.eqb_eq c d) H)
           | H : ?c <> ?d |- context [?c =? ?d] => rewrite (proj2 (Z.eqb_neq c d) H)
           | H : begin_ok _ _ _ = _ |- context [begin_ok _ _ _] => rewrite H
           end ].
  all: first
    [ exists []; split; [st_cbn; rewrite app_nil_r; reflexivity | reflexivity]
    | eexists; split; [reflexivity | reflexivity] ].
Qed.

Lemma add_events_twice (e1 e2 : list event) (s : State) :
  add_events e2 (add_events e1 s) = add_events (e1 ++ e2) s.
Proof. unfold add_events. st_cbn. by rewrite app_assoc. Qed.

(** C8. A second call of [I2C_Check_Sensors] that finds the bus probes and
    the driver begins answering as in the first call changes neither
    exists flag nor SystemStatusBits and writes no online or offline
    line: at most the first call makes a transition. *)
Theorem I2C_Check_Sensors_idempotent (env env2 : Env) (s : State) :
  (forall a, on_bus env2 a = on_bus env a) ->
  (forall d a, begin_ok env2 d a = begin_ok env d a) ->
  let s1 := exec (I2C_Check_Sensors env) s in
  let s2 := exec (I2C_Check_Sensors env2) s1 in
  exists evs2 : list event,
    s2 = add_events evs2 s1
    /\ outputs evs2 = []
    /\ BMX_1_exists s2 = BMX_1_exists s1
    /\ BMX_2_exists s2 = BMX_2_exists s1
    /\ SystemStatusBits s2 = SystemStatusBits s1.
Proof.
  intros Hbus Hbegin s1 s2. subst s1 s2.
  unfold I2C_Check_Sensors, exec.
  destruct (check_BMX_1_run env env2 s (Hbus _) (fun d => Hbegin d _))
    as (e1 & ex1 & b1 & R1 & _ & _ & _ & _ & _ & Idem1).
  rewrite (bind_run _ _ _ _ _ R1).
  match goal with
  | |- context [check_BMX_2 env ?st] =>
      destruct (check_BMX_2_run env env2 st (Hbus _) (fun d => Hbegin d _))
        as (e2 & ex2 & b2 & R2 & _ & _ & _ & _ & _ & Idem2)
  end.
  rewrite R2. cbn [snd].
  match goal with
  | |- context [bind (check_BMX_1 env2) _ ?st] =>
      destruct (Idem1 st eq_refl eq_refl) as (e3 & R3 & O3)
  end.
  rewrite (bind_run _ _ _ _ _ R3).
  match goal with
  | |- context [check_BMX_2 env2 ?st] =>
      destruct (Idem2 st eq_refl eq_refl) as (e4 & R4 & O4)
  end.
  rewrite R4. cbn [snd].
  exists (e3 ++ e4). rewrite add_events_twice, outputs_app, O3, O4.
  split; [reflexivity|]. split; [reflexivity|].
  unfold add_events. st_cbn. split; [reflexivity|]. split; reflexivity.
Qed.

(** C10. Whatever the cached identity byte, [I2C_Check_Sensors] begins no
    BME280 driver: the branch that would is guarded by the test of the
    branch before it.  A slot with cached byte 0x60 that is recorded absent
    and answers on the bus again is brought back exactly when its BMP280
    driver begins. *)
Theorem I2C_Check_Sensors_never_begins_BME280 (env : Env) (s : State) :
  let s' := exec (I2C_Check_Sensors env) s in
  exists evs : list event,
    trace s' = trace s ++ evs
    /\ Forall (fun d => family_of d <> Adafruit_BME280) (begun evs)
    /\ family_of bme1 = Adafruit_BME280 /\ family_of bme2 = Adafruit_BME280
    /\ (BMX_1_chip_id s = BME280_BMP390_CHIP_ID -> BMX_1_exists s = false ->
        on_bus env BMX_ADDRESS_1 = true ->
        begins_at BMX_ADDRESS_1 evs = [bmp1]
        /\ BMX_1_exists s' = begin_ok env bmp1 BMX_ADDRESS_1)
    /\ (BMX_2_chip_id s = BME280_BMP390_CHIP_ID -> BMX_2_exists s = false ->
        on_bus env BMX_ADDRESS_2 = true ->
        begins_at BMX_ADDRESS_2 evs = [bmp2]
        /\ BMX_2_exists s' = begin_ok env bmp2 BMX_ADDRESS_2).
Proof.
  intros s'. subst s'. unfold I2C_Check_Sensors, exec.
  destruct (check_BMX_1_run env env s eq_refl (fun d => eq_refl))
    as (e1 & ex1 & b1 & R1 & _ & _ & F1 & N1 & C1 & _).
  rewrite (bind_run _ _ _ _ _ R1).
  match goal with
  | |- context [check_BMX_2 env ?st] =>
      destruct (check_BMX_2_run env env st eq_refl (fun d => eq_refl))
        as (e2 & ex2 & b2 & R2 & _ & _ & F2 & N2 & C2 & _)
  end.
  rewrite R2. cbn [snd]. st_cbn_in C2.
  exists (e1 ++ e2). st_cbn.
  split; [by rewrite app_assoc|].
  split; [rewrite begun_app; by apply Forall_app|].
  split; [reflexivity|]. split; [reflexivity|].
  rewrite !begins_at_app, F1, F2, app_nil_r. cbn [app].
  split; assumption.
Qed.


(** ** Quality control *)

Lemma num_compare_antisym (a b : Z * Z) :
  num_compare b a = CompOpp (num_compare a b).
Proof. unfold num_compare. rewrite (Z.min_comm (snd b)). apply Z.compare_antisym. Qed.

Lemma fcompare_antisym (x y : spec_float) :
  fcompare y x = option_map CompOpp (fcompare x y).
Proof.
  destruct x as [sx|sx| |sx mx ex], y as [sy|sy| |sy my ey]; simpl;
    try reflexivity;
    try (by destruct sx); try (by destruct sy); try (by destruct sx, sy);
    f_equal; apply num_compare_antisym.
Qed.

Lemma fcompare_nan (x y : spec_float) :
  fcompare x y = None -> isnan x = true \/ isnan y = true.
Proof.
  destruct x as [sx|sx| |sx mx ex], y as [sy|sy| |sy my ey]; simpl;
    intros H; try discriminate; auto.
Qed.

(** [x < y] is the negation of [y <= x] on numbers. *)
Lemma flt_not_fle (x y : spec_float) :
  isnan x = false -> isnan y = false -> flt x y = negb (fle y x).
Proof.
  intros Hx Hy. unfold flt, fle. rewrite (fcompare_antisym x y).
  destruct (fcompare x y) as [[]|] eqn:E; try reflexivity.
  apply fcompare_nan in E. destruct E; congruence.
Qed.

Lemma isnan_fle_l (x y : spec_float) : isnan x = true -> fle x y = false.
Proof. by destruct x. Qed.

Lemma QC_bounds_not_nan (k : kind) :
  isnan (QC_MIN k) = false /\ isnan (QC_MAX k) = false.
Proof. by destruct k. Qed.

(** The gate passes exactly the values of the envelope. *)
Lemma gate_in_envelope (k : kind) (v : spec_float) :
  gate k v = if in_envelope k v then v else sentinel k.
Proof.
  unfold gate, qc_gate, in_envelope, sentinel, fgt.
  destruct (QC_bounds_not_nan k) as [Hmin Hmax].
  destruct (isnan v) eqn:Hv; [reflexivity|].
  rewrite (flt_not_fle v _ Hv Hmin), (flt_not_fle _ v Hmax Hv).
  by destruct (fle (QC_MIN k) v), (fle v (QC_MAX k)).
Qed.

Lemma sentinel_outside (k : kind) : in_envelope k (sentinel k) = false.
Proof. destruct k; vm_compute; reflexivity. Qed.

Lemma gate_gated (k : kind) (v : spec_float) : gated k (gate k v).
Proof.
  rewrite gate_in_envelope. unfold gated.
  destruct (in_envelope k v) eqn:E; auto.
Qed.

(** C2, as the code has it.  The gate returns [v] when [v] is a number
    within [min, max], bounds included, and the kind's sentinel otherwise;
    so its result equals [v] exactly when [v] is in the envelope or is the
    sentinel itself, which lies outside every envelope.  The gate is a
    function of the kind and the value alone. *)
Theorem gate_passes_envelope (k : kind) (v : spec_float) :
  gate k v = (if in_envelope k v then v else sentinel k)
  /\ (gate k v = v <-> in_envelope k v = true \/ v = sentinel k)
  /\ in_envelope k (sentinel k) = false
  /\ in_envelope k (QC_MIN k) = true /\ in_envelope k (QC_MAX k) = true
  /\ gate k (QC_MIN k) = QC_MIN k /\ gate k (QC_MAX k) = QC_MAX k.
Proof.
  split; [apply gate_in_envelope|].
  split.
  { rewrite gate_in_envelope. destruct (in_envelope k v) eqn:E.
    - split; auto.
    - split; [auto|]. intros [H|H]; [discriminate | auto]. }
  split; [apply sentinel_outside|].
  destruct k; vm_compute; auto.
Qed.

(** C2 as stated fails on the sentinel: the gate returns it unchanged
    although it is outside the envelope. *)
Lemma gate_returns_sentinel_unchanged :
  ~ (gate Temperature (sentinel Temperature) = sentinel Temperature
     <-> in_envelope Temperature (sentinel Temperature) = true).
Proof.
  intros [H _]. assert (E : in_envelope Temperature (sentinel Temperature) = true).
  { apply H. vm_compute. reflexivity. }
  vm_compute in E. discriminate.
Qed.

(** ** Observation with an invalid clock *)

(** C4. With an invalid clock [OBS_Do] only writes the diagnostic line,
    whatever [log_obs] is: the state is the one before with the line
    appended to the trace, nothing is opened or written on the SD card and
    [msgbuf] is untouched.  [SD_LogObservation] itself does nothing either
    when the clock is invalid. *)
Theorem OBS_Do_skips_when_clock_invalid
    (s_gauge_median : Env -> M Z) (env : Env) (log_obs : bool) (s : State) :
  RTC_valid s = false ->
  let diagnostic := out_events s "OBS_Do: Time NV" in
  OBS_Do s_gauge_median env log_obs s = (tt, add_events diagnostic s)
  /\ Forall (fun line => line = "OBS_Do: Time NV"%string) (outputs diagnostic)
  /\ forallb is_output diagnostic = true
  /\ sd_opens diagnostic = [] /\ sd_lines diagnostic = []
  /\ msgbuf (exec (OBS_Do s_gauge_median env log_obs) s) = msgbuf s
  /\ forall obs : string, SD_LogObservation env obs s = (tt, s).
Proof.
  intros Hrtc diagnostic.
  assert (Hrun : OBS_Do s_gauge_median env log_obs s = (tt, add_events diagnostic s)).
  { unfold OBS_Do, bind, gets. rewrite Hrtc. cbn [negb]. apply Output_run. }
  split; [exact Hrun|].
  split.
  { unfold diagnostic, out_events, serial_events.
    destruct (DisplayEnabled s), (SerialConsoleEnabled s); repeat constructor. }
  split; [apply out_events_output|].
  split; [apply sd_opens_output, out_events_output|].
  split; [apply sd_lines_output, out_events_output|].
  split; [unfold exec; by rewrite Hrun|].
  intros obs. unfold SD_LogObservation, bind, gets.
  destruct (SD_exists s); cbn [negb]; [|reflexivity].
  rewrite Hrtc. reflexivity.
Qed.

(** ** Running an observation *)

Lemma sg_sort_pick_run' (env : Env) (s : State) :
  sg_sort_pick env s
  = (picked_median env s,
     set_sg_buckets (mysort (fill env (sg_buckets s) 0 SG_BUCKETS) SG_BUCKETS) s).
Proof.
  unfold sg_sort_pick, picked_median, bind. rewrite sg_sample_exec.
  change ((SG_BUCKETS + 1) / 2 - 1)%nat with 29%nat.
  unfold modify, gets, ret. rewrite sg_buckets_set, set_sg_buckets_twice.
  rewrite sg_buckets_set. reflexivity.
Qed.

Lemma s_gauge_median_240719_run (env : Env) (s : State) :
  V240719.s_gauge_median env s
  = (scaled_median env s,
     set_sg_buckets (mysort (fill env (sg_buckets s) 0 SG_BUCKETS) SG_BUCKETS) s).
Proof.
  unfold V240719.s_gauge_median, scaled_median.
  rewrite (bind_run _ _ _ _ _ (sg_sort_pick_run' env s)).
  destruct s. st_cbn. by destruct (cf_ds_type0 =? 0).
Qed.

Lemma getDSTempByAddr_run (env : Env) (delayms : Z) (s : State) :
  getDSTempByAddr env delayms s
  = (snd (ds_result env delayms),
     set_ds_valid (snd (ds_result env delayms))
       (set_ds_reading (fst (ds_result env delayms)) s)).
Proof.
  unfold getDSTempByAddr, ds_result. destruct s.
  destruct (ds_crc_ok env delayms); st_cbn; [|reflexivity].
  destruct (fne _ QC_ERR_T); reflexivity.
Qed.

Lemma getDSTemp_run (env : Env) (s : State) :
  getDSTemp env s
  = (tt, set_ds_valid (snd (ds_final env)) (set_ds_reading (fst (ds_final env)) s)).
Proof.
  unfold getDSTemp, ds_final, ds_last.
  rewrite (bind_run _ _ _ _ _ (getDSTempByAddr_run env 250 s)).
  destruct (snd (ds_result env 250)) eqn:E; cbv iota; cbn [negb].
  - rewrite E. reflexivity.
  - rewrite (bind_run _ _ _ _ _ (getDSTempByAddr_run env 750 _)).
    destruct s. reflexivity.
Qed.

Lemma SD_LogObservation_run (env : Env) (obs : string) (s : State) :
  RTC_valid s = true ->
  SD_LogObservation env obs s
  = (tt, set_SystemStatusBits (log_bits env s (now s))
           (add_events (log_events env s (now s) obs) s)).
Proof.
  intros Hrtc. unfold SD_LogObservation, log_bits, log_events.
  destruct s. st_cbn_in Hrtc. subst. st_run.
  destruct SD_exists0; st_run; [|by rewrite app_nil_r].
  destruct (SD_open_ok env _); st_run; st_eq.
Qed.

Ltac obs_run :=
  repeat (st_cbn;
          rewrite ?Output_run, ?Serial_write_run, ?s_gauge_median_240719_run,
            ?getDSTemp_run, ?SD_LogObservation_run by reflexivity).

(** Unfolds the summaries on both sides of a goal about a concrete run. *)
Ltac obs_unfold :=
  cbv beta iota zeta delta
    [obs_events log_events log_bits out_events serial_events
     scaled_median picked_median observation serialize
     obs_at obs_sg obs_bmx1 obs_bmx2 obs_mt1 obs_dt1 obs_bv obs_hth
     SystemStatusBits JustPoweredOn msgbuf DisplayEnabled SerialConsoleEnabled
     SD_exists RTC_valid now timestamp cf_ds_type sg_buckets ds_found
     ds_reading ds_valid BMX_1_chip_id BMX_2_chip_id BMX_1_exists
     BMX_2_exists BMX_1_type BMX_2_type MCP_1_exists trace fst snd].

(** One call of [OBS_Do] with a valid clock, in the sketch of 240719:
    [msgbuf] holds the serialized observation; the trace grows by the
    lines of [obs_events]; the status bits change only through the SD log;
    the flags do not change. *)
Lemma OBS_Do_run (env : Env) (log_obs : bool) (s : State) :
  RTC_valid s = true ->
  let record := serialize (observation env (scaled_median env s) s) in
  exists s' : State,
    OBS_Do V240719.s_gauge_median env log_obs s = (tt, s')
    /\ msgbuf s' = record
    /\ trace s' = trace s ++ obs_events env s log_obs record
    /\ SystemStatusBits s'
       = (if log_obs then log_bits env s (rtc_now env) else SystemStatusBits s)
    /\ JustPoweredOn s' = JustPoweredOn s
    /\ SerialConsoleEnabled s' = SerialConsoleEnabled s
    /\ SD_exists s' = SD_exists s
    /\ RTC_valid s' = RTC_valid s.
Proof.
  intros Hrtc record. subst record.
  destruct s. st_cbn_in Hrtc. subst.
  unfold OBS_Do, rtc_timestamp, qc_bosch.
  obs_unfold.
  destruct BMX_1_exists0, BMX_2_exists0, MCP_1_exists0, ds_found0, log_obs;
    repeat first
      [ progress obs_run
      | match goal with
        | |- context [read_bosch ?e ?a ?b ?c ?i ?t] =>
            destruct (read_bosch e a b c i t) as [[? ?] ?]
        end ];
    obs_unfold;
    (eexists; split; [reflexivity|]);
    obs_unfold;
    (split; [reflexivity|]);
    (split; [rewrite ?app_nil_r, <- ?app_assoc; cbn [app]; reflexivity|]);
    repeat split.
Qed.

(** ** Observation: record, persistence, gating *)

Lemma serial_events_output (s : State) (str : string) :
  forallb is_output (serial_events s str) = true.
Proof. unfold serial_events. by destruct (SerialConsoleEnabled s). Qed.

(** The record does not depend on [log_obs] nor on the SD card. *)
Lemma OBS_Do_record (env : Env) (log_obs : bool) (s : State) :
  RTC_valid s = true ->
  msgbuf (exec (OBS_Do V240719.s_gauge_median env log_obs) s)
  = serialize (observation env (scaled_median env s) s).
Proof.
  intros Hrtc. destruct (OBS_Do_run env log_obs s Hrtc) as (s' & R & Hm & _).
  unfold exec. rewrite R. exact Hm.
Qed.







Lemma zero_in_envelope : in_envelope Temperature (S754_zero false) = true.
Proof. vm_compute. reflexivity. Qed.

(** [ds_reading] after a read: the gated temperature or the sentinel when
    the CRC matches, 0.0 when it does not. *)
Lemma ds_result_cases (env : Env) (delayms : Z) :
  (ds_crc_ok env delayms = true ->
   fst (ds_result env delayms) = gate Temperature (ds_temperature env delayms)
   \/ fst (ds_result env delayms) = sentinel Temperature)
  /\ (ds_crc_ok env delayms = false -> fst (ds_result env delayms) = S754_zero false)
  /\ gated Temperature (fst (ds_result env delayms)).
Proof.
  unfold ds_result. destruct (ds_crc_ok env delayms); cbn [negb].
  - change (qc_gate QC_MIN_T QC_MAX_T QC_ERR_T) with (gate Temperature).
    destruct (fne _ QC_ERR_T); cbn [fst].
    + split; [auto|]. split; [discriminate|]. apply gate_gated.
    + split; [right; reflexivity|]. split; [discriminate|]. by left.
  - cbn [fst]. split; [discriminate|]. split; [reflexivity|].
    right. apply zero_in_envelope.
Qed.

(** C6, as the code has it.  The record is the serialization of the
    observation.  The pressure, temperature and humidity of a present Bosch
    slot and the MCP9808 temperature are outputs of the gate, hence the
    sentinel or a number of the envelope.  The Dallas temperature is the
    output of the temperature gate (or the sentinel) when the CRC of the
    deciding scratchpad read matches and the constant 0.0 when it does
    not.  The gauge value, the battery voltage and the status bits are
    serialized as they are: no envelope exists for them. *)
Theorem observation_fields_gated (env : Env) (log_obs : bool) (s : State) :
  RTC_valid s = true ->
  let o := observation env (scaled_median env s) s in
  msgbuf (exec (OBS_Do V240719.s_gauge_median env log_obs) s) = serialize o
  /\ (forall p t h, obs_bmx1 o = Some (p, t, h) ->
      gated Pressure p /\ gated Temperature t /\ gated Humidity h)
  /\ (forall p t h, obs_bmx2 o = Some (p, t, h) ->
      gated Pressure p /\ gated Temperature t /\ gated Humidity h)
  /\ (forall t, obs_mt1 o = Some t ->
      t = gate Temperature (readTempC env mcp1) /\ gated Temperature t)
  /\ (forall t, obs_dt1 o = Some t ->
      (ds_crc_ok env (ds_last env) = true ->
       t = gate Temperature (ds_temperature env (ds_last env))
       \/ t = sentinel Temperature)
      /\ (ds_crc_ok env (ds_last env) = false -> t = S754_zero false)
      /\ gated Temperature t)
  /\ obs_sg o = to_int (scaled_median env s)
  /\ obs_bv o = vbat_get env
  /\ obs_hth o = to_int (SystemStatusBits s).
Proof.
  intros Hrtc o. split; [by apply OBS_Do_record|].
  unfold o, observation. cbn [obs_bmx1 obs_bmx2 obs_mt1 obs_dt1 obs_sg obs_bv obs_hth].
  split.
  { intros p t h. destruct (BMX_1_exists s); [|discriminate].
    unfold qc_bosch. destruct (read_bosch _ _ _ _ _ _) as [[p0 t0] h0].
    intros [= <- <- <-]. repeat split; apply gate_gated. }
  split.
  { intros p t h. destruct (BMX_2_exists s); [|discriminate].
    unfold qc_bosch. destruct (read_bosch _ _ _ _ _ _) as [[p0 t0] h0].
    intros [= <- <- <-]. repeat split; apply gate_gated. }
  split.
  { intros t. destruct (MCP_1_exists s); [|discriminate].
    intros [= <-]. split; [reflexivity | apply gate_gated]. }
  split.
  { intros t. destruct (ds_found s); [|discriminate].
    intros [= <-]. unfold ds_final. apply ds_result_cases. }
  repeat split.
Qed.

(** ** Clearing the startup bits *)

Lemma testbit_clear (x m n : Z) :
  0 <= n < 32 ->
  Z.testbit (Z.land x (bit_not m)) n = Z.testbit x n && negb (Z.testbit m n).
Proof.
  intros Hn. unfold bit_not, to_uint.
  rewrite Z.land_spec, Z.mod_pow2_bits_low, Z.lnot_spec by lia. reflexivity.
Qed.

Lemma JPO_ClearBits_run (s : State) :
  JustPoweredOn s = true ->
  JPO_ClearBits s
  = (tt, set_SystemStatusBits
           (Z.land (Z.land (Z.land (Z.land (Z.land (Z.land (SystemStatusBits s)
              (bit_not SSB_PWRON)) (bit_not SSB_OLED)) (bit_not SSB_BMX_1))
              (bit_not SSB_BMX_2)) (bit_not SSB_MCP_1)) (bit_not SSB_DS_1))
           (set_JustPoweredOn false s)).
Proof. intros H. unfold JPO_ClearBits. destruct s. st_cbn_in H. subst. reflexivity. Qed.

Lemma JPO_ClearBits_noop (s : State) :
  JustPoweredOn s = false -> JPO_ClearBits s = (tt, s).
Proof. intros H. unfold JPO_ClearBits. destruct s. st_cbn_in H. subst. reflexivity. Qed.




(** ** The scenario of the specification *)

Lemma append_assoc (a b c : string) : (a +:+ b) +:+ c = a +:+ b +:+ c.
Proof.
  induction a as [|x a IH]; [reflexivity|].
  change (String x ((a +:+ b) +:+ c) = String x (a +:+ b +:+ c)).
  by rewrite IH.
Qed.

Lemma scenario_text_differs (ts : string) (b : bool) :
  scenario_text ts (if b then "5120" else "2560") "0025" <> scenario_text ts "512" "2500".
Proof.
  unfold scenario_text. intros H.
  apply (inj (append "{")) in H.
  apply (inj (append (key "at"))) in H.
  apply (inj (append dq)) in H.
  apply (inj (append ts)) in H.
  destruct b; vm_compute in H; discriminate.
Qed.

(** C7, what the code does in the scenario.  With a valid clock, the
    median gauge reading 512, a BME280 in the first slot reading
    101325 Pa (1013.25 hPa), 22.5 C and 45 %, no other sensor, the
    battery at raw 575 (3.706 V) and status bits 0, the record of the
    sketch of 240719 is, character for character,
    [{"at":"<ts>","sg":5120,"bp1":1013.0025,"bt1":22.50,"bh1":45.00,"bv":3.70,"hth":0}]
    for sensor type 0, and the same with [sg] 2560 for any other type:
    the keys at, sg, bp1, bt1, bh1, bv, hth in this order and no others;
    the fractions cut off, not rounded (3.706 V prints as 3.70); the
    gauge value multiplied by 10 or by 5; and the pressure fraction 25
    printed in four places as 0025.  It is not the record the
    specification gives, which has [sg] 512 and [bp1] 1013.2500. *)
Theorem scenario_record (env : Env) (s : State) (log_obs : bool) :
  RTC_valid s = true ->
  picked_median env s = 512 ->
  BMX_1_exists s = true ->
  BMX_1_chip_id s = BME280_BMP390_CHIP_ID ->
  BMX_1_type s = BMX_TYPE_BME280 ->
  readPressure env bme1 = f32_of_Z 101325 ->
  readTemperature env bme1 = f32_div (f32_of_Z 45) (f32_of_Z 2) ->
  readHumidity env bme1 = f32_of_Z 45 ->
  BMX_2_exists s = false -> MCP_1_exists s = false -> ds_found s = false ->
  analogRead_VBAT env = 575 ->
  SystemStatusBits s = 0 ->
  let ts := iso8601 (rtc_now env) in
  let record := msgbuf (exec (OBS_Do V240719.s_gauge_median env log_obs) s) in
  record = scenario_text ts (if cf_ds_type s =? 0 then "5120" else "2560") "0025"
  /\ record <> specified_record ts.
Proof.
  intros Hrtc Hmed Hex Hid Hty Hp Ht Hh Hex2 Hmcp Hds Hbv Hbits ts record.
  assert (E : record
              = scenario_text ts (if cf_ds_type s =? 0 then "5120" else "2560") "0025").
  { unfold record, ts. rewrite OBS_Do_record by exact Hrtc.
    unfold serialize, observation, scaled_median, read_bosch, vbat_get.
    cbn [obs_at obs_sg obs_bmx1 obs_bmx2 obs_mt1 obs_dt1 obs_bv obs_hth].
    rewrite Hmed, Hex, Hid, Hty, Hp, Ht, Hh, Hex2, Hmcp, Hds, Hbv, Hbits.
    generalize (iso8601 (rtc_now env)). intros t.
    destruct (cf_ds_type s =? 0); cbn [negb];
      vm_compute; rewrite ?append_assoc; reflexivity. }
  split; [exact E|].
  rewrite E. apply scenario_text_differs.
Qed.


(** C7 as stated fails in the scenario: the sketch of 240719 prints the
    gauge value scaled (5120, not 512), and both sketches print the
    pressure 1013.25 hPa as 1013.0025, the two-digit fraction 25 padded to
    four places. *)
Lemma scenario_record_differs :
  let ts := iso8601 (rtc_now scenario_env) in
  let p := f32_div (readPressure scenario_env bme1) (f32_of_Z 100) in
  picked_median scenario_env scenario_state = 512
  /\ f2i (f32_mul p (f32_of_Z 10000)) = 10132500
  /\ msgbuf (exec (OBS_Do V240719.s_gauge_median scenario_env true) scenario_state)
     = scenario_text ts "5120" "0025"
  /\ msgbuf (exec (OBS_Do V230827.s_gauge_median scenario_env true) scenario_state)
     = scenario_text ts "512" "0025"
  /\ scenario_text ts "5120" "0025" <> specified_record ts
  /\ scenario_text ts "512" "0025" <> specified_record ts
  /\ msgbuf (exec (OBS_Do V240719.s_gauge_median scenario_env true) scenario_state)
     <> specified_record ts.
Proof.
  vm_compute. repeat split; discriminate.
Qed.

(** C6 as stated fails for the Dallas field: when the CRC of both
    scratchpad reads fails, the temperature the bytes encode is outside the
    envelope and the gate would give the sentinel, but [ds_reading] and the
    record hold 0.0, which no gate produced from that reading. *)
Lemma dallas_field_not_gated :
  let env := scenario_env in
  let s' := exec (OBS_Do V240719.s_gauge_median env true) scenario_state_dallas in
  ds_crc_ok env 250 = false /\ ds_crc_ok env 750 = false
  /\ ds_last env = 750
  /\ in_envelope Temperature (ds_temperature env 750) = false
  /\ gate Temperature (ds_temperature env 750) = sentinel Temperature
  /\ ds_reading s' = S754_zero false
  /\ msgbuf s'
     = scenario_text_dallas (iso8601 (rtc_now env)) "5120" "0025" "0.0000"
  /\ ~ (ds_reading s' = gate Temperature (ds_temperature env (ds_last env))).
Proof.
  vm_compute. repeat split. discriminate.
Qed.



(** ** The theorems at the scenario *)

Lemma s_gauge_median_lower_median_witness :
  length (sg_buckets scenario_state) = SG_BUCKETS
  /\ (let sorted := sg_buckets (exec (V230827.s_gauge_median scenario_env) scenario_state) in
      let median := eval (V230827.s_gauge_median scenario_env) scenario_state in
      ((SG_BUCKETS + 1) / 2 - 1 = 29)%nat
      /\ sorted = mysort (window scenario_env) SG_BUCKETS
      /\ StronglySorted Z.le sorted
      /\ sorted ≡ₚ window scenario_env
      /\ sorted !! 29%nat = Some median
      /\ median ∈ window scenario_env
      /\ median <= aget sorted 30).
Proof.
  split; [reflexivity|].
  apply (s_gauge_median_lower_median scenario_env scenario_state). reflexivity.
Defined.

Lemma OBS_Do_skips_when_clock_invalid_witness :
  RTC_valid scenario_state_no_clock = false
  /\ OBS_Do V240719.s_gauge_median scenario_env true scenario_state_no_clock
     = (tt, add_events (out_events scenario_state_no_clock "OBS_Do: Time NV")
              scenario_state_no_clock).
Proof.
  split; [reflexivity|].
  apply (OBS_Do_skips_when_clock_invalid V240719.s_gauge_median scenario_env true
           scenario_state_no_clock).
  reflexivity.
Defined.

Lemma observation_fields_gated_witness :
  RTC_valid scenario_state_dallas = true
  /\ msgbuf (exec (OBS_Do V240719.s_gauge_median scenario_env true) scenario_state_dallas)
     = serialize (observation scenario_env
                    (scaled_median scenario_env scenario_state_dallas)
                    scenario_state_dallas).
Proof.
  split; [reflexivity|].
  apply (observation_fields_gated scenario_env true scenario_state_dallas).
  reflexivity.
Defined.

Lemma scenario_record_witness :
  (RTC_valid scenario_state = true
   /\ picked_median scenario_env scenario_state = 512
   /\ BMX_1_exists scenario_state = true
   /\ BMX_1_chip_id scenario_state = BME280_BMP390_CHIP_ID
   /\ BMX_1_type scenario_state = BMX_TYPE_BME280
   /\ readPressure scenario_env bme1 = f32_of_Z 101325
   /\ readTemperature scenario_env bme1 = f32_div (f32_of_Z 45) (f32_of_Z 2)
   /\ readHumidity scenario_env bme1 = f32_of_Z 45
   /\ BMX_2_exists scenario_state = false
   /\ MCP_1_exists scenario_state = false
   /\ ds_found scenario_state = false
   /\ analogRead_VBAT scenario_env = 575
   /\ SystemStatusBits scenario_state = 0)
  /\ (let ts := iso8601 (rtc_now scenario_env) in
      let record :=
        msgbuf (exec (OBS_Do V240719.s_gauge_median scenario_env true) scenario_state) in
      record = scenario_text ts (if cf_ds_type scenario_state =? 0 then "5120" else "2560")
                 "0025"
      /\ record <> specified_record ts).
Proof.
  split.
  - repeat split; vm_compute; reflexivity.
  - apply (scenario_record scenario_env scenario_state true);
      vm_compute; reflexivity.
Defined.

Lemma I2C_Check_Sensors_idempotent_witness :
  (forall a, on_bus scenario_env a = on_bus scenario_env a)
  /\ (forall d a, begin_ok scenario_env d a = begin_ok scenario_env d a)
  /\ (let s1 := exec (I2C_Check_Sensors scenario_env) scenario_state in
      let s2 := exec (I2C_Check_Sensors scenario_env) s1 in
      exists evs2 : list event,
        s2 = add_events evs2 s1
        /\ outputs evs2 = []
        /\ BMX_1_exists s2 = BMX_1_exists s1
        /\ BMX_2_exists s2 = BMX_2_exists s1
        /\ SystemStatusBits s2 = SystemStatusBits s1).
Proof.
  split; [reflexivity|]. split; [reflexivity|].
  apply (I2C_Check_Sensors_idempotent scenario_env scenario_env scenario_state);
    reflexivity.
Defined.



(** ** mysort on a prefix of a longer array *)

Section MysortPrefix.
Local Open Scope nat_scope.

Lemma aget_app_l (l rest : list Z) (k : nat) :
  k < length l -> aget (l ++ rest) k = aget l k.
Proof. intros H. unfold aget. by rewrite lookup_app_l. Qed.

Lemma myswap_app_l (l rest : list Z) (p q : nat) :
  p < length l -> q < length l ->
  myswap (l ++ rest) p q = myswap l p q ++ rest.
Proof.
  intros Hp Hq. unfold myswap.
  rewrite !aget_app_l by lia.
  rewrite insert_app_l by lia.
  rewrite insert_app_l by (rewrite length_insert; lia).
  done.
Qed.

Lemma myswap_length (l : list Z) (p q : nat) : length (myswap l p q) = length l.
Proof. unfold myswap. by rewrite !length_insert. Qed.

Lemma mysort_inner_length (c : nat) : forall (l : list Z) (j : nat),
  length (mysort_inner l j c) = length l.
Proof.
  induction c as [|c IH]; intros l j; [done|].
  simpl. rewrite IH. destruct (_ >? _)%Z; [apply myswap_length | done].
Qed.

(** The inner loop reads and writes the indices [j .. j+c] only. *)
Lemma mysort_inner_app_l (c : nat) : forall (l rest : list Z) (j : nat),
  j + c < length l ->
  mysort_inner (l ++ rest) j c = mysort_inner l j c ++ rest.
Proof.
  induction c as [|c IH]; intros l rest j Hj; [done|].
  simpl. rewrite !aget_app_l by lia.
  destruct (_ >? _)%Z.
  - rewrite myswap_app_l by lia. apply IH. rewrite myswap_length. lia.
  - apply IH. lia.
Qed.

Lemma mysort_outer_length (cnt : nat) : forall (l : list Z) (n i : nat),
  length (mysort_outer l n i cnt) = length l.
Proof.
  induction cnt as [|c IH]; intros l n i; [done|].
  simpl. by rewrite IH, mysort_inner_length.
Qed.

Lemma mysort_outer_app_l (cnt : nat) : forall (l rest : list Z) (n i : nat),
  1 <= n <= length l ->
  mysort_outer (l ++ rest) n i cnt = mysort_outer l n i cnt ++ rest.
Proof.
  induction cnt as [|c IH]; intros l rest n i Hn; [done|].
  simpl. rewrite mysort_inner_app_l by lia.
  apply IH. rewrite mysort_inner_length. lia.
Qed.

Lemma mysort_length (a : list Z) (n : nat) : length (mysort a n) = length a.
Proof. apply mysort_outer_length. Qed.

Lemma mysort_app_l (l rest : list Z) (n : nat) :
  1 <= n <= length l -> mysort (l ++ rest) n = mysort l n ++ rest.
Proof. intros H. unfold mysort. by apply mysort_outer_app_l. Qed.

(** On a sorted stretch the inner loop swaps nothing. *)
Lemma mysort_inner_sorted (c : nat) : forall (l : list Z) (j : nat),
  StronglySorted Z.le l -> j + c < length l -> mysort_inner l j c = l.
Proof.
  induction c as [|c IH]; intros l j Hs Hj; [done|].
  simpl.
  destruct (lookup_lt_is_Some_2 l j) as [x Hx]; [lia|].
  destruct (lookup_lt_is_Some_2 l (j + 1)) as [y Hy]; [lia|].
  unfold aget. rewrite Hx, Hy. simpl.
  assert (x <= y)%Z by (eapply StronglySorted_lookup_le; eauto; lia).
  destruct (Z.gtb_spec x y); [lia|].
  apply IH; [done | lia].
Qed.

Lemma mysort_outer_sorted (cnt : nat) : forall (l : list Z) (n i : nat),
  StronglySorted Z.le l -> 1 <= n <= length l -> mysort_outer l n i cnt = l.
Proof.
  induction cnt as [|c IH]; intros l n i Hs Hn; [done|].
  simpl. rewrite mysort_inner_sorted by (done || lia). by apply IH.
Qed.

(** [mysort (a, n)] is [mysort] of the first [n] elements followed by the
    rest of the array. *)
Lemma mysort_split (a : list Z) (n : nat) :
  1 <= n <= length a -> mysort a n = mysort (take n a) n ++ drop n a.
Proof.
  intros Hn. rewrite <- (take_drop n a) at 1. apply mysort_app_l.
  rewrite length_take. lia.
Qed.

Lemma mysort_take_sorted (a : list Z) (n : nat) :
  1 <= n <= length a ->
  StronglySorted Z.le (take n (mysort a n)) /\ take n (mysort a n) ≡ₚ take n a.
Proof.
  intros Hn.
  assert (Hl : length (take n a) = n) by (rewrite length_take; lia).
  destruct (mysort_sorted (take n a)) as [Hs Hp]. rewrite Hl in Hs, Hp.
  rewrite mysort_split by done.
  rewrite take_app_length' by (by rewrite mysort_length).
  done.
Qed.

End MysortPrefix.

(** X1. [mysort (a, n)] with [1 <= n <= length a] sorts the first [n]
    elements in ascending order, keeps them the same multiset, and leaves
    the elements from index [n] on and the length of the array as they
    were. *)
Theorem mysort_sorts_prefix (a : list Z) (n : nat) :
  (1 <= n <= length a)%nat ->
  StronglySorted Z.le (take n (mysort a n))
  /\ take n (mysort a n) ≡ₚ take n a
  /\ drop n (mysort a n) = drop n a
  /\ length (mysort a n) = length a.
Proof.
  intros Hn.
  destruct (mysort_take_sorted a n Hn) as [Hs Hp].
  split; [exact Hs|]. split; [exact Hp|]. split; [|apply mysort_length].
  rewrite mysort_split by done.
  apply drop_app_length'. rewrite mysort_length, length_take. lia.
Qed.

Lemma mysort_sorts_prefix_witness :
  (1 <= 3 <= length [30; 10; 20; 5])%nat
  /\ mysort [30; 10; 20; 5] 3 = [10; 20; 30; 5]
  /\ StronglySorted Z.le (take 3 (mysort [30; 10; 20; 5] 3)).
Proof.
  split; [simpl; lia|]. split; [reflexivity|].
  apply (mysort_sorts_prefix [30; 10; 20; 5] 3). simpl; lia.
Defined.

(** X2. An array whose first [n] elements are already in ascending order
    comes back from [mysort] unchanged; hence sorting a second time
    changes nothing. *)
Theorem mysort_idempotent (a : list Z) (n : nat) :
  (1 <= n <= length a)%nat ->
  (StronglySorted Z.le (take n a) -> mysort a n = a)
  /\ mysort (mysort a n) n = mysort a n.
Proof.
  intros Hn.
  assert (Hfix : forall b : list Z, (1 <= n <= length b)%nat ->
            StronglySorted Z.le (take n b) -> mysort b n = b).
  { intros b Hb Hs. rewrite <- (take_drop n b) at 1.
    rewrite mysort_app_l by (rewrite length_take; lia).
    unfold mysort. rewrite mysort_outer_sorted.
    - apply take_drop.
    - done.
    - rewrite length_take. lia. }
  split; [by apply Hfix|].
  apply Hfix.
  - by rewrite mysort_length.
  - by apply mysort_take_sorted.
Qed.

Lemma mysort_idempotent_witness :
  (1 <= 4 <= length [30; 10; 20; 5])%nat
  /\ mysort (mysort [30; 10; 20; 5] 4) 4 = mysort [30; 10; 20; 5] 4.
Proof.
  split; [simpl; lia|].
  apply (mysort_idempotent [30; 10; 20; 5] 4). simpl; lia.
Defined.

(** ** More on the quality control gate *)

(** The comparison of two numbers can be made at any common exponent
    below both. *)
Lemma num_compare_scale (a b : Z * Z) (E : Z) :
  E <= snd a -> E <= snd b ->
  num_compare a b = (fst a * 2 ^ (snd a - E) ?= fst b * 2 ^ (snd b - E)).
Proof.
  intros Ha Hb. unfold num_compare.
  set (e := Z.min (snd a) (snd b)).
  assert (He : E <= e) by (unfold e; lia).
  replace (snd a - E) with ((snd a - e) + (e - E)) by lia.
  replace (snd b - E) with ((snd b - e) + (e - E)) by lia.
  rewrite !Z.pow_add_r by (unfold e; lia).
  rewrite !Z.mul_assoc.
  assert (Hp : 0 < 2 ^ (e - E)) by (apply Z.pow_pos_nonneg; lia).
  generalize dependent (2 ^ (e - E)). intros p Hp.
  generalize (fst a * 2 ^ (snd a - e)) (fst b * 2 ^ (snd b - e)). intros x y.
  destruct (Z.compare_spec x y), (Z.compare_spec (x * p) (y * p)); try done; nia.
Qed.

Lemma num_compare_lt_le_trans (a b c : Z * Z) :
  num_compare a b = Lt -> num_compare b c <> Gt -> num_compare a c = Lt.
Proof.
  set (E := Z.min (snd a) (Z.min (snd b) (snd c))).
  rewrite (num_compare_scale a b E), (num_compare_scale b c E),
    (num_compare_scale a c E) by (unfold E; lia).
  rewrite !Z.compare_lt_iff, Z.compare_gt_iff. lia.
Qed.

(** A number that is not below the lower bound of the temperature
    envelope differs from the error value [QC_ERR_T], which lies below
    it. *)
Lemma above_min_ne_err (v : spec_float) :
  fle QC_MIN_T v = true -> fne v QC_ERR_T = true.
Proof.
  destruct v as [s|s| |s m e]; try (by destruct s); try done.
  unfold fle, fne. rewrite (fcompare_antisym QC_ERR_T (S754_finite s m e)).
  change (fcompare QC_MIN_T (S754_finite s m e))
    with (Some (num_compare (sf_num QC_MIN_T) (sf_num (S754_finite s m e)))).
  change (fcompare QC_ERR_T (S754_finite s m e))
    with (Some (num_compare (sf_num QC_ERR_T) (sf_num (S754_finite s m e)))).
  intros H.
  rewrite (num_compare_lt_le_trans (sf_num QC_ERR_T) (sf_num QC_MIN_T)); [done|done|].
  intros E. rewrite E in H. discriminate.
Qed.

(** The test [ds_reading != QC_ERR_T] of [getDSTempByAddr] compares the
    [float] just assigned with the [double] -999.9: it holds for every
    value the gate can return, the sentinel included, because the sentinel
    held in a [float] is not the [double] it was rounded from. *)
Lemma gate_ne_err (v : spec_float) :
  fne (gate Temperature v) QC_ERR_T = true.
Proof.
  rewrite gate_in_envelope. destruct (in_envelope Temperature v) eqn:E.
  - apply above_min_ne_err. unfold in_envelope in E.
    change (QC_MIN Temperature) with QC_MIN_T in E.
    by destruct (isnan v), (fle QC_MIN_T v).
  - vm_compute. reflexivity.
Qed.

Lemma in_envelope_not_nan (k : kind) (v : spec_float) :
  in_envelope k v = true -> isnan v = false.
Proof. unfold in_envelope. by destruct (isnan v). Qed.

(** X3. The gate is idempotent and never returns NaN: its result is a
    number, and gating it again gives it back. *)
Theorem gate_idempotent (k : kind) (v : spec_float) :
  gate k (gate k v) = gate k v /\ isnan (gate k v) = false.
Proof.
  rewrite !gate_in_envelope.
  destruct (in_envelope k v) eqn:E.
  - rewrite E. split; [done|]. by eapply in_envelope_not_nan.
  - rewrite sentinel_outside. split; [done|]. by destruct k.
Qed.

(** ** Dallas sensor: validity and retry *)

Lemma ds_result_crc (env : Env) (delayms : Z) :
  ds_result env delayms
  = if ds_crc_ok env delayms
    then (gate Temperature (ds_temperature env delayms), true)
    else (S754_zero false, false).
Proof.
  unfold ds_result. destruct (ds_crc_ok env delayms); [|done].
  cbn [negb].
  change (qc_gate QC_MIN_T QC_MAX_T QC_ERR_T) with (gate Temperature).
  by rewrite gate_ne_err.
Qed.

(** X4. [getDSTempByAddr] returns, and leaves in [ds_valid], the outcome
    of the CRC check alone: after a read whose CRC matches [ds_valid] is
    true and [ds_reading] is the gated temperature, also when the
    temperature was outside the envelope and [ds_reading] holds the
    sentinel; the branch that would clear [ds_valid] is never taken.
    After a CRC mismatch [ds_reading] is 0.0 and [ds_valid] false.  No
    other global changes. *)
Theorem getDSTempByAddr_valid_iff_crc (env : Env) (delayms : Z) (s : State) :
  let t := ds_temperature env delayms in
  getDSTempByAddr env delayms s
  = (ds_crc_ok env delayms,
     set_ds_valid (ds_crc_ok env delayms)
       (set_ds_reading
          (if ds_crc_ok env delayms then gate Temperature t else S754_zero false) s))
  /\ (ds_crc_ok env delayms = true -> in_envelope Temperature t = false ->
      ds_valid (exec (getDSTempByAddr env delayms) s) = true
      /\ ds_reading (exec (getDSTempByAddr env delayms) s) = sentinel Temperature).
Proof.
  intros t. unfold exec. rewrite getDSTempByAddr_run, ds_result_crc.
  split.
  - by destruct (ds_crc_ok env delayms).
  - intros -> Hout. cbn [fst snd]. split; [done|].
    unfold t in Hout. cbn [ds_reading set_ds_valid set_ds_reading].
    by rewrite gate_in_envelope, Hout.
Qed.

(** X5. [getDSTemp] reads the probe after 250 ms and, only when the CRC
    of that read does not match, once more after 750 ms.  The reading
    left behind is the gated temperature of the first read with a matching
    CRC, and 0.0 with [ds_valid] false when neither matches. *)
Theorem getDSTemp_retries_once (env : Env) (s : State) :
  let s' := exec (getDSTemp env) s in
  ds_last env = (if ds_crc_ok env 250 then 250 else 750)
  /\ ds_valid s' = ds_crc_ok env 250 || ds_crc_ok env 750
  /\ ds_reading s'
     = (if ds_crc_ok env 250 then gate Temperature (ds_temperature env 250)
        else if ds_crc_ok env 750 then gate Temperature (ds_temperature env 750)
        else S754_zero false)
  /\ s' = set_ds_valid (ds_valid s') (set_ds_reading (ds_reading s') s)
  /\ (ds_crc_ok env 250 = true -> s' = exec (getDSTempByAddr env 250) s).
Proof.
  intros s'. unfold s', exec.
  rewrite getDSTemp_run, getDSTempByAddr_run.
  unfold ds_final, ds_last. rewrite !ds_result_crc.
  destruct (ds_crc_ok env 250) eqn:E1; cbn [fst snd].
  - rewrite ?ds_result_crc, ?E1. repeat split.
  - rewrite ?ds_result_crc. destruct (ds_crc_ok env 750) eqn:E2; cbn [fst snd];
      repeat split; discriminate.
Qed.

(** ** Dallas sensor: the sign of the reading *)

Lemma binary_round_aux_sign (prec emax : Z) (s : bool) (m e : Z) (l : location) :
  has_sign s (binary_round_aux prec emax s m e l).
Proof.
  unfold binary_round_aux.
  destruct (shr_fexp prec emax m e l) as [mrs' e'].
  destruct (shr_fexp prec emax _ e' loc_Exact) as [mrs'' e''].
  destruct (shr_m mrs''); simpl; try done.
  by destruct (_ <=? _).
Qed.

Lemma binary_round_sign (prec emax : Z) (s : bool) (m : positive) (e : Z) :
  has_sign s (binary_round prec emax s m e).
Proof.
  unfold binary_round. destruct (shl_align _ _ _) as [mz ez].
  apply binary_round_aux_sign.
Qed.

Lemma f64_of_Z_sign (n : Z) : 0 <= n -> has_sign false (f64_of_Z n).
Proof.
  intros Hn. unfold f64_of_Z, binary_normalize.
  destruct n; [done | apply binary_round_sign | lia].
Qed.

Lemma f64_div_sign (x y : spec_float) :
  has_sign false x -> has_sign false y -> has_sign false (f64_div x y).
Proof.
  unfold f64_div, SFdiv.
  destruct x as [sx|sx| |sx mx ex], y as [sy|sy| |sy my ey]; simpl;
    try done; try (by intros -> ->).
  intros -> ->.
  destruct (SFdiv_core_binary _ _ _ _ _ _) as [[mz ez] lz].
  apply binary_round_aux_sign.
Qed.

Lemma f64_to_f32_sign (s : bool) (x : spec_float) :
  has_sign s x -> has_sign s (f64_to_f32 x).
Proof.
  destruct x as [sx|sx| |sx mx ex]; simpl; try done.
  intros ->. apply binary_round_sign.
Qed.

Lemma has_sign_not_below_zero (x : spec_float) :
  has_sign false x -> flt x (S754_zero false) = false.
Proof.
  destruct x as [sx|sx| |sx mx ex]; simpl; try done; intros ->; try done.
  unfold flt, fcompare, sf_num, num_compare, cond_Zopp. cbn [fst snd].
  assert (0 < 2 ^ (ex - Z.min ex 0)) by (apply Z.pow_pos_nonneg; lia).
  destruct (Z.compare_spec (Z.pos mx * 2 ^ (ex - Z.min ex 0))
              (0 * 2 ^ (0 - Z.min ex 0))) as [H1|H1|H1]; try done.
  nia.
Qed.

Lemma ds_temperature_sign (env : Env) (delayms : Z) :
  has_sign false (ds_temperature env delayms).
Proof.
  unfold ds_temperature. apply f64_to_f32_sign, f64_div_sign; [|done].
  apply f64_of_Z_sign.
  repeat match goal with
  | |- context [if ?b then _ else _] => destruct b
  end; unfold to_uint; apply Z.mod_pos_bound; lia.
Qed.

(** X6. The temperature decoded from the scratchpad is never below zero:
    the two data bytes are assembled into an [unsigned int], so a probe
    below freezing, whose reading has the sign bits set, decodes to a
    large positive number.  What [getDSTempByAddr] leaves in [ds_reading]
    after a matching CRC is therefore a number from 0 to 60 or the
    sentinel. *)
Theorem ds_reading_never_negative (env : Env) (delayms : Z) (s : State) :
  let t := ds_temperature env delayms in
  let r := ds_reading (exec (getDSTempByAddr env delayms) s) in
  flt t (S754_zero false) = false
  /\ (ds_crc_ok env delayms = true ->
      r = sentinel Temperature
      \/ (r = t /\ fle (S754_zero false) r = true /\ fle r QC_MAX_T = true)).
Proof.
  intros t r.
  assert (Hs : flt t (S754_zero false) = false)
    by apply has_sign_not_below_zero, ds_temperature_sign.
  split; [exact Hs|].
  intros Hcrc. unfold r, exec.
  rewrite getDSTempByAddr_run, ds_result_crc, Hcrc.
  cbn [fst snd ds_reading set_ds_valid set_ds_reading].
  rewrite gate_in_envelope. fold t.
  destruct (in_envelope Temperature t) eqn:E; [right | by left].
  split; [done|].
  unfold in_envelope in E.
  destruct (isnan t) eqn:Hn; [done|].
  destruct (fle (QC_MIN Temperature) t); [|done].
  split; [|exact E].
  rewrite flt_not_fle in Hs by done.
  by destruct (fle (S754_zero false) t).
Qed.

(** ** Configuration file: numbers *)

Lemma to_int_small (x : Z) : - 2 ^ 31 <= x < 2 ^ 31 -> to_int x = x.
Proof.
  intros H. unfold to_int, to_uint.
  destruct (Z.ltb_spec (x mod 2 ^ 32) (2 ^ 31)) as [L|L].
  - destruct (Z_lt_le_dec x 0) as [N|N].
    + exfalso. replace x with ((x + 2 ^ 32) - 1 * 2 ^ 32) in L by lia.
      rewrite Zminus_mod, Z_mod_mult, Z.sub_0_r, Z.mod_mod in L by lia.
      rewrite Z.mod_small in L by lia. lia.
    + apply Z.mod_small. lia.
  - destruct (Z_lt_le_dec x 0) as [N|N].
    + replace x with ((x + 2 ^ 32) - 1 * 2 ^ 32) at 1 by lia.
      rewrite Zminus_mod, Z_mod_mult, Z.sub_0_r, Z.mod_mod by lia.
      rewrite Z.mod_small by lia. lia.
    + rewrite Z.mod_small in L by lia. lia.
Qed.

Lemma uint_value_mono (d : Decimal.uint) : forall acc : Z,
  0 <= acc -> acc <= uint_value d acc.
Proof.
  induction d; intros acc Hacc; simpl; [lia|..];
    (etransitivity; [|apply IHd; lia]); lia.
Qed.

Lemma of_uint_acc_value (d : Decimal.uint) : forall acc : positive,
  Z.pos (Pos.of_uint_acc d acc) = uint_value d (Z.pos acc).
Proof.
  induction d; intros acc; simpl; [done|..]; rewrite IHd; f_equal; lia.
Qed.

Lemma of_uint_value (d : Decimal.uint) : Z.of_N (Pos.of_uint d) = uint_value d 0.
Proof.
  induction d; simpl; [done | exact IHd |..]; apply of_uint_acc_value.
Qed.

Lemma uint_value_to_uint (n : Z) : 0 <= n -> uint_value (N.to_uint (Z.to_N n)) 0 = n.
Proof.
  intros Hn. rewrite <- of_uint_value.
  change (Pos.of_uint ?d) with (N.of_uint d).
  rewrite DecimalN.Unsigned.of_to. lia.
Qed.

(** The loop of [HELPER_ascii2Int] on a decimal numeral. *)
Lemma ascii2Int_loop_numeral (d : Decimal.uint) : forall (i : nat) (sign acc : Z),
  0 <= acc -> uint_value d acc < 2 ^ 31 ->
  ascii2Int_loop (bytes_of_string (NilEmpty.string_of_uint d)) i sign acc
  = (sign, uint_value d acc).
Proof.
  induction d; intros i sign acc Hacc Hv; [done|..].
  all: cbn -[to_int Z.mul Z.add Z.pow] in *.
  all: rewrite andb_false_r.
  all: match goal with
       | |- context [Z.of_nat (nat_of_ascii ?c)] =>
           let v := eval vm_compute in (Z.of_nat (nat_of_ascii c)) in
           change (Z.of_nat (nat_of_ascii c)) with v
       end.
  all: match goal with
       | |- context [is_digit ?c] => change (is_digit c) with true
       end.
  all: cbv iota.
  all: match type of Hv with
       | uint_value ?u ?x < _ =>
           assert (Hm : x <= uint_value u x) by (apply uint_value_mono; lia)
       end.
  all: rewrite to_int_small by lia.
  all: rewrite (IHd (S i) sign); [f_equal; f_equal; lia | lia |].
  all: match goal with
       | H : uint_value ?u ?x < _ |- uint_value ?u ?y < _ =>
           replace y with x by lia; exact H
       end.
Qed.

Lemma digits_numeral (n : Z) :
  digits n = NilEmpty.string_of_uint (N.to_uint (Z.to_N n)).
Proof.
  unfold digits, NilZero.string_of_uint.
  destruct (N.to_uint (Z.to_N n)) eqn:E; try done.
  destruct (Z.to_N n); [discriminate|].
  by apply DecimalPos.Unsigned.to_uint_nonnil in E.
Qed.

Lemma ascii2Int_loop_digits (n : Z) (i : nat) (sign : Z) :
  0 <= n < 2 ^ 31 ->
  ascii2Int_loop (bytes_of_string (digits n)) i sign 0 = (sign, n).
Proof.
  intros Hn. rewrite digits_numeral, ascii2Int_loop_numeral;
    rewrite ?uint_value_to_uint; (done || lia).
Qed.

(** [HELPER_ascii2Int] reads back what [%d] prints. *)
Lemma ascii2Int_fmt_d (n : Z) :
  - 2 ^ 31 < n < 2 ^ 31 ->
  HELPER_ascii2Int (bytes_of_string (fmt_d n)) (length (bytes_of_string (fmt_d n))) = n.
Proof.
  intros Hn. unfold HELPER_ascii2Int. rewrite firstn_all.
  unfold fmt_d. destruct (Z.ltb_spec n 0) as [N|N].
  - change (bytes_of_string ("-" +:+ digits (- n)))
      with (45 :: bytes_of_string (digits (- n))).
    cbn [ascii2Int_loop]. change ((0 =? 0)%nat && (45 =? 45)) with true. cbv iota.
    rewrite ascii2Int_loop_digits by lia.
    rewrite to_int_small by lia. lia.
  - rewrite ascii2Int_loop_digits by lia.
    rewrite to_int_small by lia. lia.
Qed.

(** X7. [HELPER_ascii2Int] is the inverse of printing with [%d]: applied
    to the characters [sprintf ("%d", n)] produces, it returns [n], for
    every [int] [n] above the smallest. *)
Theorem HELPER_ascii2Int_reads_printed_int (n : Z) :
  - 2 ^ 31 < n < 2 ^ 31 ->
  let text := bytes_of_string (fmt_d n) in
  HELPER_ascii2Int text (length text) = n.
Proof. intros Hn text. by apply ascii2Int_fmt_d. Qed.

Lemma HELPER_ascii2Int_reads_printed_int_witness :
  bytes_of_string (fmt_d (-1024)) = [45; 49; 48; 50; 52]
  /\ HELPER_ascii2Int [45; 49; 48; 50; 52] 5 = -1024.
Proof.
  split; [reflexivity|].
  apply (HELPER_ascii2Int_reads_printed_int (-1024)). lia.
Defined.

(** The loop past the first character. *)
Lemma ascii2Int_loop_filter (cs : list Z) : forall (i : nat) (sign number : Z),
  (0 < i)%nat ->
  ascii2Int_loop cs i sign number
  = (sign, fold_left (fun n c => to_int (n * 10 + (c - 48)))
             (List.filter is_digit cs) number).
Proof.
  induction cs as [|c cs IH]; intros i sign number Hi; [done|].
  cbn [ascii2Int_loop List.filter].
  destruct i as [|i]; [lia|]. cbn [Nat.eqb andb].
  destruct (is_digit c); cbn [fold_left]; apply IH; lia.
Qed.

(** X8. [HELPER_ascii2Int] skips what it does not understand: the result
    is the number written by the digits among the characters read, in
    order, whatever stands between them, negated when the first character
    is a minus sign; a minus sign elsewhere is skipped like any other
    character.  With no digit at all, and with length 0, the result is
    0. *)
Theorem HELPER_ascii2Int_skips_non_digits (ascii : list Z) :
  HELPER_ascii2Int ascii (length ascii) = to_int (digits_value ascii * sign_of ascii)
  /\ (List.filter is_digit ascii = [] -> HELPER_ascii2Int ascii (length ascii) = 0)
  /\ HELPER_ascii2Int ascii 0 = 0.
Proof.
  assert (E : HELPER_ascii2Int ascii (length ascii)
              = to_int (digits_value ascii * sign_of ascii)).
  { unfold HELPER_ascii2Int, digits_value, sign_of. rewrite firstn_all.
    destruct ascii as [|c cs]; [done|].
    cbn [ascii2Int_loop Nat.eqb andb List.filter].
    destruct (Z.eqb_spec c 45) as [->|Hc].
    - change (is_digit 45) with false. cbv iota.
      by rewrite ascii2Int_loop_filter by lia.
    - destruct (is_digit c); cbn [fold_left];
        by rewrite ascii2Int_loop_filter by lia. }
  split; [exact E|]. split; [|done].
  intros Hnone. rewrite E. unfold digits_value. rewrite Hnone. simpl.
  by destruct (sign_of ascii).
Qed.

(** ** Configuration file: lines *)

Lemma aget_lookup (a : list Z) (k : nat) (x : Z) : a !! k = Some x -> aget a k = x.
Proof. intros H. unfold aget. by rewrite H. Qed.

(** A chunk that does not begin with [key=] is passed over. *)
Lemma line_value_none (key : list Z) (before : Z) (chunk : list Z) :
  ~ starts_with_key key chunk -> line_value key before chunk = None.
Proof.
  intros Hno. unfold line_value.
  set (n := Z.of_nat (length chunk)).
  set (bl := if _ =? 13 then n - 1 else n).
  destruct (Z.gtb_spec bl (Z.of_nat (length key) + 1)) as [Hlen|]; [|done].
  case_bool_decide as Hk; [|done].
  destruct (Z.eqb_spec (aget chunk (length key)) 61) as [He|]; [|done].
  exfalso. apply Hno. unfold starts_with_key.
  assert (Hn : (length key < length chunk)%nat).
  { assert (bl <= n) by (unfold bl; destruct (_ =? 13); lia). lia. }
  destruct (lookup_lt_is_Some_2 chunk (length key) Hn) as [x Hx].
  rewrite (aget_lookup _ _ _ Hx) in He. subst x.
  replace (length key + 1)%nat with (S (length key)) by lia.
  by rewrite (take_S_r _ _ _ Hx), Hk.
Qed.

Lemma last_not_cr_app (v : list Z) (c : Z) : last (v ++ [c]) = Some c.
Proof. apply last_snoc. Qed.

(** A chunk [key=value], with or without a carriage return at its end,
    yields [value] when [value] is not empty. *)
Lemma line_value_found (key : list Z) (before : Z) (v cr : list Z) :
  v <> [] -> last v <> Some 13 -> cr = [] \/ cr = [13] ->
  line_value key before (key ++ 61 :: v ++ cr) = Some v.
Proof.
  intros Hv Hlast Hcr. unfold line_value.
  set (chunk := key ++ 61 :: v ++ cr).
  assert (Hlen : length chunk = (length key + 1 + length v + length cr)%nat).
  { unfold chunk. rewrite length_app. simpl. rewrite length_app. lia. }
  assert (Hvl : (0 < length v)%nat) by (destruct v; [done | simpl; lia]).
  assert (Hlastv : exists x, last v = Some x /\ x <> 13).
  { destruct (last v) as [x|] eqn:E.
    - exists x. split; [done|]. congruence.
    - apply last_None in E. done. }
  destruct Hlastv as (x & Hx & Hx13).
  assert (Hkey : take (length key) chunk = key).
  { unfold chunk. by rewrite take_app_length. }
  assert (Heq : aget chunk (length key) = 61).
  { unfold chunk. apply aget_lookup. by rewrite list_lookup_middle. }
  assert (Hdrop : drop (length key + 1) chunk = v ++ cr).
  { unfold chunk. rewrite Nat.add_1_r.
    change (key ++ 61 :: v ++ cr) with (key ++ [61] ++ (v ++ cr)).
    rewrite app_assoc. rewrite drop_app_length'; [done|].
    rewrite length_app. simpl. lia. }
  assert (Hend : aget chunk (Z.to_nat (Z.of_nat (length chunk) - 1))
                 = if bool_decide (cr = []) then x else 13).
  { apply aget_lookup. rewrite Hlen.
    destruct Hcr as [-> | ->]; simpl.
    - unfold chunk. rewrite app_nil_r.
      replace (Z.to_nat _) with (length key + S (pred (length v)))%nat by lia.
      rewrite lookup_app_r by lia.
      replace (length key + S (pred (length v)) - length key)%nat
        with (S (pred (length v))) by lia.
      simpl. by rewrite <- last_lookup.
    - unfold chunk.
      replace (Z.to_nat _) with (length (key ++ 61%Z :: v) + 0)%nat
        by (rewrite length_app; simpl; lia).
      change (key ++ 61 :: v ++ [13]) with (key ++ (61 :: v) ++ [13]).
      rewrite app_assoc. by rewrite lookup_app_r, Nat.add_sub' by lia. }
  rewrite Hend, Hkey, Heq, Hdrop.
  destruct (Z.eqb_spec (Z.of_nat (length chunk)) 0) as [H0|_]; [lia|].
  rewrite (bool_decide_eq_true_2 (key = key)) by done.
  change (61 =? 61) with true. cbv iota.
  destruct Hcr as [-> | ->].
  - rewrite bool_decide_eq_true_2 by done.
    destruct (Z.eqb_spec x 13) as [?|_]; [done|].
    destruct (Z.gtb_spec (Z.of_nat (length chunk)) (Z.of_nat (length key) + 1));
      [|simpl in Hlen; lia].
    rewrite app_nil_r. f_equal. apply take_ge. simpl in Hlen. lia.
  - rewrite bool_decide_eq_false_2 by done. change (13 =? 13) with true. cbv iota.
    destruct (Z.gtb_spec (Z.of_nat (length chunk) - 1) (Z.of_nat (length key) + 1));
      [|simpl in Hlen; lia].
    f_equal. simpl in Hlen.
    replace (Z.to_nat _) with (length v) by lia.
    by rewrite take_app_length.
Qed.

(** [key=] with nothing after it does not count. *)
Lemma line_value_empty (key : list Z) (before : Z) (cr : list Z) :
  cr = [] \/ cr = [13] -> line_value key before (key ++ 61 :: cr) = None.
Proof.
  intros Hcr. unfold line_value.
  set (chunk := key ++ 61 :: cr).
  assert (Hlen : length chunk = (length key + 1 + length cr)%nat).
  { unfold chunk. rewrite length_app. simpl. lia. }
  set (n := Z.of_nat (length chunk)).
  set (lst := if n =? 0 then _ else _).
  assert (Hbl : (if lst =? 13 then n - 1 else n) <= Z.of_nat (length key) + 1).
  { destruct Hcr as [-> | ->]; simpl in Hlen.
    - destruct (lst =? 13); lia.
    - assert (lst = 13) as ->.
      { unfold lst. destruct (Z.eqb_spec n 0); [lia|].
        apply aget_lookup. unfold chunk.
        replace (Z.to_nat (n - 1)) with (length key + 1)%nat by lia.
        rewrite lookup_app_r by lia.
        by replace (length key + 1 - length key)%nat with 1%nat by lia. }
      simpl. lia. }
  destruct (Z.gtb_spec (if lst =? 13 then n - 1 else n) (Z.of_nat (length key) + 1));
    [lia | done].
Qed.

Lemma SD_findKey_loop_skip (key : list Z) (before : Z) (pre rest : list (list Z)) :
  Forall (fun c => line_value key before c = None) pre ->
  SD_findKey_loop key before (pre ++ rest) = SD_findKey_loop key before rest.
Proof.
  induction 1 as [|c pre Hc _ IH]; [done|].
  simpl. by rewrite Hc.
Qed.

Lemma SD_findKey_loop_found (key : list Z) (before : Z) (pre post : list (list Z))
    (v cr : list Z) :
  Forall (fun c => ~ starts_with_key key c) pre ->
  v <> [] -> last v <> Some 13 -> cr = [] \/ cr = [13] ->
  SD_findKey_loop key before (pre ++ (key ++ 61 :: v ++ cr) :: post)
  = (Z.of_nat (length v), v).
Proof.
  intros Hpre Hv Hlast Hcr.
  rewrite SD_findKey_loop_skip.
  - simpl. by rewrite line_value_found.
  - eapply Forall_impl; [exact Hpre|]. intros c. apply line_value_none.
Qed.

Lemma SD_findKey_loop_missing (key : list Z) (before : Z) (chunks : list (list Z)) :
  Forall (fun c => ~ starts_with_key key c
                   \/ c = key ++ [61] \/ c = key ++ [61; 13]) chunks ->
  SD_findKey_loop key before chunks = (0, []).
Proof.
  intros H. rewrite <- (app_nil_r chunks), SD_findKey_loop_skip; [done|].
  eapply Forall_impl; [exact H|]. intros c [Hc | [-> | ->]].
  - by apply line_value_none.
  - apply line_value_empty. by left.
  - apply line_value_empty. by right.
Qed.

(** X9. [SD_findKey] returns the value of the first line that begins with
    [key=] and has a value: the lines before it that do not begin with
    [key=] are passed over, whatever else they hold, a carriage return at
    the end of the line is dropped, and later lines, further lines with
    the same key among them, are not read, as long as the key, the value
    and the lines read fit the buffers.  Nothing the result depends on
    lies in front of the buffer. *)
Theorem SD_findKey_first_match (key : string) (before : Z)
    (pre post : list (list Z)) (value cr : list Z) (s : State) :
  (String.length key <= KEY_MAX_LENGTH)%nat ->
  (length value <= VALUE_MAX_LENGTH)%nat ->
  Forall fits_SD_buffer pre ->
  fits_SD_buffer (bytes_of_string key ++ 61 :: value ++ cr) ->
  Forall (fun c => ~ starts_with_key (bytes_of_string key) c) pre ->
  value <> [] -> last value <> Some 13 -> cr = [] \/ cr = [13] ->
  let line := bytes_of_string key ++ 61 :: value ++ cr in
  SD_findKey (Some (pre ++ line :: post)) before key s
  = ((Z.of_nat (length value), value), s)
  /\ SD_available (Some (pre ++ line :: post)) before key s = (true, s).
Proof.
  intros _ _ _ _ Hpre Hv Hlast Hcr line.
  unfold SD_available, SD_findKey, bind, ret.
  unfold line. rewrite SD_findKey_loop_found by done.
  split; [done|]. cbn [fst]. f_equal.
  apply Z.gtb_lt. destruct value; [done | simpl; lia].
Qed.

Lemma SD_findKey_first_match_witness :
  let file := Some [bytes_of_string "# gauge"; bytes_of_string "ds_type2=7";
                    bytes_of_string "ds_type=1" ++ [13]; bytes_of_string "ds_type=0"] in
  SD_findKey file 0 "ds_type" scenario_state = ((1, [49]), scenario_state)
  /\ SD_available file 0 "ds_type" scenario_state = (true, scenario_state).
Proof.
  apply (SD_findKey_first_match "ds_type" 0
           [bytes_of_string "# gauge"; bytes_of_string "ds_type2=7"]
           [bytes_of_string "ds_type=0"] [49] [13] scenario_state).
  - vm_compute. lia.
  - vm_compute. lia.
  - repeat constructor; vm_compute; lia.
  - vm_compute. lia.
  - repeat constructor; vm_compute; discriminate.
  - discriminate.
  - vm_compute. discriminate.
  - by right.
Defined.

(** X10. [SD_findKey] returns length 0 and copies nothing when the file
    does not open, when it is empty and when no line begins with [key=]
    followed by at least one character: a line [key=] with an empty value
    counts as missing.  [SD_available] is then false and [SD_findInt]
    returns 0.  The only effect is the message on the serial port when
    the file does not open. *)
Theorem SD_findKey_missing (key : string) (before : Z)
    (file : option (list (list Z))) (s : State) :
  (String.length key <= KEY_MAX_LENGTH)%nat ->
  (forall chunks, file = Some chunks -> Forall fits_SD_buffer chunks) ->
  (forall chunks, file = Some chunks ->
     Forall (fun c => ~ starts_with_key (bytes_of_string key) c
                      \/ c = bytes_of_string key ++ [61]
                      \/ c = bytes_of_string key ++ [61; 13]) chunks) ->
  let s' := match file with
            | Some _ => s
            | None => add_events
                        [Serial_println "SD Card: error on opening file CONFIG.TXT"] s
            end in
  SD_findKey file before key s = ((0, []), s')
  /\ SD_available file before key s = (false, s')
  /\ SD_findInt file before key s = (0, s').
Proof.
  intros _ _ H s'. unfold SD_available, SD_findInt, SD_findKey, bind, ret.
  destruct file as [chunks|].
  - rewrite SD_findKey_loop_missing by (by apply H). done.
  - done.
Qed.

Lemma SD_findKey_missing_witness :
  let file := Some [bytes_of_string "ds_type="; [];
                    bytes_of_string " ds_type=1"; bytes_of_string "ds_type=" ++ [13]] in
  SD_findKey file 13 "ds_type" scenario_state = ((0, []), scenario_state)
  /\ SD_available file 13 "ds_type" scenario_state = (false, scenario_state)
  /\ SD_findInt file 13 "ds_type" scenario_state = (0, scenario_state).
Proof.
  apply (SD_findKey_missing "ds_type" 13
           (Some [bytes_of_string "ds_type="; [];
                  bytes_of_string " ds_type=1"; bytes_of_string "ds_type=" ++ [13]])
           scenario_state).
  { vm_compute. lia. }
  { intros chunks [= <-]. repeat constructor; vm_compute; lia. }
  intros chunks [= <-].
  constructor; [right; by left|].
  constructor; [left; vm_compute; discriminate|].
  constructor; [left; vm_compute; discriminate|].
  constructor; [right; by right|].
  constructor.
Defined.

(** ** Configuration file: the sensor type *)

Lemma numeral_digits (d : Decimal.uint) :
  Forall (fun c => is_digit c = true) (bytes_of_string (NilEmpty.string_of_uint d)).
Proof. induction d; simpl; constructor; done. Qed.

Lemma numeral_nonempty (d : Decimal.uint) :
  d <> Decimal.Nil -> bytes_of_string (NilEmpty.string_of_uint d) <> [].
Proof. by destruct d. Qed.

Lemma fmt_d_bytes (n : Z) :
  bytes_of_string (fmt_d n) <> [] /\ last (bytes_of_string (fmt_d n)) <> Some 13.
Proof.
  assert (H : forall m, bytes_of_string (digits m) <> []
                        /\ last (bytes_of_string (digits m)) <> Some 13).
  { intros m. rewrite digits_numeral. split.
    - apply numeral_nonempty. destruct (Z.to_N m); [done|].
      apply DecimalPos.Unsigned.to_uint_nonnil.
    - intros Hl. apply last_Some_elem_of in Hl.
      pose proof (numeral_digits (N.to_uint (Z.to_N m))) as Hd.
      rewrite Forall_forall in Hd. by apply Hd in Hl. }
  unfold fmt_d. destruct (n <? 0); [|apply H].
  change (bytes_of_string ("-" +:+ digits (- n)))
    with (45 :: bytes_of_string (digits (- n))).
  destruct (H (- n)) as [Hne Hl]. split; [done|].
  destruct (bytes_of_string (digits (- n))) as [|c l]; [done|].
  exact Hl.
Qed.

Lemma SD_ReadConfigFile_run (file : option (list (list Z))) (before v : Z)
    (s s1 : State) :
  SD_findInt file before "ds_type" s = (v, s1) ->
  SD_ReadConfigFile file before s
  = (tt, add_events (out_events s1 ("CF:ds_type=[" +:+ fmt_d v +:+ "]"))
           (set_msgbuf ("CF:ds_type=[" +:+ fmt_d v +:+ "]") (set_cf_ds_type v s1))).
Proof.
  intros H. unfold SD_ReadConfigFile.
  rewrite (bind_run _ _ _ _ _ H).
  st_cbn. rewrite Output_run.
  unfold out_events, serial_events, set_cf_ds_type. st_cbn. reflexivity.
Qed.

(** X11. A line [ds_type=n] in CONFIG.TXT, [n] written in decimal, sets
    [cf_ds_type] to [n] when no earlier line begins with [ds_type=] and the
    earlier lines fit the buffer; the line may end with a carriage return.  [SD_ReadConfigFile] reports the
    value read as [CF:ds_type=[n]] and changes nothing else. *)
Theorem SD_ReadConfigFile_reads_ds_type (pre post : list (list Z)) (cr : list Z)
    (before n : Z) (s : State) :
  - 2 ^ 31 < n < 2 ^ 31 ->
  Forall fits_SD_buffer pre ->
  Forall (fun c => ~ starts_with_key (bytes_of_string "ds_type") c) pre ->
  cr = [] \/ cr = [13] ->
  let line := bytes_of_string ("ds_type=" +:+ fmt_d n) ++ cr in
  let report := ("CF:ds_type=[" +:+ fmt_d n +:+ "]")%string in
  let s' := exec (SD_ReadConfigFile (Some (pre ++ line :: post)) before) s in
  cf_ds_type s' = n
  /\ s' = add_events (out_events s report) (set_msgbuf report (set_cf_ds_type n s)).
Proof.
  intros Hn _ Hpre Hcr line report s'.
  assert (Hint : SD_findInt (Some (pre ++ line :: post)) before "ds_type" s = (n, s)).
  { unfold SD_findInt, SD_findKey, bind, ret.
    unfold line.
    change (bytes_of_string ("ds_type=" +:+ fmt_d n))
      with (bytes_of_string "ds_type" ++ 61 :: bytes_of_string (fmt_d n)).
    rewrite <- app_assoc. cbn [app].
    destruct (fmt_d_bytes n) as [Hne Hl].
    rewrite SD_findKey_loop_found by done.
    cbn [fst snd]. rewrite Nat2Z.id. by rewrite ascii2Int_fmt_d. }
  unfold s', exec. rewrite (SD_ReadConfigFile_run _ _ _ _ _ Hint).
  done.
Qed.

Lemma SD_ReadConfigFile_reads_ds_type_witness :
  let file := Some [bytes_of_string "# 10 m sensor" ++ [13];
                    bytes_of_string "ds_type=1" ++ [13]] in
  let s' := exec (SD_ReadConfigFile file 0) scenario_state in
  cf_ds_type s' = 1
  /\ s' = add_events (out_events scenario_state "CF:ds_type=[1]")
            (set_msgbuf "CF:ds_type=[1]" (set_cf_ds_type 1 scenario_state)).
Proof.
  apply (SD_ReadConfigFile_reads_ds_type
           [bytes_of_string "# 10 m sensor" ++ [13]] [] [13] 0 1 scenario_state).
  - lia.
  - repeat constructor; vm_compute; lia.
  - constructor; [vm_compute; discriminate | constructor].
  - by right.
Defined.

(** X12. When CONFIG.TXT cannot be opened, or holds no line [ds_type=]
    with a value, [SD_ReadConfigFile] sets [cf_ds_type] to 0, whatever it
    was, and the next [s_gauge_median] multiplies the median by 10 (the
    scale of the sensor type 0). *)
Theorem SD_ReadConfigFile_default (file : option (list (list Z))) (before : Z)
    (env : Env) (s : State) :
  (forall chunks, file = Some chunks -> Forall fits_SD_buffer chunks) ->
  (forall chunks, file = Some chunks ->
     Forall (fun c => ~ starts_with_key (bytes_of_string "ds_type") c
                      \/ c = bytes_of_string "ds_type" ++ [61]
                      \/ c = bytes_of_string "ds_type" ++ [61; 13]) chunks) ->
  let s' := exec (SD_ReadConfigFile file before) s in
  cf_ds_type s' = 0
  /\ msgbuf s' = "CF:ds_type=[0]"%string
  /\ sg_buckets s' = sg_buckets s
  /\ eval (V240719.s_gauge_median env) s' = to_uint (picked_median env s * 10).
Proof.
  intros _ H s'.
  assert (Hint : exists s1, SD_findInt file before "ds_type" s = (0, s1)
                            /\ sg_buckets s1 = sg_buckets s).
  { unfold SD_findInt, SD_findKey, bind, ret.
    destruct file as [chunks|].
    - rewrite SD_findKey_loop_missing by (by apply H). by exists s.
    - eexists. split; [reflexivity|]. done. }
  destruct Hint as (s1 & Hint & Hb).
  unfold s', exec, eval. rewrite (SD_ReadConfigFile_run _ _ _ _ _ Hint).
  cbn [snd]. split; [done|]. split; [done|]. split; [exact Hb|].
  rewrite s_gauge_median_240719_run. cbn [fst].
  unfold scaled_median, picked_median. cbn [cf_ds_type sg_buckets add_events set_trace
    set_msgbuf set_cf_ds_type]. by rewrite Hb.
Qed.

Lemma SD_ReadConfigFile_default_witness :
  let file := Some [bytes_of_string "# no sensor type"; bytes_of_string "ds_type="] in
  let s' := exec (SD_ReadConfigFile file 0) (set_cf_ds_type 1 scenario_state) in
  cf_ds_type (set_cf_ds_type 1 scenario_state) = 1
  /\ cf_ds_type s' = 0
  /\ eval (V240719.s_gauge_median scenario_env) s' = 5120.
Proof.
  split; [reflexivity|].
  destruct (SD_ReadConfigFile_default
              (Some [bytes_of_string "# no sensor type"; bytes_of_string "ds_type="])
              0 scenario_env (set_cf_ds_type 1 scenario_state)) as (H1 & _ & _ & H4).
  - intros chunks [= <-]. repeat constructor; vm_compute; lia.
  - intros chunks [= <-].
    constructor; [left; vm_compute; discriminate|].
    constructor; [right; by left|].
    constructor.
  - split; [exact H1|]. rewrite H4. vm_compute. reflexivity.
Defined.

(** ** Initialization *)

Ltac st_run2 :=
  repeat (st_cbn;
          cbv beta iota delta [set_SD_exists set_RTC_valid set_cf_ds_type
                               set_DisplayEnabled set_SerialConsoleEnabled];
          rewrite ?Output_run, ?Serial_write_run).

Lemma SD_initialize_run (sd_begin obsdir_exists mkdir_ok : bool) (s : State) :
  SD_initialize sd_begin obsdir_exists mkdir_ok s
  = (tt,
     set_SD_exists (sd_begin || SD_exists s)
       (set_SystemStatusBits
          (if sd_begin && (obsdir_exists || mkdir_ok) then SystemStatusBits s
           else Z.lor (SystemStatusBits s) SSB_SD)
          (add_events
             (if negb sd_begin then out_events s "SD:NF"
              else if obsdir_exists
                   then out_events s "SD:Online" ++ out_events s "SD:OBS DIR Exists"
                   else if mkdir_ok
                        then out_events s "SD:MKDIR OBS OK" ++ out_events s "SD:Online"
                        else out_events s "SD:MKDIR OBS ERR" ++ out_events s "SD:Offline")
             s))).
Proof.
  unfold SD_initialize. destruct s.
  destruct sd_begin, obsdir_exists, mkdir_ok; st_run2;
    unfold out_events, serial_events; st_run2;
    rewrite <- ?app_assoc; reflexivity.
Qed.

(** X13. After [SD_initialize], [SD_exists] is true exactly when
    [SD.begin] succeeded (or it was true before), also when the
    observation directory could neither be found nor created: in that
    case the card is announced as offline and SSB_SD is set, yet a later
    [SD_LogObservation] still opens the day's file.  SSB_SD is set when
    [SD.begin] fails or the directory is missing and cannot be made,
    and is never cleared here. *)
Theorem SD_initialize_flags (env : Env) (sd_begin obsdir_exists mkdir_ok : bool)
    (obs : string) (s : State) :
  let s' := exec (SD_initialize sd_begin obsdir_exists mkdir_ok) s in
  SD_exists s' = sd_begin || SD_exists s
  /\ SystemStatusBits s'
     = (if sd_begin && (obsdir_exists || mkdir_ok) then SystemStatusBits s
        else Z.lor (SystemStatusBits s) SSB_SD)
  /\ (sd_begin = true -> obsdir_exists = false -> mkdir_ok = false ->
      SD_exists s' = true
      /\ Z.testbit (SystemStatusBits s') 1 = true
      /\ trace s' = trace s ++ out_events s "SD:MKDIR OBS ERR" ++ out_events s "SD:Offline"
      /\ (RTC_valid s = true ->
          sd_opens (trace (exec (SD_LogObservation env obs) s'))
          = sd_opens (trace s) ++ [logfile_name (now s)])).
Proof.
  intros s'. unfold s', exec. rewrite SD_initialize_run. cbn [snd].
  split; [reflexivity|]. split; [reflexivity|].
  intros -> -> ->. cbn [orb andb negb].
  split; [reflexivity|].
  split.
  { cbn [SystemStatusBits set_SD_exists set_SystemStatusBits].
    rewrite Z.lor_spec. apply orb_true_r. }
  split; [reflexivity|].
  intros Hrtc. rewrite SD_LogObservation_run by (by destruct s).
  destruct s. st_cbn_in Hrtc. subst.
  unfold log_events, set_SD_exists, add_events. st_cbn.
  rewrite !sd_opens_app.
  rewrite !(sd_opens_output _ (out_events_output _ _)).
  cbn [sd_opens app].
  destruct (SD_open_ok env _); cbn [sd_opens];
    rewrite ?(sd_opens_output _ (out_events_output _ _)); by rewrite ?app_nil_r.
Qed.

Lemma mcp9808_initialize_run (env : Env) (s : State) :
  let ok := begin_ok env mcp1 MCP_ADDRESS_1 in
  mcp9808_initialize env s
  = (tt,
     set_MCP_1_exists ok
       (set_SystemStatusBits
          (if ok then SystemStatusBits s else Z.lor (SystemStatusBits s) SSB_MCP_1)
          (add_events
             (out_events s "MCP9808:INIT" ++ [Driver_begin mcp1 MCP_ADDRESS_1]
              ++ out_events s (if ok then "MCP1 OK" else "MCP1 NF"))
             s))).
Proof.
  intros ok. unfold mcp9808_initialize. destruct s. st_run2.
  fold ok. destruct ok; st_run2; unfold out_events, serial_events; st_run2;
    rewrite <- ?app_assoc; reflexivity.
Qed.

(** X14. [mcp9808_initialize] begins the MCP9808 driver once, at address
    0x18; [MCP_1_exists] becomes the outcome of that handshake and
    SSB_MCP_1 is set when it fails and left alone otherwise.  The next
    observation carries an MCP temperature, gated, exactly when the
    handshake succeeded. *)
Theorem mcp9808_initialize_flags (env : Env) (sg : Z) (s : State) :
  let ok := begin_ok env mcp1 MCP_ADDRESS_1 in
  let s' := exec (mcp9808_initialize env) s in
  MCP_1_exists s' = ok
  /\ SystemStatusBits s'
     = (if ok then SystemStatusBits s else Z.lor (SystemStatusBits s) SSB_MCP_1)
  /\ (exists evs, trace s' = trace s ++ evs /\ begun evs = [mcp1]
                  /\ begins_at MCP_ADDRESS_1 evs = [mcp1])
  /\ obs_mt1 (observation env sg s')
     = (if ok then Some (gate Temperature (readTempC env mcp1)) else None).
Proof.
  intros ok s'. unfold s', exec. rewrite mcp9808_initialize_run. fold ok. cbn [snd].
  split; [reflexivity|]. split; [reflexivity|].
  split.
  { eexists. split; [reflexivity|].
    rewrite !begun_app, !begins_at_app.
    rewrite !(begun_output _ (out_events_output _ _)).
    rewrite !(begins_at_output _ _ (out_events_output _ _)).
    done. }
  reflexivity.
Qed.

Lemma rtc_timestamp_run (env : Env) (s : State) :
  rtc_timestamp env s
  = (tt, set_timestamp (iso8601 (rtc_now env)) (set_now (rtc_now env) s)).
Proof. reflexivity. Qed.

Lemma rtc_initialize_run (env : Env) (rtc_begin : bool) (now2 : DateTime) (s : State) :
  let found := rtc_begin && on_bus env RTC_I2C_ADDRESS in
  let in_range := (year (rtc_now env) >=? 2022) && (year (rtc_now env) <=? 2031) in
  exists (evs : list event),
    rtc_initialize env rtc_begin now2 s
    = (tt,
       if found then
         set_RTC_valid (in_range || RTC_valid s)
           (set_now (if in_range then now2 else rtc_now env)
              (set_timestamp (iso8601 (rtc_now env))
                 (set_msgbuf (iso8601 (rtc_now env) +:+ "*") (add_events evs s))))
       else
         set_SystemStatusBits (Z.lor (SystemStatusBits s) SSB_RTC) (add_events evs s))
    /\ forallb is_output evs = true.
Proof.
  intros found in_range. unfold rtc_initialize, I2C_Device_Exist.
  subst found in_range. unfold on_bus. destruct s.
  destruct rtc_begin; st_run2.
  - destruct (_ mod 256 =? 0); st_run2.
    + unfold rtc_timestamp. st_run2.
      destruct ((year (rtc_now env) >=? 2022) && (year (rtc_now env) <=? 2031));
        st_run2; rewrite <- ?app_assoc; eexists; (split; [reflexivity|]);
        rewrite ?forallb_app, ?out_events_output; reflexivity.
    + eexists. split; [reflexivity|]. apply out_events_output.
  - eexists. split; [reflexivity|]. apply out_events_output.
Qed.

Lemma OBS_Do_no_clock (s_gauge_median : Env -> M Z) (env : Env) (log_obs : bool)
    (s : State) :
  RTC_valid s = false ->
  OBS_Do s_gauge_median env log_obs s = (tt, add_events (out_events s "OBS_Do: Time NV") s).
Proof.
  intros Hrtc. unfold OBS_Do, bind, gets. rewrite Hrtc. cbn [negb]. apply Output_run.
Qed.

(** X15. [rtc_initialize] marks the clock valid only when [rtc.begin]
    succeeds, the clock answers at address 0x68 and the year it reports
    is 2022 to 2031.  SSB_RTC is set when the clock is not found; a
    clock that is found but reports a year outside that range sets no
    status bit and leaves [RTC_valid] as it was, so that the following
    [OBS_Do] with [RTC_valid] false produces no record. *)
Theorem rtc_initialize_validates_year (env : Env) (rtc_begin : bool)
    (now2 : DateTime) (s : State) :
  let found := rtc_begin && on_bus env RTC_I2C_ADDRESS in
  let in_range := (2022 <=? year (rtc_now env)) && (year (rtc_now env) <=? 2031) in
  let s' := exec (rtc_initialize env rtc_begin now2) s in
  RTC_valid s' = found && in_range || RTC_valid s
  /\ SystemStatusBits s'
     = (if found then SystemStatusBits s else Z.lor (SystemStatusBits s) SSB_RTC)
  /\ (found = true -> in_range = true -> now s' = now2)
  /\ (found = true -> in_range = false -> RTC_valid s = false ->
      RTC_valid s' = false
      /\ SystemStatusBits s' = SystemStatusBits s
      /\ forall log_obs : bool,
           OBS_Do V240719.s_gauge_median env log_obs s'
           = (tt, add_events (out_events s' "OBS_Do: Time NV") s')).
Proof.
  intros found in_range s'. unfold s', exec.
  destruct (rtc_initialize_run env rtc_begin now2 s) as (evs & R & O).
  rewrite R. cbn [snd]. fold found.
  assert (E : (year (rtc_now env) >=? 2022) && (year (rtc_now env) <=? 2031) = in_range).
  { unfold in_range. by rewrite Z.geb_leb. }
  rewrite E. clear R.
  destruct found; cbn [andb orb].
  - split; [reflexivity|]. split; [reflexivity|].
    split; [by intros _ ->|].
    intros _ -> Hv. cbn [orb]. split; [done|]. split; [done|].
    intros log_obs. apply OBS_Do_no_clock. exact Hv.
  - split; [reflexivity|]. split; [reflexivity|]. split; discriminate.
Qed.

Lemma rtc_initialize_validates_year_witness :
  let env := scenario_env in
  let s := scenario_state_no_clock in
  let s' := exec (rtc_initialize env true (rtc_now env)) s in
  RTC_valid s' = true /\ SystemStatusBits s' = SystemStatusBits s /\ now s' = rtc_now env.
Proof.
  destruct (rtc_initialize_validates_year scenario_env true (rtc_now scenario_env)
              scenario_state_no_clock) as (H1 & H2 & H3 & _).
  split; [exact H1|]. split; [exact H2|].
  apply H3; reflexivity.
Defined.

Lemma Scan1WireBus_run (env : Env) (search : option (list Z)) (s : State) :
  exists (buf : string) (evs : list event),
    Scan1WireBus env search s
    = (ds_accepts env search,
       set_msgbuf buf
         (set_ds_found (ds_accepts env search || ds_found s) (add_events evs s)))
    /\ forallb is_output evs = true.
Proof.
  unfold Scan1WireBus, ds_accepts. destruct s.
  destruct search as [ds_addr|]; st_run2.
  - destruct (_ mod 256 =? aget ds_addr 7); st_run2.
    + destruct (aget ds_addr 0 =? 40); st_run2;
        eexists _, _; (split; [reflexivity | apply out_events_output]).
    + eexists _, _; (split; [reflexivity | apply out_events_output]).
  - eexists _, _; (split; [reflexivity | apply out_events_output]).
Qed.

Lemma dallas_sensor_init_run (env : Env) (search1 search2 : option (list Z))
    (s : State) :
  let found := ds_accepts env search1 || ds_accepts env search2 in
  let line := ("DS " +:+ fmt_d_02d (fst (ds_final env))
               +:+ (if snd (ds_final env) then " OK" else " BAD"))%string in
  exists (buf : string) (evs : list event),
    dallas_sensor_init env search1 search2 s
    = (tt,
       if found then
         set_msgbuf line
           (set_ds_valid (snd (ds_final env))
              (set_ds_reading (fst (ds_final env))
                 (set_ds_found true (add_events evs s))))
       else
         set_msgbuf buf
           (set_SystemStatusBits (Z.lor (SystemStatusBits s) SSB_DS_1)
              (set_ds_found false (add_events evs s))))
    /\ forallb is_output evs = true.
Proof.
  intros found line. unfold dallas_sensor_init, found.
  subst line. destruct (ds_final env) as [r v] eqn:F. cbn [fst snd].
  destruct (Scan1WireBus_run env search1 s) as (b1 & e1 & R1 & O1).
  rewrite (bind_run _ _ _ _ _ R1).
  destruct (ds_accepts env search1) eqn:A1; cbn [orb].
  - destruct s. st_run2. rewrite getDSTemp_run, F. st_run2.
    destruct v; st_run2; rewrite <- ?app_assoc;
      exists ""%string; eexists; (split; [reflexivity|]);
      by rewrite forallb_app, O1, out_events_output.
  - destruct s. st_run2.
    match goal with
    | |- context [Scan1WireBus env search2 ?st] =>
        destruct (Scan1WireBus_run env search2 st) as (b2 & e2 & R2 & O2)
    end.
    rewrite R2. st_run2. st_cbn_in O2.
    destruct (ds_accepts env search2) eqn:A2; st_run2.
    + rewrite getDSTemp_run, F. st_run2.
      destruct v; st_run2; rewrite <- ?app_assoc;
        exists ""%string; eexists; (split; [reflexivity|]);
        by rewrite !forallb_app, O1, O2, out_events_output.
    + rewrite <- ?app_assoc. eexists _, _. split; [reflexivity|].
      by rewrite !forallb_app, O1, O2.
Qed.

(** X16. [dallas_sensor_init] searches the one-wire bus and, only when
    the first search yields no acceptable probe (an address whose CRC
    matches and whose family code is 0x28), searches once more.
    [ds_found] is true when one of the two searches succeeded and SSB_DS_1
    is set when both failed.  When a probe is found it is read with
    [getDSTemp], and the line reporting the reading ends in OK exactly
    when the CRC of one of the two scratchpad reads matched, whatever the
    temperature. *)
Theorem dallas_sensor_init_flags (env : Env) (search1 search2 : option (list Z))
    (s : State) :
  let found := ds_accepts env search1 || ds_accepts env search2 in
  let s' := exec (dallas_sensor_init env search1 search2) s in
  ds_found s' = found
  /\ SystemStatusBits s'
     = (if found then SystemStatusBits s else Z.lor (SystemStatusBits s) SSB_DS_1)
  /\ (found = true ->
      ds_reading s' = ds_reading (exec (getDSTemp env) s)
      /\ ds_valid s' = ds_crc_ok env 250 || ds_crc_ok env 750
      /\ msgbuf s'
         = ("DS " +:+ fmt_d_02d (ds_reading s')
            +:+ (if ds_crc_ok env 250 || ds_crc_ok env 750 then " OK" else " BAD"))%string)
  /\ (found = false -> ds_reading s' = ds_reading s /\ ds_valid s' = ds_valid s)
  /\ (ds_accepts env search1 = true ->
      s' = exec (dallas_sensor_init env search1 None) s).
Proof.
  intros found s'.
  assert (Hv : snd (ds_final env) = ds_crc_ok env 250 || ds_crc_ok env 750).
  { unfold ds_final, ds_last. rewrite (ds_result_crc env 250).
    destruct (ds_crc_ok env 250) eqn:E1; cbn [snd]; rewrite ds_result_crc.
    - by rewrite E1.
    - by destruct (ds_crc_ok env 750). }
  split; [|split; [|split; [|split]]].
  - unfold s', exec.
    destruct (dallas_sensor_init_run env search1 search2 s) as (b & e & R & _).
    rewrite R. cbn [snd]. fold found. by destruct found.
  - unfold s', exec.
    destruct (dallas_sensor_init_run env search1 search2 s) as (b & e & R & _).
    rewrite R. cbn [snd]. fold found. by destruct found.
  - intros Hf. unfold s', exec.
    destruct (dallas_sensor_init_run env search1 search2 s) as (b & e & R & _).
    rewrite R, getDSTemp_run. cbn [snd]. fold found. rewrite Hf.
    cbn [ds_reading ds_valid msgbuf set_msgbuf set_ds_valid set_ds_reading].
    by rewrite <- Hv.
  - intros Hf. unfold s', exec.
    destruct (dallas_sensor_init_run env search1 search2 s) as (b & e & R & _).
    rewrite R. cbn [snd]. fold found. rewrite Hf. by destruct s.
  - intros H1. unfold s', exec, dallas_sensor_init.
    destruct (Scan1WireBus_run env search1 s) as (b1 & e1 & R1 & O1).
    rewrite !(bind_run _ _ _ _ _ R1). rewrite H1. destruct s. st_run2. reflexivity.
Qed.

(** ** Presence monitoring in closed form *)

Lemma add_events_nil (s : State) : add_events [] s = s.
Proof. destruct s. unfold add_events. st_cbn. by rewrite app_nil_r. Qed.

Lemma check_BMX_1_closed (env : Env) (s : State) :
  check_BMX_1 env s
  = (tt, checked env (on_bus env BMX_ADDRESS_1) (BMX_1_exists s) set_BMX_1_exists
           SSB_BMX_1 BMX_ADDRESS_1 (recovery_driver bmp1 bm31 (BMX_1_chip_id s))
           (recovery_name "BMP1" "BM31" (BMX_1_chip_id s)) "BMX1 OFFLINE" s).
Proof.
  unfold check_BMX_1, I2C_Device_Exist, checked, on_bus, recovery_driver, recovery_name.
  destruct s. st_run.
  destruct (_ mod 256 =? 0); st_run.
  - destruct BMX_1_exists0; st_run; [reflexivity|].
    destruct (BMX_1_chip_id0 =? BME280_BMP390_CHIP_ID); st_run;
      match goal with
      | |- context [begin_ok ?e ?d ?a] => destruct (begin_ok e d a)
      end; st_run; unfold out_events, serial_events; st_cbn;
      rewrite <- ?app_assoc; reflexivity.
  - destruct BMX_1_exists0; st_run; [|reflexivity].
    unfold out_events, serial_events; st_cbn; rewrite <- ?app_assoc; reflexivity.
Qed.

Lemma check_BMX_2_closed (env : Env) (s : State) :
  check_BMX_2 env s
  = (tt, checked env (on_bus env BMX_ADDRESS_2) (BMX_2_exists s) set_BMX_2_exists
           SSB_BMX_2 BMX_ADDRESS_2 (recovery_driver bmp2 bm32 (BMX_2_chip_id s))
           (recovery_name "BMP2" "BM32" (BMX_2_chip_id s)) "BMX2 OFFLINE" s).
Proof.
  unfold check_BMX_2, I2C_Device_Exist, checked, on_bus, recovery_driver, recovery_name.
  destruct s. st_run.
  destruct (_ mod 256 =? 0); st_run.
  - destruct BMX_2_exists0; st_run; [reflexivity|].
    destruct (BMX_2_chip_id0 =? BME280_BMP390_CHIP_ID); st_run;
      match goal with
      | |- context [begin_ok ?e ?d ?a] => destruct (begin_ok e d a)
      end; st_run; unfold out_events, serial_events; st_cbn;
      rewrite <- ?app_assoc; reflexivity.
  - destruct BMX_2_exists0; st_run; [|reflexivity].
    unfold out_events, serial_events; st_cbn; rewrite <- ?app_assoc; reflexivity.
Qed.

Lemma I2C_Check_Sensors_closed (env : Env) (s : State) :
  let s1 := checked env (on_bus env BMX_ADDRESS_1) (BMX_1_exists s) set_BMX_1_exists
              SSB_BMX_1 BMX_ADDRESS_1 (recovery_driver bmp1 bm31 (BMX_1_chip_id s))
              (recovery_name "BMP1" "BM31" (BMX_1_chip_id s)) "BMX1 OFFLINE" s in
  I2C_Check_Sensors env s
  = (tt, checked env (on_bus env BMX_ADDRESS_2) (BMX_2_exists s1) set_BMX_2_exists
           SSB_BMX_2 BMX_ADDRESS_2 (recovery_driver bmp2 bm32 (BMX_2_chip_id s1))
           (recovery_name "BMP2" "BM32" (BMX_2_chip_id s1)) "BMX2 OFFLINE" s1).
Proof.
  intros s1. unfold I2C_Check_Sensors.
  rewrite (bind_run _ _ _ _ _ (check_BMX_1_closed env s)).
  apply check_BMX_2_closed.
Qed.










(** ** Identification: what is begun and what is read *)

Lemma chip_id_of_cases (env : Env) (address : Z) :
  chip_id_of env address = 0
  \/ chip_id_of env address = BMP388_CHIP_ID
  \/ chip_id_of env address = BMP280_CHIP_ID
  \/ chip_id_of env address = BME280_BMP390_CHIP_ID.
Proof.
  assert (H : forall reg id, probe_result env address reg = Some id ->
            id = BMP388_CHIP_ID \/ id = BMP280_CHIP_ID \/ id = BME280_BMP390_CHIP_ID).
  { intros reg id. unfold probe_result.
    destruct (negb _); [done|].
    destruct (Wire_read env address reg) as [b|]; [|done].
    destruct (Z.eqb_spec (b mod 256) BMP280_CHIP_ID) as [E|_]; cbn [orb].
    { intros [= <-]. auto. }
    destruct (Z.eqb_spec (b mod 256) BMP388_CHIP_ID) as [E|_]; cbn [orb].
    { intros [= <-]. auto. }
    destruct (Z.eqb_spec (b mod 256) BME280_BMP390_CHIP_ID) as [E|_]; [|done].
    intros [= <-]. auto. }
  unfold chip_id_of.
  destruct (probe_result env address 0) as [id|] eqn:E0; [right; by eapply H|].
  destruct (probe_result env address 208) as [id|] eqn:ED; [right; by eapply H|].
  by left.
Qed.

(** X19. [get_Bosch_ChipID] returns 0, 0x50, 0x58 or 0x60 and nothing
    else, whatever the device sends.  The byte of register 0x00 decides
    when it is one of the three identities, and register 0xD0 is then not
    consulted; 0 is returned when neither register yields one, in
    particular when the device does not acknowledge.  The call writes
    lines to the display and the console and changes [msgbuf], nothing
    else: no driver is begun. *)
Theorem get_Bosch_ChipID_result (env : Env) (address : Z) (s : State) :
  let id := eval (get_Bosch_ChipID env address) s in
  let s' := exec (get_Bosch_ChipID env address) s in
  (id = 0 \/ id = 0x50 \/ id = 0x58 \/ id = 0x60)
  /\ (forall id0, probe_result env address 0x00 = Some id0 -> id = id0)
  /\ (probe_result env address 0x00 = None ->
      forall idD, probe_result env address 0xD0 = Some idD -> id = idD)
  /\ ((forall reg, Wire_endTransmission env address (Some reg) mod 256 <> 0) -> id = 0)
  /\ exists (buf : string) (evs : list event),
       s' = set_msgbuf buf (add_events evs s)
       /\ forallb is_output evs = true /\ begun evs = [].
Proof.
  intros id s'. unfold id, s', eval, exec.
  destruct (get_Bosch_ChipID_run env address s) as (buf & evs & R & O).
  rewrite R. cbn [fst snd].
  split; [apply chip_id_of_cases|].
  split; [intros id0 H0; unfold chip_id_of; by rewrite H0|].
  split; [intros H0 idD HD; unfold chip_id_of; by rewrite H0, HD|].
  split.
  { intros Hnak. unfold chip_id_of, probe_result.
    destruct (Z.eqb_spec (Wire_endTransmission env address (Some 0) mod 256) 0) as [E|_];
      [by apply Hnak in E|].
    destruct (Z.eqb_spec (Wire_endTransmission env address (Some 208) mod 256) 0) as [E|_];
      [by apply Hnak in E|].
    reflexivity. }
  exists buf, evs. split; [reflexivity|]. split; [exact O|]. by apply begun_output.
Qed.

Ltac forall_members :=
  repeat match goal with
         | |- Forall _ (_ :: _) => constructor; [auto|]
         | |- Forall _ [] => constructor
         end.

Lemma bmx_1_switch_begun (env : Env) (id : Z) (s : State) :
  exists (msg : string) (evs : list event) (ex : bool) (ty bits : Z),
    bmx_1_switch env id s
    = (msg, set_BMX_1_type ty (set_BMX_1_exists ex
              (set_SystemStatusBits bits (add_events evs s))))
    /\ Forall (fun d => d = bmp1 \/ d = bme1 \/ d = bm31) (begun evs)
    /\ (id = 0 -> evs = [] /\ ex = BMX_1_exists s /\ ty = BMX_1_type s
                  /\ bits = SystemStatusBits s /\ msg = "BMX_1 NF"%string).
Proof.
  unfold bmx_1_switch. destruct s.
  destruct (Z.eqb_spec id BMP280_CHIP_ID) as [H58|H58];
    [|destruct (Z.eqb_spec id BME280_BMP390_CHIP_ID) as [H60|H60];
      [|destruct (Z.eqb_spec id BMP388_CHIP_ID) as [H50|H50]]]; st_run.
  - destruct (begin_ok env bmp1 BMX_ADDRESS_1); st_run;
      eexists _, _, _, _, _; (split; [reflexivity|]);
      (split; [cbn [begun]; forall_members | intros E0; rewrite E0 in *; discriminate]).
  - destruct (begin_ok env bme1 BMX_ADDRESS_1); st_run;
      [|destruct (begin_ok env bm31 BMX_ADDRESS_1); st_run];
      rewrite <- ?app_assoc;
      eexists _, _, _, _, _; (split; [reflexivity|]);
      (split; [cbn [begun app]; forall_members | intros E0; rewrite E0 in *; discriminate]).
  - destruct (begin_ok env bm31 BMX_ADDRESS_1); st_run;
      eexists _, _, _, _, _; (split; [reflexivity|]);
      (split; [cbn [begun]; forall_members | intros E0; rewrite E0 in *; discriminate]).
  - exists "BMX_1 NF"%string, [], BMX_1_exists0, BMX_1_type0, SystemStatusBits0.
    split; [st_cbn; by rewrite app_nil_r|]. split; [constructor | done].
Qed.

Lemma bmx_2_switch_begun (env : Env) (id : Z) (s : State) :
  exists (msg : string) (evs : list event) (ex : bool) (ty bits : Z),
    bmx_2_switch env id s
    = (msg, set_BMX_2_type ty (set_BMX_2_exists ex
              (set_SystemStatusBits bits (add_events evs s))))
    /\ Forall (fun d => d = bmp1 \/ d = bme2 \/ d = bm31) (begun evs)
    /\ (id = 0 -> evs = [] /\ ex = BMX_2_exists s /\ ty = BMX_2_type s
                  /\ bits = SystemStatusBits s /\ msg = "BMX_2 NF"%string)
    /\ (id = BMP280_CHIP_ID -> begin_ok env bmp1 BMX_ADDRESS_2 = true ->
        ex = true /\ ty = BMX_TYPE_BMP280)
    /\ (id = BMP388_CHIP_ID -> begin_ok env bm31 BMX_ADDRESS_2 = true ->
        ex = true /\ ty = BMX_TYPE_BMP388)
    /\ (id = BME280_BMP390_CHIP_ID -> begin_ok env bme2 BMX_ADDRESS_2 = false ->
        begin_ok env bm31 BMX_ADDRESS_2 = true ->
        ex = true /\ ty = BMX_TYPE_BMP390).
Proof.
  unfold bmx_2_switch. destruct s.
  destruct (Z.eqb_spec id BMP280_CHIP_ID) as [H58|H58];
    [|destruct (Z.eqb_spec id BME280_BMP390_CHIP_ID) as [H60|H60];
      [|destruct (Z.eqb_spec id BMP388_CHIP_ID) as [H50|H50]]]; st_run.
  - destruct (begin_ok env bmp1 BMX_ADDRESS_2) eqn:Hb; st_run;
      eexists _, _, _, _, _; (split; [reflexivity|]);
      (split; [cbn [begun]; forall_members|]);
      repeat split; intros; subst; try done.
  - destruct (begin_ok env bme2 BMX_ADDRESS_2) eqn:Hb; st_run;
      [|destruct (begin_ok env bm31 BMX_ADDRESS_2) eqn:Hb3; st_run];
      rewrite <- ?app_assoc;
      eexists _, _, _, _, _; (split; [reflexivity|]);
      (split; [cbn [begun app]; forall_members|]);
      repeat split; intros; subst; try done.
  - destruct (begin_ok env bm31 BMX_ADDRESS_2) eqn:Hb; st_run;
      eexists _, _, _, _, _; (split; [reflexivity|]);
      (split; [cbn [begun]; forall_members|]);
      repeat split; intros; subst; try done.
  - exists "BMX_2 NF"%string, [], BMX_2_exists0, BMX_2_type0, SystemStatusBits0.
    split; [st_cbn; by rewrite app_nil_r|]. split; [constructor|].
    repeat split; intros; subst; done.
Qed.

(** [bmx_initialize] as two identifications in a row. *)
Lemma bmx_initialize_begun (env : Env) (s : State) :
  exists (buf : string) (evs : list event) (ex1 ex2 : bool) (ty1 ty2 bits : Z),
    bmx_initialize env s
    = (tt, set_BMX_2_type ty2 (set_BMX_2_exists ex2
             (set_BMX_2_chip_id (chip_id_of env BMX_ADDRESS_2)
                (set_BMX_1_type ty1 (set_BMX_1_exists ex1
                   (set_BMX_1_chip_id (chip_id_of env BMX_ADDRESS_1)
                      (set_SystemStatusBits bits
                         (set_msgbuf buf (add_events evs s)))))))))
    /\ Forall (fun d => d = bmp1 \/ d = bme1 \/ d = bme2 \/ d = bm31) (begun evs)
    /\ (chip_id_of env BMX_ADDRESS_1 = 0 -> chip_id_of env BMX_ADDRESS_2 = 0 ->
        begun evs = [] /\ ex1 = BMX_1_exists s /\ ex2 = BMX_2_exists s
        /\ ty1 = BMX_1_type s /\ ty2 = BMX_2_type s /\ bits = SystemStatusBits s)
    /\ (chip_id_of env BMX_ADDRESS_2 = BMP280_CHIP_ID ->
        begin_ok env bmp1 BMX_ADDRESS_2 = true -> ex2 = true /\ ty2 = BMX_TYPE_BMP280)
    /\ (chip_id_of env BMX_ADDRESS_2 = BMP388_CHIP_ID ->
        begin_ok env bm31 BMX_ADDRESS_2 = true -> ex2 = true /\ ty2 = BMX_TYPE_BMP388)
    /\ (chip_id_of env BMX_ADDRESS_2 = BME280_BMP390_CHIP_ID ->
        begin_ok env bme2 BMX_ADDRESS_2 = false ->
        begin_ok env bm31 BMX_ADDRESS_2 = true -> ex2 = true /\ ty2 = BMX_TYPE_BMP390).
Proof.
  unfold bmx_initialize. destruct s. st_run.
  match goal with
  | |- context [get_Bosch_ChipID ?e ?a ?st] =>
      destruct (get_Bosch_ChipID_run e a st) as (b1 & e1 & E1 & O1)
  end.
  rewrite E1. st_run.
  match goal with
  | |- context [bmx_1_switch ?e ?i ?st] =>
      destruct (bmx_1_switch_begun e i st)
        as (m1 & v1 & ex1 & ty1 & bits1 & R1 & F1 & Z1)
  end.
  rewrite R1. st_run.
  match goal with
  | |- context [get_Bosch_ChipID ?e ?a ?st] =>
      destruct (get_Bosch_ChipID_run e a st) as (b2 & e2 & E2 & O2)
  end.
  rewrite E2. st_run.
  match goal with
  | |- context [bmx_2_switch ?e ?i ?st] =>
      destruct (bmx_2_switch_begun e i st)
        as (m2 & v2 & ex2 & ty2 & bits2 & R2 & F2 & Z2 & A58 & A50 & A60)
  end.
  rewrite R2. st_run. st_cbn_in Z1. st_cbn_in Z2.
  eexists _, _, ex1, ex2, ty1, ty2, bits2.
  split; [rewrite <- ?app_assoc; reflexivity|].
  split.
  { rewrite !begun_app.
    rewrite !(begun_output _ (out_events_output _ _)).
    rewrite (begun_output _ O1), (begun_output _ O2). cbn [app].
    rewrite app_nil_r. apply Forall_app. split.
    - eapply Forall_impl; [exact F1|]. simpl. tauto.
    - eapply Forall_impl; [exact F2|]. simpl. tauto. }
  split.
  { intros H1 H2. destruct (Z1 H1) as (-> & -> & -> & -> & _).
    destruct (Z2 H2) as (-> & -> & -> & -> & _).
    rewrite !begun_app.
    rewrite !(begun_output _ (out_events_output _ _)).
    rewrite (begun_output _ O1), (begun_output _ O2). done. }
  auto.
Qed.

(** X20. A Bosch sensor that is not there raises no fault: when neither
    address yields an identity byte, [bmx_initialize] begins no driver
    and leaves the exists flags, the types and SystemStatusBits as they
    were (SSB_BMX_1 and SSB_BMX_2 are set only for a sensor that was
    identified and whose driver did not begin); it records the identity
    bytes as 0. *)
Theorem bmx_initialize_absent_no_fault (env : Env) (s : State) :
  chip_id_of env BMX_ADDRESS_1 = 0 -> chip_id_of env BMX_ADDRESS_2 = 0 ->
  let s' := exec (bmx_initialize env) s in
  SystemStatusBits s' = SystemStatusBits s
  /\ BMX_1_exists s' = BMX_1_exists s /\ BMX_2_exists s' = BMX_2_exists s
  /\ BMX_1_type s' = BMX_1_type s /\ BMX_2_type s' = BMX_2_type s
  /\ BMX_1_chip_id s' = 0 /\ BMX_2_chip_id s' = 0
  /\ exists evs, trace s' = trace s ++ evs /\ begun evs = [].
Proof.
  intros H1 H2 s'. unfold s', exec.
  destruct (bmx_initialize_begun env s)
    as (buf & evs & ex1 & ex2 & ty1 & ty2 & bits & R & _ & Z & _).
  rewrite R. cbn [snd]. rewrite H1, H2.
  destruct (Z H1 H2) as (B & -> & -> & -> & -> & ->).
  destruct s. st_cbn. repeat split. by exists evs.
Qed.

Lemma bmx_initialize_absent_no_fault_witness :
  let env :=
    {| analogRead_SGAUGE := analogRead_SGAUGE scenario_env;
       analogRead_VBAT := analogRead_VBAT scenario_env;
       readPressure := readPressure scenario_env;
       readTemperature := readTemperature scenario_env;
       readHumidity := readHumidity scenario_env;
       readTempC := readTempC scenario_env;
       ds_scratchpad := ds_scratchpad scenario_env;
       crc8 := crc8 scenario_env;
       rtc_now := rtc_now scenario_env;
       rtc_now_sleep := rtc_now_sleep scenario_env;
       SD_open_ok := SD_open_ok scenario_env;
       Wire_endTransmission := fun _ _ => 2;
       Wire_read := Wire_read scenario_env;
       begin_ok := begin_ok scenario_env |} in
  let s' := exec (bmx_initialize env) scenario_state_no_sd in
  SystemStatusBits s' = 3 /\ BMX_1_chip_id s' = 0 /\ BMX_2_exists s' = false.
Proof.
  intros env.
  destruct (bmx_initialize_absent_no_fault env scenario_state_no_sd)
    as (H1 & _ & H3 & _ & _ & H6 & _); [reflexivity | reflexivity |].
  split; [exact H1|]. split; [exact H6 | exact H3].
Defined.

(** X21. [bmx_initialize] never begins the driver objects [bmp2] and
    [bm32], yet these are the objects [OBS_Do] reads for the second slot:
    a BMP280 at the second address is begun through [bmp1] and read
    through [bmp2], a BMP388 or BMP390 there is begun through [bm31] and
    read through [bm32]. *)
Theorem bmx_initialize_second_slot_objects (env : Env) (sg : Z) (s : State) :
  let s' := exec (bmx_initialize env) s in
  let hPa (d : driver) := f32_div (readPressure env d) (f32_of_Z 100) in
  let reading (d : driver) :=
    Some (gate Pressure (hPa d), gate Temperature (readTemperature env d),
          gate Humidity f_zero) in
  (exists evs, trace s' = trace s ++ evs
               /\ Forall (fun d => d <> bmp2 /\ d <> bm32) (begun evs))
  /\ (chip_id_of env BMX_ADDRESS_2 = BMP280_CHIP_ID ->
      begin_ok env bmp1 BMX_ADDRESS_2 = true ->
      BMX_2_exists s' = true /\ obs_bmx2 (observation env sg s') = reading bmp2)
  /\ (chip_id_of env BMX_ADDRESS_2 = BMP388_CHIP_ID ->
      begin_ok env bm31 BMX_ADDRESS_2 = true ->
      BMX_2_exists s' = true /\ obs_bmx2 (observation env sg s') = reading bm32)
  /\ (chip_id_of env BMX_ADDRESS_2 = BME280_BMP390_CHIP_ID ->
      begin_ok env bme2 BMX_ADDRESS_2 = false ->
      begin_ok env bm31 BMX_ADDRESS_2 = true ->
      BMX_2_exists s' = true /\ obs_bmx2 (observation env sg s') = reading bm32).
Proof.
  intros s' hPa reading. unfold s', exec.
  destruct (bmx_initialize_begun env s)
    as (buf & evs & ex1 & ex2 & ty1 & ty2 & bits & R & F & _ & A58 & A50 & A60).
  rewrite R. cbn [snd].
  split.
  { exists evs. split; [by destruct s|].
    eapply Forall_impl; [exact F|]. simpl.
    intros d [-> | [-> | [-> | ->]]]; done. }
  unfold observation. cbn [obs_bmx2].
  destruct s. st_cbn.
  split; [|split].
  - intros Hid Hb. destruct (A58 Hid Hb) as [-> ->]. split; [reflexivity|].
    rewrite Hid. reflexivity.
  - intros Hid Hb. destruct (A50 Hid Hb) as [-> ->]. split; [reflexivity|].
    rewrite Hid. reflexivity.
  - intros Hid Hb Hb3. destruct (A60 Hid Hb Hb3) as [-> ->]. split; [reflexivity|].
    rewrite Hid. reflexivity.
Qed.

(** ** One observation, one pass of the loop *)

Lemma OBS_Do_closed (env : Env) (log_obs : bool) (s : State) :
  RTC_valid s = true ->
  OBS_Do V240719.s_gauge_median env log_obs s = (tt, observed env log_obs s).
Proof.
  intros Hrtc. unfold observed.
  destruct s. st_cbn_in Hrtc. subst.
  unfold OBS_Do, rtc_timestamp, qc_bosch.
  obs_unfold.
  destruct BMX_1_exists0, BMX_2_exists0, MCP_1_exists0, ds_found0, log_obs;
    repeat first
      [ progress obs_run
      | match goal with
        | |- context [read_bosch ?e ?a ?b ?c ?i ?t] =>
            destruct (read_bosch e a b c i t) as [[? ?] ?]
        end ];
    obs_unfold; unfold add_events; st_cbn;
    rewrite ?app_nil_r, <- ?app_assoc; cbn [app]; reflexivity.
Qed.

Lemma log_bits_other (env : Env) (s : State) (dt : DateTime) (n : Z) :
  0 <= n < 32 -> n <> 1 ->
  Z.testbit (log_bits env s dt) n = Z.testbit (SystemStatusBits s) n.
Proof.
  intros Hn H1. unfold log_bits.
  destruct (SD_exists s); [|done].
  destruct (SD_open_ok env _).
  - rewrite testbit_clear by lia.
    change SSB_SD with (2 ^ 1). rewrite Z.pow2_bits_eqb by lia.
    destruct (Z.eqb_spec 1 n); [lia|]. apply andb_true_r.
  - rewrite Z.lor_spec. change SSB_SD with (2 ^ 1). rewrite Z.pow2_bits_eqb by lia.
    destruct (Z.eqb_spec 1 n); [lia|]. apply orb_false_r.
Qed.

(** X22. [OBS_Do] with a valid clock changes [msgbuf], the trace, [now],
    [timestamp], the sample array and the Dallas reading, and of
    SystemStatusBits at most SSB_SD (bit 1), and that only when it logs.
    The exists flags, the identity bytes and types, [ds_found],
    [JustPoweredOn], the configuration and the display and console
    switches are as before.  The status word printed in the record as
    [hth] is the one before the call: the outcome of logging this record
    shows in the next one. *)
Theorem OBS_Do_frame (env : Env) (log_obs : bool) (s : State) :
  RTC_valid s = true ->
  let s' := exec (OBS_Do V240719.s_gauge_median env log_obs) s in
  let o := observation env (scaled_median env s) s in
  s' = set_SystemStatusBits (SystemStatusBits s')
         (set_trace (trace s')
            (set_msgbuf (msgbuf s')
               (set_timestamp (timestamp s')
                  (set_now (now s')
                     (set_ds_valid (ds_valid s')
                        (set_ds_reading (ds_reading s')
                           (set_sg_buckets (sg_buckets s') s)))))))
  /\ now s' = rtc_now env /\ timestamp s' = iso8601 (rtc_now env)
  /\ (forall n, 0 <= n < 32 -> n <> 1 ->
      Z.testbit (SystemStatusBits s') n = Z.testbit (SystemStatusBits s) n)
  /\ (log_obs = false -> SystemStatusBits s' = SystemStatusBits s)
  /\ (ds_found s = false -> ds_reading s' = ds_reading s /\ ds_valid s' = ds_valid s)
  /\ msgbuf s' = serialize o
  /\ obs_hth o = to_int (SystemStatusBits s)
  /\ (log_obs = true -> SD_exists s = true ->
      SD_open_ok env (logfile_name (rtc_now env)) = false ->
      Z.testbit (SystemStatusBits s') 1 = true
      /\ obs_hth (observation env (scaled_median env s') s')
         = to_int (SystemStatusBits s')).
Proof.
  intros Hrtc s' o. unfold s', exec. rewrite OBS_Do_closed by exact Hrtc.
  cbn [snd]. unfold observed.
  split; [destruct s; unfold add_events; st_cbn; destruct ds_found0; st_cbn; reflexivity|].
  split; [destruct s; unfold add_events; st_cbn; destruct ds_found0; st_cbn; reflexivity|].
  split; [destruct s; unfold add_events; st_cbn; destruct ds_found0; st_cbn; reflexivity|].
  split.
  { intros n Hn H1. cbn [SystemStatusBits set_SystemStatusBits].
    destruct log_obs; [by apply log_bits_other | done]. }
  split; [by intros ->|].
  split; [intros Hd; destruct s; st_cbn_in Hd; subst; unfold add_events; st_cbn;
          split; reflexivity|].
  split; [destruct s; unfold add_events; st_cbn; destruct ds_found0; st_cbn; reflexivity|].
  split; [reflexivity|].
  intros -> Hsd Hopen. cbn [SystemStatusBits set_SystemStatusBits].
  split; [|reflexivity].
  unfold log_bits. rewrite Hsd, Hopen. rewrite Z.lor_spec. apply orb_true_r.
Qed.

Lemma OBS_Do_frame_witness :
  let s' := exec (OBS_Do V240719.s_gauge_median scenario_env_sd_fails true) scenario_state in
  RTC_valid scenario_state = true
  /\ SystemStatusBits scenario_state = 0
  /\ obs_hth (observation scenario_env_sd_fails
                (scaled_median scenario_env_sd_fails scenario_state) scenario_state) = 0
  /\ Z.testbit (SystemStatusBits s') 1 = true.
Proof.
  split; [reflexivity|]. split; [reflexivity|].
  destruct (OBS_Do_frame scenario_env_sd_fails true scenario_state)
    as (_ & _ & _ & _ & _ & _ & _ & H8 & H9); [reflexivity|].
  split; [exact H8|].
  apply H9; reflexivity.
Defined.


(** ** One pass of the loop *)

Lemma sleeps_app (e1 e2 : list event) : sleeps (e1 ++ e2) = sleeps e1 ++ sleeps e2.
Proof.
  induction e1 as [|e e1 IH]; [done|].
  destruct e; simpl; rewrite ?IH; done.
Qed.

Lemma sleeps_output (evs : list event) :
  forallb is_output evs = true -> sleeps evs = [].
Proof.
  induction evs as [|e evs IH]; [done|].
  destruct e; simpl; try done; apply IH.
Qed.

Lemma sleeps_obs_events (env : Env) (s : State) (log_obs : bool) (record : string) :
  sleeps (obs_events env s log_obs record) = [].
Proof.
  unfold obs_events, log_events.
  rewrite !sleeps_app.
  rewrite (sleeps_output _ (out_events_output _ _)).
  rewrite (sleeps_output _ (serial_events_output _ _)).
  destruct log_obs; [|done].
  rewrite (sleeps_output _ (out_events_output _ _)).
  destruct (SD_exists s); [|done].
  rewrite !sleeps_app, (sleeps_output _ (out_events_output _ _)).
  destruct (SD_open_ok env _); cbn [sleeps app];
    by rewrite (sleeps_output _ (out_events_output _ _)).
Qed.

Lemma sd_lines_sleep_tail (s : State) (on : bool) (str : string) :
  sd_lines ((if on then [Display_command true] else []) ++ out_events s str) = [].
Proof.
  rewrite sd_lines_app, (sd_lines_output _ (out_events_output _ _)).
  by destruct on.
Qed.

Lemma I2C_Check_Sensors_frame (env : Env) (s : State) :
  exists (evs : list event) (ex1 ex2 : bool) (bits : Z),
    I2C_Check_Sensors env s
    = (tt, set_SystemStatusBits bits (set_BMX_2_exists ex2
             (set_BMX_1_exists ex1 (add_events evs s))))
    /\ sleeps evs = [].
Proof.
  rewrite I2C_Check_Sensors_closed. unfold checked.
  destruct s. st_cbn.
  destruct (on_bus env BMX_ADDRESS_1), BMX_1_exists0;
    try destruct (begin_ok env (recovery_driver bmp1 bm31 BMX_1_chip_id0) BMX_ADDRESS_1);
    st_cbn;
    destruct (on_bus env BMX_ADDRESS_2), BMX_2_exists0;
    try destruct (begin_ok env (recovery_driver bmp2 bm32 BMX_2_chip_id0) BMX_ADDRESS_2);
    st_cbn;
    first
      [ exists []; eexists _, _, _; split; [rewrite app_nil_r; reflexivity | reflexivity]
      | eexists _, _, _, _;
        (split; [rewrite <- ?app_assoc; cbn [app]; reflexivity|]);
        rewrite ?sleeps_app; cbn [sleeps app];
        rewrite ?sleeps_app; cbn [sleeps app];
        rewrite ?(sleeps_output _ (out_events_output _ _)); reflexivity ].
Qed.

Lemma exec_bind {A B : Type} (c : M A) (k : A -> M B) (s : State) :
  exec (bind c k) s = exec (k (eval c s)) (exec c s).
Proof. unfold exec, eval, bind. by destruct (c s). Qed.

Lemma seconds_in_window (u : Z) :
  0 <= u ->
  1 <= 900 - c_rem u 900 <= 900
  /\ (u + (900 - c_rem u 900)) mod 900 = 0
  /\ (u mod 900 = 0 -> 900 - c_rem u 900 = 900).
Proof.
  intros Hu. unfold c_rem. rewrite Z.rem_mod_nonneg by lia.
  pose proof (Z.mod_pos_bound u 900 ltac:(lia)) as Hb.
  split; [lia|]. split; [|lia].
  rewrite (Z.div_mod u 900) at 1 by lia.
  replace (900 * (u / 900) + u mod 900 + (900 - u mod 900))
    with ((u / 900 + 1) * 900) by lia.
  apply Z_mod_mult.
Qed.

(** X23. [seconds_to_next_obs] reads the clock into [now] and returns the
    seconds left to the next quarter of an hour: a number from 1 to 900
    that, added to the time read, gives a multiple of 900.  Exactly on a
    quarter it returns 900, a whole period, never 0. *)
Theorem seconds_to_next_obs_aligned (env : Env) (s : State) :
  0 <= unixtime (rtc_now_sleep env) ->
  let secs := eval (seconds_to_next_obs env) s in
  1 <= secs <= 900
  /\ (unixtime (rtc_now_sleep env) + secs) mod 900 = 0
  /\ (unixtime (rtc_now_sleep env) mod 900 = 0 -> secs = 900)
  /\ exec (seconds_to_next_obs env) s = set_now (rtc_now_sleep env) s.
Proof.
  intros Hu secs.
  assert (E : secs = 900 - c_rem (unixtime (rtc_now_sleep env)) 900) by (by destruct s).
  rewrite E. destruct (seconds_in_window _ Hu) as (H1 & H2 & H3).
  repeat split; try done; lia.
Qed.

Lemma seconds_to_next_obs_aligned_witness :
  0 <= unixtime (rtc_now_sleep scenario_env)
  /\ unixtime (rtc_now_sleep scenario_env) = 1721390420
  /\ eval (seconds_to_next_obs scenario_env) scenario_state = 880
  /\ (1721390420 + eval (seconds_to_next_obs scenario_env) scenario_state) mod 900 = 0.
Proof.
  split; [vm_compute; discriminate|]. split; [reflexivity|]. split; [reflexivity|].
  apply (seconds_to_next_obs_aligned scenario_env scenario_state).
  vm_compute. discriminate.
Defined.

Lemma observed_flags (env : Env) (log_obs : bool) (s : State) :
  trace (observed env log_obs s)
  = trace s ++ obs_events env s log_obs
                 (serialize (observation env (scaled_median env s) s))
  /\ JustPoweredOn (observed env log_obs s) = JustPoweredOn s
  /\ DisplayEnabled (observed env log_obs s) = DisplayEnabled s
  /\ SerialConsoleEnabled (observed env log_obs s) = SerialConsoleEnabled s.
Proof.
  unfold observed. destruct s. unfold add_events. st_cbn.
  destruct ds_found0; st_cbn; done.
Qed.

Lemma JPO_ClearBits_flags (s : State) :
  trace (exec JPO_ClearBits s) = trace s
  /\ JustPoweredOn (exec JPO_ClearBits s) = false
  /\ DisplayEnabled (exec JPO_ClearBits s) = DisplayEnabled s
  /\ SerialConsoleEnabled (exec JPO_ClearBits s) = SerialConsoleEnabled s.
Proof.
  unfold exec. destruct (JustPoweredOn s) eqn:E.
  - rewrite JPO_ClearBits_run by done. by destruct s.
  - rewrite JPO_ClearBits_noop by done. by destruct s.
Qed.

(** X24. One pass of normal operation sends the processor to sleep
    exactly once, for the milliseconds left to the next quarter of an
    hour, at least 1000 and at most 900000: everything written to the SD
    card in the pass is written before the sleep, and after it only the
    display is switched on and the wake-up line written.  [JustPoweredOn]
    is false afterwards. *)
Theorem loop_normal_operation_sleeps_once (env : Env) (s : State) :
  RTC_valid s = true ->
  0 <= unixtime (rtc_now_sleep env) ->
  let s' := exec (loop_normal_operation V240719.s_gauge_median env) s in
  let ms := 1000 * (900 - unixtime (rtc_now_sleep env) mod 900) in
  exists before after : list event,
    trace s' = trace s ++ before ++ LowPower_sleep ms :: after
    /\ sleeps before = []
    /\ after = (if DisplayEnabled s then [Display_command true] else [])
               ++ out_events s "Wakeup"
    /\ sd_lines after = [] /\ sd_opens after = []
    /\ 1000 <= ms <= 900000
    /\ JustPoweredOn s' = false.
Proof.
  intros Hrtc Hu s' ms.
  destruct (I2C_Check_Sensors_frame env s) as (e1 & ex1 & ex2 & b1 & R1 & S1).
  set (s1 := set_SystemStatusBits b1 (set_BMX_2_exists ex2
               (set_BMX_1_exists ex1 (add_events e1 s)))) in R1.
  assert (F1 : trace s1 = trace s ++ e1 /\ RTC_valid s1 = true
               /\ DisplayEnabled s1 = DisplayEnabled s
               /\ SerialConsoleEnabled s1 = SerialConsoleEnabled s).
  { unfold s1. destruct s. st_cbn_in Hrtc. by subst. }
  destruct F1 as (T1 & V1 & D1 & C1).
  destruct (observed_flags env true s1) as (T2 & J2 & D2 & C2).
  set (s2 := observed env true s1) in *.
  destruct (JPO_ClearBits_flags s2) as (T3 & J3 & D3 & C3).
  set (s3 := exec JPO_ClearBits s2) in *.
  pose proof (seconds_in_window _ Hu) as (W1 & _ & _).
  assert (Hrem : c_rem (unixtime (rtc_now_sleep env)) 900
                 = unixtime (rtc_now_sleep env) mod 900).
  { unfold c_rem. apply Z.rem_mod_nonneg; lia. }
  assert (E : s' = add_events
                     (out_events s "Going to Sleep"
                      ++ (if DisplayEnabled s then [Display_command false] else [])
                      ++ LowPower_sleep ms
                         :: (if DisplayEnabled s then [Display_command true] else [])
                         ++ out_events s "Wakeup")
                     (set_now (rtc_now_sleep env) s3)).
  { unfold s', loop_normal_operation.
    rewrite exec_bind. unfold exec at 2. rewrite R1. cbn [snd].
    rewrite exec_bind. unfold exec at 2. rewrite OBS_Do_closed by exact V1. cbn [snd].
    fold s2. rewrite exec_bind. fold s3.
    rewrite exec_bind. unfold exec at 2. rewrite Output_run. cbn [snd].
    rewrite exec_bind. unfold exec at 2. rewrite OLED_sleepDisplay_run. cbn [snd].
    assert (Hms : to_int (eval (seconds_to_next_obs env)
                            (add_events
                               (if DisplayEnabled (add_events (out_events s3 "Going to Sleep") s3)
                                then [Display_command false] else [])
                               (add_events (out_events s3 "Going to Sleep") s3)) * 1000) = ms).
    { unfold ms. rewrite <- Hrem.
      change (eval (seconds_to_next_obs env) ?st)
        with (900 - c_rem (unixtime (rtc_now_sleep env)) 900).
      rewrite to_int_small; lia. }
    rewrite exec_bind. rewrite Hms.
    change (exec (seconds_to_next_obs env) ?st) with (set_now (rtc_now_sleep env) st).
    rewrite exec_bind.
    rewrite exec_bind. unfold exec at 2. rewrite OLED_wakeDisplay_run. cbn [snd].
    unfold exec. rewrite Output_run. cbn [snd].
    unfold out_events, serial_events.
    rewrite D2, D1 in D3. rewrite C2, C1 in C3.
    clearbody s3. destruct s3 as [? ? ? de3 ce3].
    cbn [DisplayEnabled SerialConsoleEnabled] in D3, C3. subst de3 ce3.
    unfold add_events. st_cbn.
    rewrite <- ?app_assoc. cbn [app]. reflexivity. }
  exists (e1 ++ obs_events env s1 true
                  (serialize (observation env (scaled_median env s1) s1))
          ++ out_events s "Going to Sleep"
          ++ (if DisplayEnabled s then [Display_command false] else [])),
    ((if DisplayEnabled s then [Display_command true] else []) ++ out_events s "Wakeup").
  split.
  { rewrite E.
    assert (Ht : forall evs n st, trace (add_events evs (set_now n st)) = trace st ++ evs)
      by (by intros ? ? []).
    rewrite Ht, T3, T2, T1.
    rewrite <- ?app_assoc. cbn [app]. reflexivity. }
  split.
  { rewrite !sleeps_app, S1, sleeps_obs_events.
    rewrite (sleeps_output _ (out_events_output _ _)). by destruct (DisplayEnabled s). }
  split; [reflexivity|].
  split; [apply sd_lines_sleep_tail|].
  split.
  { rewrite sd_opens_app, (sd_opens_output _ (out_events_output _ _)).
    by destruct (DisplayEnabled s). }
  split; [unfold ms; rewrite <- Hrem; lia|].
  rewrite E.
  assert (Hj : forall evs n st,
            JustPoweredOn (add_events evs (set_now n st)) = JustPoweredOn st)
    by (by intros ? ? []).
  by rewrite Hj.
Qed.

Lemma loop_normal_operation_sleeps_once_witness :
  let s' := exec (loop_normal_operation V240719.s_gauge_median scenario_env)
              scenario_state in
  RTC_valid scenario_state = true
  /\ sleeps (trace s') = [880000]
  /\ JustPoweredOn s' = false.
Proof.
  split; [reflexivity|].
  destruct (loop_normal_operation_sleeps_once scenario_env scenario_state)
    as (before & after & T & Sb & A & _ & _ & _ & J);
    [reflexivity | vm_compute; discriminate |].
  split; [|exact J].
  rewrite T. change (trace scenario_state) with (@nil event).
  cbn [app]. rewrite sleeps_app, Sb. cbn [sleeps app].
  rewrite A, sleeps_app, (sleeps_output _ (out_events_output _ _)).
  reflexivity.
Defined.


(** ** The log file *)

(** X25. [SD_LogObservation] with a card and a valid clock opens one
    file, named after the date of the last clock reading held in [now],
    writes the record to it as one line when it opens, and touches SSB_SD
    (bit 1) alone among the status bits: the bit is cleared by a
    successful write and set by a failed open.  A record that could not
    be written is not kept: after a failure followed by a success the
    card has received the second record only, and the bit is clear
    again. *)
Theorem SD_LogObservation_bit (env env2 : Env) (obs obs2 : string) (s : State) :
  RTC_valid s = true -> SD_exists s = true ->
  let file := logfile_name (now s) in
  let s' := exec (SD_LogObservation env obs) s in
  let s'' := exec (SD_LogObservation env2 obs2) s' in
  (exists evs, trace s' = trace s ++ evs
               /\ sd_opens evs = [file]
               /\ sd_lines evs = (if SD_open_ok env file then [obs] else []))
  /\ Z.testbit (SystemStatusBits s') 1 = negb (SD_open_ok env file)
  /\ (forall n, 0 <= n < 32 -> n <> 1 ->
      Z.testbit (SystemStatusBits s') n = Z.testbit (SystemStatusBits s) n)
  /\ s' = set_SystemStatusBits (SystemStatusBits s') (set_trace (trace s') s)
  /\ (SD_open_ok env file = false -> SD_open_ok env2 file = true ->
      Z.testbit (SystemStatusBits s'') 1 = false
      /\ sd_lines (trace s'') = sd_lines (trace s) ++ [obs2]).
Proof.
  intros Hrtc Hsd file s' s''.
  assert (E : forall (e : Env) (o : string) (st : State),
            RTC_valid st = true -> SD_exists st = true ->
            exec (SD_LogObservation e o) st
            = set_SystemStatusBits
                (if SD_open_ok e (logfile_name (now st))
                 then Z.land (SystemStatusBits st) (bit_not SSB_SD)
                 else Z.lor (SystemStatusBits st) SSB_SD)
                (add_events
                   (out_events st (logfile_name (now st))
                    ++ [SD_open (logfile_name (now st))]
                    ++ (if SD_open_ok e (logfile_name (now st))
                        then SD_println (logfile_name (now st)) o
                               :: out_events st "OBS Logged to SD"
                        else out_events st "OBS Open Log Err")) st)).
  { intros e o st Hv Hx. unfold exec. rewrite SD_LogObservation_run by exact Hv.
    cbn [snd]. unfold log_bits, log_events. by rewrite Hx. }
  assert (B : forall x : Z,
            Z.testbit (Z.land x (bit_not SSB_SD)) 1 = false
            /\ Z.testbit (Z.lor x SSB_SD) 1 = true).
  { intros x. split.
    - rewrite testbit_clear by lia. apply andb_false_r.
    - rewrite Z.lor_spec. apply orb_true_r. }
  assert (L : forall (e : Env) (o : string) (st : State),
            sd_opens (out_events st (logfile_name (now st))
                      ++ [SD_open (logfile_name (now st))]
                      ++ (if SD_open_ok e (logfile_name (now st))
                          then SD_println (logfile_name (now st)) o
                                 :: out_events st "OBS Logged to SD"
                          else out_events st "OBS Open Log Err"))
            = [logfile_name (now st)]
            /\ sd_lines (out_events st (logfile_name (now st))
                         ++ [SD_open (logfile_name (now st))]
                         ++ (if SD_open_ok e (logfile_name (now st))
                             then SD_println (logfile_name (now st)) o
                                    :: out_events st "OBS Logged to SD"
                             else out_events st "OBS Open Log Err"))
               = (if SD_open_ok e (logfile_name (now st)) then [o] else [])).
  { intros e o st. rewrite !sd_opens_app, !sd_lines_app.
    rewrite (sd_opens_output _ (out_events_output _ _)).
    rewrite (sd_lines_output _ (out_events_output _ _)).
    destruct (SD_open_ok e _); cbn [sd_opens sd_lines app];
      rewrite ?(sd_opens_output _ (out_events_output _ _)),
        ?(sd_lines_output _ (out_events_output _ _)); done. }
  assert (E1 := E env obs s Hrtc Hsd). fold s' file in E1.
  split.
  { eexists. split; [rewrite E1; by destruct s|]. apply L. }
  split.
  { rewrite E1. cbn [SystemStatusBits set_SystemStatusBits]. fold file.
    destruct (SD_open_ok env file); apply B. }
  split.
  { intros n Hn H1. rewrite E1. cbn [SystemStatusBits set_SystemStatusBits].
    destruct (SD_open_ok env file).
    - rewrite testbit_clear by lia.
      change SSB_SD with (2 ^ 1). rewrite Z.pow2_bits_eqb by lia.
      destruct (Z.eqb_spec 1 n); [lia|]. apply andb_true_r.
    - rewrite Z.lor_spec. change SSB_SD with (2 ^ 1). rewrite Z.pow2_bits_eqb by lia.
      destruct (Z.eqb_spec 1 n); [lia|]. apply orb_false_r. }
  split; [rewrite E1; by destruct s|].
  intros Hfail Hok.
  assert (Hs' : RTC_valid s' = true /\ SD_exists s' = true /\ now s' = now s).
  { rewrite E1. destruct s. st_cbn_in Hrtc. st_cbn_in Hsd. by subst. }
  destruct Hs' as (Hrtc' & Hsd' & Hnow').
  assert (E2 := E env2 obs2 s' Hrtc' Hsd'). fold s'' in E2.
  rewrite Hnow' in E2. fold file in E2. rewrite Hok in E2.
  split.
  { rewrite E2. cbn [SystemStatusBits set_SystemStatusBits]. apply B. }
  rewrite E2.
  assert (Ht : forall b evs st, trace (set_SystemStatusBits b (add_events evs st))
                                = trace st ++ evs) by (by intros ? ? []).
  rewrite Ht, E1, Ht. fold file. rewrite Hfail.
  rewrite !sd_lines_app.
  rewrite !(sd_lines_output _ (out_events_output _ _)).
  cbn [sd_lines app].
  rewrite !(sd_lines_output _ (out_events_output _ _)).
  by rewrite app_nil_r.
Qed.

Lemma SD_LogObservation_bit_witness :
  let s' := exec (SD_LogObservation scenario_env_sd_fails "first")
              (set_now (rtc_now scenario_env) scenario_state) in
  let s'' := exec (SD_LogObservation scenario_env "second") s' in
  Z.testbit (SystemStatusBits s') 1 = true
  /\ Z.testbit (SystemStatusBits s'') 1 = false
  /\ sd_lines (trace s'') = ["second"%string].
Proof.
  destruct (SD_LogObservation_bit scenario_env_sd_fails scenario_env "first" "second"
              (set_now (rtc_now scenario_env) scenario_state))
    as (_ & H2 & _ & _ & H5); [reflexivity | reflexivity |].
  split; [exact H2|]. apply H5; reflexivity.
Defined.

